(** * Survey-analyzer: the statistics and segmentation engine

    A shallow embedding of [src/survey_analyzer/statistics.py]
    ([StatisticsCalculator]) together with the part of pandas it relies on.

    Modelling conventions.
    - A [DataFrame] is a row count (the length of its index) and an ordered
      list of named, typed columns.  A column is numeric (int64/float64, [None]
      standing for NaN), text (object dtype holding [str], [None] for a
      missing value) or datetime (whole seconds since the epoch, [None] for
      NaT).  Columns of mixed type are not represented.
    - A Python float is an exact rational ([Fin]), the square root of an exact
      rational ([Sqrt], what a standard deviation is) or [NaN]; binary
      rounding is not modelled.  Counts, and sums of whole-number scores, are
      exact in double precision too, so that on the scales of the survey a
      mean is the exact quotient up to its final rounding; on other decimal
      values pandas may differ from the exact value in the last digits.
      Properties that such a difference could overturn (the order of two
      means, a variance being zero, an average staying within the range of its
      values) are stated for whole-number scores, [survey_scores].
    - A Python exception is a value of [exn]; a computation that can raise
      lives in [result] and is sequenced in the order Python evaluates it.
    - pandas is followed as of its 2.x releases: reductions skip missing
      values, comparisons with NaN are false, [groupby] drops missing keys and
      sorts the others, numeric reductions of text raise [TypeError].  Numeric
      reductions of a datetime column are outside the model and raise
      [TypeError] as well. *)

From Stdlib Require Import String Ascii ZArith QArith Qround Bool Lia Lqa Arith DecimalString List Permutation Sorted.
Import ListNotations.

Open Scope string_scope.

(** ** Exceptions and the error monad *)

Inductive exn : Type :=
| KeyError (key : string)
| ZeroDivisionError
| ValueError
| TypeError
| AttributeError.

Inductive result (A : Type) : Type :=
| Ok (a : A)
| Raise (e : exn).

Arguments Ok {A} a.
Arguments Raise {A} e.

Definition bind {A B : Type} (m : result A) (k : A -> result B) : result B :=
  match m with
  | Ok a => k a
  | Raise e => Raise e
  end.

Notation "x <- m ;; k" := (bind m (fun x => k))
  (at level 61, m at next level, right associativity).

Definition returns {A : Type} (m : result A) : Prop := exists a, m = Ok a.

Definition raises {A : Type} (m : result A) : Prop := exists e, m = Raise e.

(** ** Scalars, floats and columns *)

(** A non-missing cell. *)
Inductive scalar : Type :=
| SNum (q : Q)
| SStr (s : string)
| STime (t : Z).

(** A cell; [None] is what [pd.isna] accepts. *)
Definition cell : Type := option scalar.

Inductive pyfloat : Type :=
| Fin (q : Q)
| Sqrt (q : Q)
| NaN.

Inductive Series : Type :=
| NumS (xs : list (option Q))
| StrS (xs : list (option string))
| TimeS (xs : list (option Z)).

Definition cells (s : Series) : list cell :=
  match s with
  | NumS xs => map (option_map (fun q => SNum (Qred q))) xs
  | StrS xs => map (option_map SStr) xs
  | TimeS xs => map (option_map STime) xs
  end.

Definition series_len (s : Series) : nat :=
  match s with
  | NumS xs => length xs
  | StrS xs => length xs
  | TimeS xs => length xs
  end.

Definition is_none {A : Type} (o : option A) : bool :=
  match o with
  | None => true
  | Some _ => false
  end.

Definition is_some {A : Type} (o : option A) : bool := negb (is_none o).

Definition count_true (bs : list bool) : nat := length (filter (fun b => b) bs).

(** [s.isnull()] *)
Definition isnull (s : Series) : list bool :=
  match s with
  | NumS xs => map is_none xs
  | StrS xs => map is_none xs
  | TimeS xs => map is_none xs
  end.

(** ** Data frames *)

Record DataFrame : Type := mkDataFrame {
  nrows : nat;
  columns : list (string * Series)
}.

(** [len(df)] *)
Definition len (df : DataFrame) : nat := nrows df.

Fixpoint lookup (col : string) (cols : list (string * Series)) : option Series :=
  match cols with
  | [] => None
  | (name, s) :: rest => if String.eqb col name then Some s else lookup col rest
  end.

(** [col in df.columns] *)
Definition has_column (df : DataFrame) (col : string) : bool :=
  is_some (lookup col (columns df)).

(** [df[col]] *)
Definition getitem (df : DataFrame) (col : string) : result Series :=
  match lookup col (columns df) with
  | Some s => Ok s
  | None => Raise (KeyError col)
  end.

Fixpoint distinct_names (names : list string) : bool :=
  match names with
  | [] => true
  | n :: rest => negb (existsb (String.eqb n) rest) && distinct_names rest
  end.

(** Every column has one cell per row and no label occurs twice. *)
Definition well_formed (df : DataFrame) : bool :=
  forallb (fun c => Nat.eqb (series_len (snd c)) (nrows df)) (columns df)
  && distinct_names (map fst (columns df)).

Fixpoint mask_list {A : Type} (mask : list bool) (xs : list A) : list A :=
  match mask, xs with
  | b :: mask', x :: xs' => if b then x :: mask_list mask' xs' else mask_list mask' xs'
  | _, _ => []
  end.

Definition mask_series (mask : list bool) (s : Series) : Series :=
  match s with
  | NumS xs => NumS (mask_list mask xs)
  | StrS xs => StrS (mask_list mask xs)
  | TimeS xs => TimeS (mask_list mask xs)
  end.

(** [df[mask]]: the rows where the boolean mask is true. *)
Definition select_rows (df : DataFrame) (mask : list bool) : DataFrame :=
  {| nrows := count_true mask;
     columns := map (fun c => (fst c, mask_series mask (snd c))) (columns df) |}.

(** ** Comparisons of a column with a number *)

(** [s >= c] and [s <= c] for an integer [c].  A missing value compares
    false; text against a number raises; so does a datetime column. *)
Definition compare_scalar (test : Q -> bool) (s : Series) : result (list bool) :=
  match s with
  | NumS xs => Ok (map (fun x => match x with Some q => test q | None => false end) xs)
  | StrS xs => if forallb is_none xs then Ok (map (fun _ => false) xs) else Raise TypeError
  | TimeS _ => Raise TypeError
  end.

Definition ge_scalar (s : Series) (c : Q) : result (list bool) :=
  compare_scalar (fun q => Qle_bool c q) s.

Definition le_scalar (s : Series) (c : Q) : result (list bool) :=
  compare_scalar (fun q => Qle_bool q c) s.

(** ** Net Promoter Score *)

Definition Qnat (n : nat) : Q := inject_Z (Z.of_nat n).

(** [StatisticsCalculator.calculate_nps] *)
Definition calculate_nps (df : DataFrame) (nps_column : string) : result pyfloat :=
  let total := len df in
  if Nat.eqb total 0 then Ok (Fin 0)
  else
    s <- getitem df nps_column ;;
    m <- ge_scalar s 9 ;;
    let promoters := len (select_rows df m) in
    s' <- getitem df nps_column ;;
    m' <- le_scalar s' 6 ;;
    let detractors := len (select_rows df m') in
    Ok (Fin (((Qnat promoters - Qnat detractors) / Qnat total) * 100)).

(** The default argument of [calculate_nps]. *)
Definition likelihood_to_recommend : string := "likelihood_to_recommend".

(** ** Reductions of a column *)

(** The numbers a numeric reduction works on: missing values are skipped.  A
    text column holding no text reduces like an empty numeric column. *)
Definition dropna {A : Type} (xs : list (option A)) : list A :=
  flat_map (fun x => match x with Some a => [a] | None => [] end) xs.

Definition numeric_values (s : Series) : result (list Q) :=
  match s with
  | NumS xs => Ok (dropna xs)
  | StrS xs => if forallb is_none xs then Ok [] else Raise TypeError
  | TimeS _ => Raise TypeError
  end.

Definition Qsum (xs : list Q) : Q := fold_right Qplus 0%Q xs.

(** The mean, as an exact quotient.  pandas adds and divides in double
    precision: the sum of whole-number scores is exact there and the quotient
    is rounded once; on other decimal values the sum is rounded too (the mean
    of three times 0.1 is 0.10000000000000002). *)
Definition mean_of (xs : list Q) : option Q :=
  match xs with
  | [] => None
  | _ => Some (Qred (Qsum xs / Qnat (length xs)))
  end.

(** Sample variance (ddof = 1); undefined below two observations.  It is
    exact as well: of equal whole-number scores pandas finds a variance of
    zero as here, of equal decimal values it may find a rounding residue. *)
Definition var_of (xs : list Q) : option Q :=
  match mean_of xs with
  | None => None
  | Some m =>
      if Nat.ltb (length xs) 2 then None
      else Some (Qred (Qsum (map (fun x => (x - m) * (x - m)) xs) / Qnat (length xs - 1)))
  end.

Fixpoint insert_sorted (x : Q) (xs : list Q) : list Q :=
  match xs with
  | [] => [x]
  | y :: ys => if Qle_bool x y then x :: y :: ys else y :: insert_sorted x ys
  end.

Definition sort_values (xs : list Q) : list Q := fold_right insert_sorted [] xs.

(** Quantile by linear interpolation between the two closest ranks. *)
Definition quantile_of (p : Q) (xs : list Q) : option Q :=
  match sort_values xs with
  | [] => None
  | (v0 :: _) as vs =>
      let pos := (p * Qnat (length vs - 1))%Q in
      let lo := Z.to_nat (Qfloor pos) in
      let frac := (pos - Qnat lo)%Q in
      let a := nth lo vs v0 in
      let b := nth (S lo) vs a in
      Some (Qred (a + frac * (b - a)))
  end.

Definition median_of (xs : list Q) : option Q :=
  match sort_values xs with
  | [] => None
  | (v0 :: _) as vs =>
      let n := length vs in
      if Nat.even n
      then Some (Qred ((nth (n / 2 - 1) vs v0 + nth (n / 2) vs v0) / 2))
      else Some (Qred (nth (n / 2) vs v0))
  end.

Definition float_of (o : option Q) : pyfloat :=
  match o with
  | Some q => Fin q
  | None => NaN
  end.

Definition sqrt_of (o : option Q) : pyfloat :=
  match o with
  | Some q => Sqrt q
  | None => NaN
  end.

(** [s.mean()], [s.std()], [s.quantile(p)], [s.median()], [s.count()] *)
Definition mean (s : Series) : result pyfloat :=
  vs <- numeric_values s ;; Ok (float_of (mean_of vs)).

Definition std (s : Series) : result pyfloat :=
  vs <- numeric_values s ;; Ok (sqrt_of (var_of vs)).

Definition quantile (s : Series) (p : Q) : result pyfloat :=
  vs <- numeric_values s ;; Ok (float_of (quantile_of p vs)).

Definition median (s : Series) : result pyfloat :=
  vs <- numeric_values s ;; Ok (float_of (median_of vs)).

Definition count (s : Series) : nat := count_true (map negb (isnull s)).

(** ** Python values, minimum and maximum, dates *)

Inductive pyval : Type :=
| VNaN
| VNaT
| VNum (q : Q)
| VStr (s : string)
| VTime (t : Z).

Definition pyval_of_scalar (v : scalar) : pyval :=
  match v with
  | SNum q => VNum q
  | SStr s => VStr s
  | STime t => VTime t
  end.

Definition least {A : Type} (lt : A -> A -> bool) (xs : list A) : option A :=
  match xs with
  | [] => None
  | x :: rest => Some (fold_left (fun m y => if lt y m then y else m) rest x)
  end.

Definition Qlt_bool (a b : Q) : bool := negb (Qle_bool b a).

(** [s.min()] and [s.max()].  Missing values are skipped in a numeric and in
    a datetime column; in a column of text they are compared with the strings,
    which raises [TypeError]. *)
Definition series_min (s : Series) : result pyval :=
  match s with
  | NumS xs =>
      Ok match least Qlt_bool (dropna xs) with Some q => VNum q | None => VNaN end
  | StrS xs =>
      match least String.ltb (dropna xs) with
      | Some t => if forallb is_some xs then Ok (VStr t) else Raise TypeError
      | None => Ok VNaN
      end
  | TimeS xs =>
      Ok match least Z.ltb (dropna xs) with Some t => VTime t | None => VNaT end
  end.

Definition series_max (s : Series) : result pyval :=
  match s with
  | NumS xs =>
      Ok match least (fun a b => Qlt_bool b a) (dropna xs) with
         | Some q => VNum q
         | None => VNaN
         end
  | StrS xs =>
      match least (fun a b => String.ltb b a) (dropna xs) with
      | Some t => if forallb is_some xs then Ok (VStr t) else Raise TypeError
      | None => Ok VNaN
      end
  | TimeS xs =>
      Ok match least (fun a b => Z.ltb b a) (dropna xs) with
         | Some t => VTime t
         | None => VNaT
         end
  end.

(** The proleptic Gregorian date of a day number counted from 1970-01-01. *)
Definition civil_from_days (days : Z) : Z * Z * Z :=
  let z := (days + 719468)%Z in
  let era := (z / 146097)%Z in
  let doe := (z - era * 146097)%Z in
  let yoe := ((doe - doe / 1460 + doe / 36524 - doe / 146096) / 365)%Z in
  let doy := (doe - (365 * yoe + yoe / 4 - yoe / 100))%Z in
  let mp := ((5 * doy + 2) / 153)%Z in
  let d := (doy - (153 * mp + 2) / 5 + 1)%Z in
  let m := (if mp <? 10 then mp + 3 else mp - 9)%Z in
  let y := (yoe + era * 400)%Z in
  ((if m <=? 2 then y + 1 else y)%Z, m, d).

Definition decimal (z : Z) : string := NilEmpty.string_of_int (Z.to_int z).

Fixpoint zeros (n : nat) : string :=
  match n with
  | O => ""
  | S n' => "0" ++ zeros n'
  end.

Definition zero_pad (width : nat) (z : Z) : string :=
  let digits := decimal z in
  zeros (width - String.length digits) ++ digits.

(** [str(datetime.date)] *)
Definition isoformat (days : Z) : string :=
  let '(y, m, d) := civil_from_days days in
  zero_pad 4 y ++ "-" ++ zero_pad 2 m ++ "-" ++ zero_pad 2 d.

(** [str(v.date())] inside an f-string: a [Timestamp] gives its date, [NaT]
    gives [NaT], any other value has no attribute [date]. *)
Definition date_str (v : pyval) : result string :=
  match v with
  | VTime t => Ok (isoformat (t / 86400))
  | VNaT => Ok "NaT"
  | _ => Raise AttributeError
  end.

(** ** Completion rate *)

Definition list_sum_nat (ns : list nat) : nat := fold_right Nat.add 0%nat ns.

(** [df.isnull().sum().sum()] *)
Definition missing_cell_count (df : DataFrame) : nat :=
  list_sum_nat (map (fun c => count_true (isnull (snd c))) (columns df)).

(** [len(df) * len(df.columns)] *)
Definition total_cell_count (df : DataFrame) : nat :=
  (len df * length (columns df))%nat.

(** [StatisticsCalculator._calculate_completion_rate] *)
Definition _calculate_completion_rate (df : DataFrame) : pyfloat :=
  if Nat.eqb (len df) 0 then Fin 0
  else
    let total_cells := total_cell_count df in
    let missing_cells := missing_cell_count df in
    if Nat.ltb 0 total_cells
    then Fin (100 - (Qnat missing_cells / Qnat total_cells * 100))
    else Fin 100.

(** ** Grouping *)

(** The order [groupby] sorts its keys by.  A column holds one kind of
    scalar; the clauses across kinds only make the order total. *)
Definition scalar_compare (a b : scalar) : comparison :=
  match a, b with
  | SNum x, SNum y => Qcompare x y
  | SStr x, SStr y => String.compare x y
  | STime x, STime y => Z.compare x y
  | SNum _, _ => Lt
  | _, SNum _ => Gt
  | SStr _, _ => Lt
  | _, SStr _ => Gt
  end.

Definition scalar_eqb (a b : scalar) : bool :=
  match scalar_compare a b with
  | Eq => true
  | _ => false
  end.

Fixpoint insert_key (k : scalar) (ks : list scalar) : list scalar :=
  match ks with
  | [] => [k]
  | k' :: rest =>
      match scalar_compare k k' with
      | Lt => k :: k' :: rest
      | Eq => k' :: rest
      | Gt => k' :: insert_key k rest
      end
  end.

(** The keys of [df.groupby(col)]: the distinct non-missing values, sorted. *)
Definition group_keys (s : Series) : list scalar :=
  fold_right insert_key [] (dropna (cells s)).

(** The rows of the group of key [k]. *)
Definition key_mask (s : Series) (k : scalar) : list bool :=
  map (fun c => match c with Some v => scalar_eqb v k | None => false end) (cells s).

Fixpoint mapM {A B : Type} (f : A -> result B) (xs : list A) : result (list B) :=
  match xs with
  | [] => Ok []
  | x :: rest => y <- f x ;; ys <- mapM f rest ;; Ok (y :: ys)
  end.

(** [df.groupby(by)[col].mean()]: a series indexed by the group keys. *)
Definition groupby_mean (df : DataFrame) (by_col col : string)
  : result (list (scalar * pyfloat)) :=
  keys <- getitem df by_col ;;
  values <- getitem df col ;;
  mapM (fun k => m <- mean (mask_series (key_mask keys k) values) ;; Ok (k, m))
       (group_keys keys).

(** The entries that are numbers, in order: what [idxmax] and [max] look at. *)
Definition finite_entries (s : list (scalar * pyfloat)) : list (scalar * Q) :=
  flat_map (fun e => match snd e with Fin q => [(fst e, q)] | _ => [] end) s.

(** The first entry holding the greatest value. *)
Fixpoint argmax (best : scalar * Q) (rest : list (scalar * Q)) : scalar * Q :=
  match rest with
  | [] => best
  | e :: rest' => if Qlt_bool (snd best) (snd e) then argmax e rest' else argmax best rest'
  end.

(** [s.idxmax()]: raises on an empty series, NaN when every entry is NaN. *)
Definition idxmax (s : list (scalar * pyfloat)) : result pyval :=
  match s with
  | [] => Raise ValueError
  | _ =>
      match finite_entries s with
      | [] => Ok VNaN
      | e :: rest => Ok (pyval_of_scalar (fst (argmax e rest)))
      end
  end.

(** [s.max()] of a series of floats. *)
Definition max_value (s : list (scalar * pyfloat)) : pyfloat :=
  match finite_entries s with
  | [] => NaN
  | e :: rest => Fin (snd (argmax e rest))
  end.

(** ** Rounding to two decimals *)

Definition round_half_even (x : Q) : Z :=
  let f := Qfloor x in
  match Qcompare (x - inject_Z f) (1 # 2) with
  | Lt => f
  | Gt => (f + 1)%Z
  | Eq => if Z.even f then f else (f + 1)%Z
  end.

(** The integer nearest to the square root of [w], ties to even. *)
Definition round_sqrt (w : Q) : Z :=
  let k := Z.sqrt (Qfloor w) in
  let h := (inject_Z k + (1 # 2))%Q in
  match Qcompare w (h * h) with
  | Lt => k
  | Gt => (k + 1)%Z
  | Eq => if Z.even k then k else (k + 1)%Z
  end.

(** [round(x, 2)], of the exact value.  pandas rounds the double, which on a
    value halfway between two hundredths (1.225, a mean of 49/40) may go the
    other way; both results are within 0.005 of the exact value. *)
Definition round2 (x : pyfloat) : pyfloat :=
  match x with
  | Fin q => Fin (Qred (inject_Z (round_half_even (q * 100)) / 100))
  | Sqrt v => Fin (Qred (inject_Z (round_sqrt (v * 10000)) / 100))
  | NaN => NaN
  end.

(** ** Segment analysis *)

Record Aggregate : Type := mkAggregate {
  agg_mean : pyfloat;
  agg_std : pyfloat;
  agg_count : nat
}.

(** A table with one row per group and, per metric column, the three
    aggregates. *)
Record SegmentTable : Type := mkSegmentTable {
  table_columns : list string;
  table_rows : list (scalar * list Aggregate)
}.

(** [pd.DataFrame()] *)
Definition empty_table : SegmentTable :=
  {| table_columns := []; table_rows := [] |}.

(** [.agg(['mean', 'std', 'count']).round(2)] on the values of one group. *)
Definition aggregate (s : Series) : result Aggregate :=
  m <- mean s ;;
  sd <- std s ;;
  Ok {| agg_mean := round2 m; agg_std := round2 sd; agg_count := count s |}.

Definition numeric_cols : list string :=
  ["satisfaction"; "product_quality"; "customer_service";
   "value_for_money"; "likelihood_to_recommend"].

(** [StatisticsCalculator.analyze_by_segment] *)
Definition analyze_by_segment (df : DataFrame) (segment_column : string)
  : result SegmentTable :=
  let available_cols := filter (has_column df) numeric_cols in
  match available_cols with
  | [] => Ok empty_table
  | _ =>
      keys <- getitem df segment_column ;;
      rows <- mapM (fun k =>
                      aggs <- mapM (fun col =>
                                      values <- getitem df col ;;
                                      aggregate (mask_series (key_mask keys k) values))
                                   available_cols ;;
                      Ok (k, aggs))
                   (group_keys keys) ;;
      Ok {| table_columns := available_cols; table_rows := rows |}
  end.

(** ** Text *)

(** [str.lower] on ASCII text. *)
Definition lower_ascii (c : ascii) : ascii :=
  let n := nat_of_ascii c in
  if Nat.leb 65 n && Nat.leb n 90 then ascii_of_nat (n + 32) else c.

Fixpoint lower (s : string) : string :=
  match s with
  | EmptyString => EmptyString
  | String c rest => String (lower_ascii c) (lower rest)
  end.

(** [word in text]: [word] occurs in [text] as a substring. *)
Fixpoint py_in (word text : string) : bool :=
  prefix word text
  || match text with
     | EmptyString => false
     | String _ rest => py_in word rest
     end.

Fixpoint frac_digits (fuel : nat) (r d : Z) : string :=
  match fuel with
  | O => ""
  | S fuel' =>
      let r10 := (r * 10)%Z in
      decimal (r10 / d)
      ++ (if (r10 mod d =? 0)%Z then "" else frac_digits fuel' (r10 mod d) d)
  end.

(** [str] of a number, in positional notation with at least one and at most
    seventeen fractional digits (Python prints the shortest digits that
    round-trip; in both renderings the only characters are a sign, digits
    and a point). *)
Definition str_num (q : Q) : string :=
  let n := Qnum q in
  let d := Zpos (Qden q) in
  let a := Z.abs n in
  (if (n <? 0)%Z then "-" else "") ++ decimal (a / d) ++ "." ++ frac_digits 17 (a mod d) d.

(** [str] of a timestamp. *)
Definition str_time (t : Z) : string :=
  let s := (t mod 86400)%Z in
  isoformat (t / 86400) ++ " " ++ zero_pad 2 (s / 3600) ++ ":"
  ++ zero_pad 2 (s mod 3600 / 60) ++ ":" ++ zero_pad 2 (s mod 60).

(** [str(text)] *)
Definition py_str (text : scalar) : string :=
  match text with
  | SStr s => s
  | SNum q => str_num q
  | STime t => str_time t
  end.

(** ** Sentiment *)

Definition positive_words : list string :=
  ["excellent"; "great"; "amazing"; "fantastic"; "love"; "perfect";
   "outstanding"; "wonderful"; "satisfied"; "recommend"; "exceeded"].

Definition negative_words : list string :=
  ["poor"; "bad"; "terrible"; "disappointed"; "awful"; "horrible";
   "worse"; "not satisfied"; "problem"; "issue"; "complaint"].

(** [sum(word in text_lower for word in words)] *)
Definition word_count (words : list string) (text_lower : string) : nat :=
  list_sum_nat (map (fun word => if py_in word text_lower then 1%nat else 0%nat) words).

(** The local function [classify_sentiment] of [get_sentiment_analysis]. *)
Definition classify_sentiment (text : cell) : string :=
  match text with
  | None => "neutral"
  | Some v =>
      let text_lower := lower (py_str v) in
      let pos_count := word_count positive_words text_lower in
      let neg_count := word_count negative_words text_lower in
      if Nat.ltb neg_count pos_count then "positive"
      else if Nat.ltb pos_count neg_count then "negative"
      else "neutral"
  end.

(** [df[col] = s] on a copy: replaces the column or appends it. *)
Fixpoint set_column (col : string) (s : Series) (cols : list (string * Series))
  : list (string * Series) :=
  match cols with
  | [] => [(col, s)]
  | (name, s') :: rest =>
      if String.eqb col name then (name, s) :: rest
      else (name, s') :: set_column col s rest
  end.

Definition setitem (df : DataFrame) (col : string) (s : Series) : DataFrame :=
  {| nrows := nrows df; columns := set_column col s (columns df) |}.

(** [s.apply(f)] with a function returning text. *)
Definition apply (f : cell -> string) (s : Series) : Series :=
  StrS (map (fun c => Some (f c)) (cells s)).

(** [s.value_counts().get(key, default)]: how often [key] occurs, [default]
    when it does not. *)
Definition value_counts_get (s : Series) (key : scalar) (default : nat) : nat :=
  let n := count_true (key_mask s key) in
  if Nat.eqb n 0 then default else n.

Record SentimentSummary : Type := mkSentimentSummary {
  positive : nat;
  neutral : nat;
  negative : nat;
  positive_pct : pyfloat
}.

(** Python's [a / b] on integers. *)
Definition true_divide (a b : nat) : result Q :=
  if Nat.eqb b 0 then Raise ZeroDivisionError else Ok (Qnat a / Qnat b).

(** [StatisticsCalculator.get_sentiment_analysis]; [None] is Python's
    [None]. *)
Definition get_sentiment_analysis (df : DataFrame) : result (option SentimentSummary) :=
  if negb (has_column df "feedback") then Ok None
  else
    let df_copy := df in
    feedback <- getitem df_copy "feedback" ;;
    let df_copy := setitem df_copy "sentiment" (apply classify_sentiment feedback) in
    sentiment <- getitem df_copy "sentiment" ;;
    let pos := value_counts_get sentiment (SStr "positive") 0 in
    let neu := value_counts_get sentiment (SStr "neutral") 0 in
    let neg := value_counts_get sentiment (SStr "negative") 0 in
    ratio <- true_divide (value_counts_get sentiment (SStr "positive") 0) (len df) ;;
    Ok (Some {| positive := pos; neutral := neu; negative := neg;
                positive_pct := Fin (ratio * 100) |}).

(** ** Comprehensive statistics *)

Record Stats : Type := mkStats {
  total_responses : nat;
  date_range : string;
  completion_rate : pyfloat;
  avg_satisfaction : pyfloat;
  avg_product_quality : pyfloat;
  avg_customer_service : pyfloat;
  avg_value : pyfloat;
  avg_nps : pyfloat;
  std_satisfaction : pyfloat;
  std_product_quality : pyfloat;
  std_customer_service : pyfloat;
  nps_score : pyfloat;
  promoters : nat;
  passives : nat;
  detractors : nat;
  satisfaction_p25 : pyfloat;
  satisfaction_median : pyfloat;
  satisfaction_p75 : pyfloat;
  best_region : pyval;
  best_region_score : pyfloat;
  top_age_group : pyval;
  top_age_score : pyfloat
}.

(** [f(df[col]) if col in df.columns else default] *)
Definition if_column {A : Type} (df : DataFrame) (col : string)
  (f : Series -> result A) (default : A) : result A :=
  if has_column df col then s <- getitem df col ;; f s else Ok default.

(** The [date_range] entry. *)
Definition date_range_of (df : DataFrame) : result string :=
  if has_column df "timestamp" then
    s <- getitem df "timestamp" ;;
    earliest <- series_min s ;;
    first <- date_str earliest ;;
    s' <- getitem df "timestamp" ;;
    latest <- series_max s' ;;
    last <- date_str latest ;;
    Ok (first ++ " to " ++ last)
  else Ok "N/A".

(** [len(df[df[col] >= lo])], [len(df[df[col] <= hi])] and
    [len(df[(df[col] >= lo) & (df[col] <= hi)])]. *)
Definition count_ge (df : DataFrame) (lo : Q) (s : Series) : result nat :=
  m <- ge_scalar s lo ;; Ok (len (select_rows df m)).

Definition count_le (df : DataFrame) (hi : Q) (s : Series) : result nat :=
  m <- le_scalar s hi ;; Ok (len (select_rows df m)).

Definition and_mask (a b : list bool) : list bool :=
  map (fun p => fst p && snd p) (combine a b).

Definition count_between (df : DataFrame) (col : string) (lo hi : Q) (s : Series)
  : result nat :=
  m <- ge_scalar s lo ;;
  s' <- getitem df col ;;
  m' <- le_scalar s' hi ;;
  Ok (len (select_rows df (and_mask m m'))).

(** The block that fills [best_region]/[best_region_score] and
    [top_age_group]/[top_age_score]. *)
Definition best_segment (df : DataFrame) (segment_column : string)
  : result (pyval * pyfloat) :=
  if has_column df segment_column && has_column df "satisfaction" then
    segment_stats <- groupby_mean df segment_column "satisfaction" ;;
    best <- idxmax segment_stats ;;
    Ok (best, max_value segment_stats)
  else Ok (VStr "N/A", Fin 0).

(** [StatisticsCalculator.calculate_comprehensive_stats]; the entries are
    evaluated in the order of the dictionary display. *)
Definition calculate_comprehensive_stats (df : DataFrame) : result Stats :=
  let total := len df in
  dates <- date_range_of df ;;
  let completion := _calculate_completion_rate df in
  avg_sat <- if_column df "satisfaction" mean (Fin 0) ;;
  avg_pq <- if_column df "product_quality" mean (Fin 0) ;;
  avg_cs <- if_column df "customer_service" mean (Fin 0) ;;
  avg_val <- if_column df "value_for_money" mean (Fin 0) ;;
  avg_ltr <- if_column df "likelihood_to_recommend" mean (Fin 0) ;;
  std_sat <- if_column df "satisfaction" std (Fin 0) ;;
  std_pq <- if_column df "product_quality" std (Fin 0) ;;
  std_cs <- if_column df "customer_service" std (Fin 0) ;;
  nps <- calculate_nps df likelihood_to_recommend ;;
  pro <- if_column df "likelihood_to_recommend" (count_ge df 9) 0%nat ;;
  pas <- if_column df "likelihood_to_recommend"
           (count_between df "likelihood_to_recommend" 7 8) 0%nat ;;
  det <- if_column df "likelihood_to_recommend" (count_le df 6) 0%nat ;;
  p25 <- if_column df "satisfaction" (fun s => quantile s (1 # 4)) (Fin 0) ;;
  med <- if_column df "satisfaction" median (Fin 0) ;;
  p75 <- if_column df "satisfaction" (fun s => quantile s (3 # 4)) (Fin 0) ;;
  region <- best_segment df "region" ;;
  age <- best_segment df "age_group" ;;
  Ok {| total_responses := total;
        date_range := dates;
        completion_rate := completion;
        avg_satisfaction := avg_sat;
        avg_product_quality := avg_pq;
        avg_customer_service := avg_cs;
        avg_value := avg_val;
        avg_nps := avg_ltr;
        std_satisfaction := std_sat;
        std_product_quality := std_pq;
        std_customer_service := std_cs;
        nps_score := nps;
        promoters := pro;
        passives := pas;
        detractors := det;
        satisfaction_p25 := p25;
        satisfaction_median := med;
        satisfaction_p75 := p75;
        best_region := fst region;
        best_region_score := snd region;
        top_age_group := fst age;
        top_age_score := snd age |}.

(** ** Reference counts and sample datasets *)

(** The number of scores of a column (its non-missing values) passing a
    test. *)
Definition scores_where (test : Q -> bool) (xs : list (option Q)) : nat :=
  length (filter test (dropna xs)).

(** How many of the cells [classify_sentiment] gives a label. *)
Definition label_count (label : string) (cs : list cell) : nat :=
  count_true (key_mask (StrS (map (fun c => Some (classify_sentiment c)) cs)) (SStr label)).

(** Two datasets hold the same content: as many rows, and the same named
    columns, in any order. *)
Definition same_content (a b : DataFrame) : Prop :=
  nrows a = nrows b /\ Permutation (columns a) (columns b).

(** The [count] entries of the metric in position [i], added over the rows
    of a segment table. *)
Definition count_total (i : nat) (t : SegmentTable) : nat :=
  list_sum_nat
    (map (fun row => match nth_error (snd row) i with
                     | Some a => agg_count a
                     | None => 0%nat
                     end)
         (table_rows t)).

(** The number of records in which neither the cell of [keys] nor the cell
    of [values] is missing. *)
Definition both_present (keys values : Series) : nat :=
  count_true (and_mask (map is_some (cells keys)) (map negb (isnull values))).

(** What a row of the segment table holds for the group of key [k]. *)
Definition row_of (df : DataFrame) (keys : Series) (k : scalar)
  (row : scalar * list Aggregate) : Prop :=
  fst row = k
  /\ Forall2 (fun col a =>
                forall values, lookup col (columns df) = Some values ->
                               agg_count a = count (mask_series (key_mask keys k) values))
             (filter (has_column df) numeric_cols) (snd row).




(** Four records in three regions, two of which tie for the best mean. *)
Definition tied_regions : DataFrame :=
  {| nrows := 4;
     columns := [("region", StrS [Some "West"; Some "East"; Some "North"; Some "West"]);
                 ("satisfaction", NumS [Some 5; Some 4; Some 2; Some 3]%Q);
                 ("likelihood_to_recommend", NumS [Some 9; Some 3; Some 7; Some 10]%Q)] |}.

(** A number in lowest terms, as the cells of a column are. *)
Definition canonical (v : scalar) : Prop :=
  match v with
  | SNum q => Qred q = q
  | _ => True
  end.

(** The strict order of the group keys. *)
Definition scalar_lt (a b : scalar) : Prop := scalar_compare a b = Lt.

(** Two records in two regions, one of them without a satisfaction score. *)
Definition two_columns : DataFrame :=
  {| nrows := 2;
     columns := [("satisfaction", NumS [Some 5%Q; None]);
                 ("region", StrS [Some "North"; Some "South"])] |}.

(** The dataset without rows and columns. *)
Definition no_rows : DataFrame := {| nrows := 0; columns := [] |}.

(** Five responses with a satisfaction column only (scenario 3). *)
Definition satisfaction_only : DataFrame :=
  {| nrows := 5;
     columns := [("satisfaction", NumS [Some 5; Some 5; Some 5; Some 1; Some 1]%Q)] |}.

(** Ten responses with a recommendation score only (scenario 1). *)
Definition ten_scores : DataFrame :=
  {| nrows := 10;
     columns := [("likelihood_to_recommend",
                  NumS [Some 9; Some 9; Some 9; Some 8; Some 8;
                        Some 7; Some 6; Some 5; Some 3; Some 2]%Q)] |}.

(** No rows, with a feedback column. *)
Definition no_feedback_rows : DataFrame :=
  {| nrows := 0; columns := [("feedback", StrS [])] |}.

(** No rows, with region and satisfaction columns. *)
Definition no_region_rows : DataFrame :=
  {| nrows := 0; columns := [("region", StrS []); ("satisfaction", NumS [])] |}.

(** Four responses with feedback, one of them missing. *)
Definition four_feedbacks : DataFrame :=
  {| nrows := 4;
     columns := [("feedback",
                  StrS [Some "Excellent product quality!"; Some "Could be better";
                        None; Some "Terrible service, awful"])] |}.


(** ** Further reference notions *)

(** A score in one of the three NPS classes: at most 6, from 7 to 8, or at
    least 9. *)
Definition classed (score : Q) : bool :=
  Qle_bool score 6 || (Qle_bool 7 score && Qle_bool score 8) || Qle_bool 9 score.

(** A whole number. *)
Definition whole (q : Q) : Prop := exists z : Z, q == inject_Z z.

(** Scores as the survey collects them, on the 1-5 and on the 0-10 scale:
    whole numbers from 0 to 10 (missing scores allowed). *)
Definition survey_scores (xs : list (option Q)) : Prop :=
  forall q, In (Some q) xs -> exists z : Z, q == inject_Z z /\ (0 <= z <= 10)%Z.


(** Two regions, a numeric metric and a metric kept as text. *)
Definition text_metric : DataFrame :=
  {| nrows := 2;
     columns := [("region", StrS [Some "North"; Some "South"]);
                 ("satisfaction", NumS [Some 5; Some 4]%Q);
                 ("product_quality", StrS [Some "5"; Some "4"])] |}.

(** Responses with whole and half-point scores, one of them missing. *)
Definition half_points : DataFrame :=
  {| nrows := 5;
     columns := [("likelihood_to_recommend",
                  NumS [Some 10; Some (13 # 2); Some 7; None; Some 3]%Q)] |}.

(** The interpolation step of [quantile_of]: the value at the real-valued
    rank [pos] of the sorted values [vs]. *)
Definition interpolate (vs : list Q) (v0 : Q) (pos : Q) : Q :=
  let lo := Z.to_nat (Qfloor pos) in
  let frac := pos - Qnat lo in
  let a := nth lo vs v0 in
  let b := nth (S lo) vs a in
  a + frac * (b - a).

(** A float that is a number between two bounds. *)
Definition within (lo hi : Q) (x : pyfloat) : Prop :=
  exists q, x = Fin q /\ lo <= q <= hi.

(** A column with at least one value, all between two bounds. *)
Definition values_within (lo hi : Q) (xs : list (option Q)) : Prop :=
  (exists q, In (Some q) xs) /\ forall q, In (Some q) xs -> lo <= q <= hi.

(** Five satisfaction scores on the 1-5 scale. *)
Definition likert_scores : list (option Q) :=
  [Some 4; Some 2; None; Some 5; Some 3; Some 4]%Q.

Definition likert : DataFrame :=
  {| nrows := 6;
     columns := [("satisfaction", NumS likert_scores);
                 ("likelihood_to_recommend",
                  NumS [Some 9; Some 4; Some 7; Some 10; None; Some 8]%Q)] |}.

(** What a standard deviation of the values of [xs] is: undefined below two
    values, otherwise the square root of a non-negative variance, which is
    zero exactly when all the values are equal. *)
Definition std_of (xs : list (option Q)) (x : pyfloat) : Prop :=
  ((count (NumS xs) < 2)%nat /\ x = NaN)
  \/ ((2 <= count (NumS xs))%nat
      /\ exists v, x = Sqrt v /\ 0 <= v
                   /\ (v == 0 <-> forall a b, In (Some a) xs -> In (Some b) xs -> a == b)).

(** Three responses over two days, one without a timestamp; the same
    dataset as read from a CSV file, its timestamps being text. *)
Definition two_days : DataFrame :=
  {| nrows := 3;
     columns := [("timestamp", TimeS [Some 1706745600; None; Some 1704067200]%Z);
                 ("likelihood_to_recommend", NumS [Some 9; Some 4; Some 7]%Q)] |}.

Definition two_days_csv : DataFrame :=
  {| nrows := 3;
     columns := [("timestamp", StrS [Some "2024-02-01"; None; Some "2024-01-01"]);
                 ("likelihood_to_recommend", NumS [Some 9; Some 4; Some 7]%Q)] |}.

(** * Data loading ([data_loader.py])

    The loaders read files through pandas and pdfplumber and report on the
    console.  What the libraries and the file system do is given by an
    [Environment]; a computation returns the lines it printed together with
    its value or the exception it raised.  Paths are POSIX paths. *)

Module DataLoader.

Inductive error : Type :=
| FileNotFoundError (message : string)
| ValueError (message : string)
| ImportError (message : string)
| AttributeError (message : string)
| LibraryError (message : string).

Inductive outcome (A : Type) : Type :=
| Done (a : A)
| Fail (e : error).

Arguments Done {A} a.
Arguments Fail {A} e.

(** The lines printed, then the value returned or the exception raised. *)
Definition io (A : Type) : Type := (list string * outcome A)%type.

Definition ret {A : Type} (a : A) : io A := (nil, Done a).

Definition raise {A : Type} (e : error) : io A := (nil, Fail e).

Definition print (line : string) : io unit := (cons line nil, Done tt).

Definition lift {A : Type} (o : outcome A) : io A := (nil, o).

Definition bind {A B : Type} (m : io A) (k : A -> io B) : io B :=
  match m with
  | (out, Done a) => let (out', r) := k a in (List.app out out', r)
  | (out, Fail e) => (out, Fail e)
  end.

Notation "x <-- m ;; k" := (bind m (fun x => k))
  (at level 61, m at next level, right associativity).

(** A table extracted from a PDF page: rows of cells. *)
Definition table : Type := list (list (option string)).

(** The [sheet_name] argument of [pd.read_excel]. *)
Inductive sheet : Type :=
| SheetIndex (index : nat)
| SheetName (name : string).

Record Environment : Type := mkEnvironment {
  (** [os.path.exists] *)
  path_exists : string -> bool;
  (** [pd.read_csv(path)] *)
  read_csv : string -> outcome DataFrame;
  (** [pd.read_excel(path, sheet_name=s)] for one sheet, and for
      [sheet_name=None], which returns a dict of all sheets *)
  read_excel : string -> sheet -> outcome DataFrame;
  read_excel_all : string -> outcome (list (string * DataFrame));
  (** [pdfplumber.open(path)], absent when the import fails: for each page
      what [page.extract_tables()] gives *)
  pdfplumber : option (string -> outcome (list (outcome (list table))));
  (** [pd.DataFrame(rows, columns=header)] *)
  make_frame : list (option string) -> list (list (option string)) -> outcome DataFrame;
  (** [pd.concat(frames, ignore_index=True)] *)
  concat : list DataFrame -> outcome DataFrame;
  (** the dict [generate_sample_data] builds with numpy's generator *)
  sample_data : list (string * Series)
}.

(** ** [os.path.splitext] *)

(** [s.rfind(c)] counted from [i], with [last] the result so far. *)
Fixpoint rfind_from (c : ascii) (s : string) (i last : Z) : Z :=
  match s with
  | EmptyString => last
  | String a rest => rfind_from c rest (i + 1) (if Ascii.eqb a c then i else last)
  end.

Definition rfind (c : ascii) (s : string) : Z := rfind_from c s 0 (-1).

(** [p[i:j]] for [0 <= i <= j]. *)
Definition slice (p : string) (i j : Z) : string :=
  substring (Z.to_nat i) (Z.to_nat (j - i)) p.

(** The loop that skips the leading dots of the last component: whether a
    character other than a dot stands at one of the positions
    [index, index + 1, ...] below [dotIndex]. *)
Fixpoint name_before_dot (p : string) (filenameIndex : Z) (steps : nat) : bool :=
  match steps with
  | O => false
  | S steps' =>
      match String.get (Z.to_nat filenameIndex) p with
      | Some a =>
          if Ascii.eqb a "." then name_before_dot p (filenameIndex + 1) steps' else true
      | None => true
      end
  end.

Definition splitext (p : string) : string * string :=
  let sepIndex := rfind "/" p in
  let dotIndex := rfind "." p in
  if (sepIndex <? dotIndex)%Z
     && name_before_dot p (sepIndex + 1) (Z.to_nat (dotIndex - (sepIndex + 1)))
  then (slice p 0 dotIndex, slice p dotIndex (Z.of_nat (String.length p)))
  else (p, "").

(** ** The loaders *)

(** The two closing reports of a loader. *)
Definition report_loaded (df : DataFrame) : io DataFrame :=
  _ <-- print ("   ✅ Loaded " ++ decimal (Z.of_nat (len df)) ++ " rows, "
               ++ decimal (Z.of_nat (List.length (columns df))) ++ " columns") ;;
  _ <-- print ("   Columns: " ++ String.concat ", " (map fst (columns df))) ;;
  ret df.

(** [DataLoader.load_from_csv] *)
Definition load_from_csv (env : Environment) (file_path : string) : io DataFrame :=
  _ <-- print ("📂 Loading CSV: " ++ file_path) ;;
  df <-- lift (read_csv env file_path) ;;
  report_loaded df.

(** [DataLoader.load_from_excel]; [None] is [sheet_name=None], for which
    pandas returns a dict that has no [columns]. *)
Definition load_from_excel (env : Environment) (file_path : string)
  (sheet_name : option sheet) : io DataFrame :=
  _ <-- print ("📂 Loading Excel: " ++ file_path) ;;
  match sheet_name with
  | Some s =>
      df <-- lift (read_excel env file_path s) ;;
      report_loaded df
  | None =>
      sheets <-- lift (read_excel_all env file_path) ;;
      raise (AttributeError "'dict' object has no attribute 'columns'")
  end.

(** The tables of one page that have a header and at least one more row. *)
Fixpoint tables_of_page (env : Environment) (page_number : nat) (tables : list table)
  : io (list DataFrame) :=
  match tables with
  | nil => ret nil
  | cons t rest =>
      match t with
      | cons header (cons r rs) =>
          let rows := cons r rs in
          df_table <-- lift (make_frame env header rows) ;;
          _ <-- print ("   Found table on page " ++ decimal (Z.of_nat page_number) ++ ": "
                       ++ decimal (Z.of_nat (List.length rows)) ++ " rows") ;;
          more <-- tables_of_page env page_number rest ;;
          ret (cons df_table more)
      | _ => tables_of_page env page_number rest
      end
  end.

(** The loop over [enumerate(pdf.pages)]. *)
Fixpoint tables_of_pages (env : Environment) (i : nat)
  (pages : list (outcome (list table))) : io (list DataFrame) :=
  match pages with
  | nil => ret nil
  | cons page rest =>
      tables <-- lift page ;;
      found <-- tables_of_page env (i + 1) tables ;;
      more <-- tables_of_pages env (S i) rest ;;
      ret (List.app found more)
  end.

(** [DataLoader.load_from_pdf] *)
Definition load_from_pdf (env : Environment) (file_path : string) : io DataFrame :=
  match pdfplumber env with
  | None =>
      raise (ImportError "pdfplumber is required for PDF loading.
Install it: pip install pdfplumber")
  | Some open_pdf =>
      _ <-- print ("📂 Loading PDF: " ++ file_path) ;;
      pages <-- lift (open_pdf file_path) ;;
      all_tables <-- tables_of_pages env 0 pages ;;
      match all_tables with
      | nil => raise (ValueError ("No tables found in PDF: " ++ file_path))
      | cons df nil => report_loaded df
      | _ => df <-- lift (concat env all_tables) ;; report_loaded df
      end
  end.

(** [DataLoader.load_from_file] *)
Definition load_from_file (env : Environment) (file_path : string) : io DataFrame :=
  if negb (path_exists env file_path)
  then raise (FileNotFoundError ("File not found: " ++ file_path))
  else
    let ext := lower (snd (splitext file_path)) in
    if String.eqb ext ".csv" then load_from_csv env file_path
    else if String.eqb ext ".xlsx" || String.eqb ext ".xls"
    then load_from_excel env file_path (Some (SheetIndex 0))
    else if String.eqb ext ".pdf" then load_from_pdf env file_path
    else raise (ValueError ("Unsupported file type: " ++ ext
                            ++ ". Supported: .csv, .xlsx, .xls, .pdf")).

(** What [load_data] is given. *)
Inductive source : Type :=
| NoData
| Frame (df : DataFrame)
| Mapping (data : list (string * Series))
| Path (file_path : string)
| Other.

(** [pd.DataFrame(data)] for a dict of columns: the columns must be of one
    length. *)
Definition frame_of_dict (data : list (string * Series)) : outcome DataFrame :=
  match data with
  | nil => Done {| nrows := 0; columns := nil |}
  | cons (_, s) _ =>
      if forallb (fun c => Nat.eqb (series_len (snd c)) (series_len s)) data
      then Done {| nrows := series_len s; columns := data |}
      else Fail (ValueError "All arrays must be of the same length")
  end.

(** [DataLoader.load_data] *)
Definition load_data (env : Environment) (data : source) : io DataFrame :=
  match data with
  | NoData => lift (frame_of_dict (sample_data env))
  | Frame df => ret df
  | Mapping d => lift (frame_of_dict d)
  | Path file_path => load_from_file env file_path
  | Other => raise (ValueError "Data must be DataFrame, dict, file path (str), or None")
  end.

End DataLoader.

(** ** Reference notions on paths *)

(** The character occurs in the string. *)
Fixpoint occurs (c : ascii) (s : string) : bool :=
  match s with
  | EmptyString => false
  | String a rest => Ascii.eqb a c || occurs c rest
  end.

(** The position of the last occurrence of a character. *)
Fixpoint last_index (c : ascii) (s : string) : option nat :=
  match s with
  | EmptyString => None
  | String a rest =>
      match last_index c rest with
      | Some k => Some (S k)
      | None => if Ascii.eqb a c then Some O else None
      end
  end.

(** The string consists of dots only. *)
Fixpoint all_dots (s : string) : bool :=
  match s with
  | EmptyString => true
  | String a rest => Ascii.eqb a "." && all_dots rest
  end.

(** A directory prefix: empty, or ending in a slash. *)
Definition directory (dir : string) : Prop :=
  dir = "" \/ exists d, dir = d ++ "/".

(** An environment in which every file exists and reads as [two_columns]. *)
Definition sample_environment : DataLoader.Environment :=
  {| DataLoader.path_exists := fun _ => true;
     DataLoader.read_csv := fun _ => DataLoader.Done two_columns;
     DataLoader.read_excel := fun _ _ => DataLoader.Done two_columns;
     DataLoader.read_excel_all := fun _ => DataLoader.Done (("Sheet1", two_columns) :: nil);
     DataLoader.pdfplumber := None;
     DataLoader.make_frame := fun _ _ => DataLoader.Done no_rows;
     DataLoader.concat := fun _ => DataLoader.Done no_rows;
     DataLoader.sample_data := nil |}.

(** The tables of a PDF that [load_from_pdf] keeps, in page order: those
    with more than one row. *)
Definition qualifying (pages : list (list DataLoader.table)) : list DataLoader.table :=
  flat_map (filter (fun t => Nat.ltb 1 (List.length t))) pages.

(** The cells of the first row, which become the column names, are all
    text. *)
Definition text_header (t : DataLoader.table) : bool :=
  match t with
  | nil => true
  | header :: _ => forallb (fun c => match c with Some _ => true | None => false end) header
  end.

(** A PDF of two pages: a table that is only a header, then two tables with
    data. *)
Definition sample_pages : list (list DataLoader.table) :=
  (((Some "region" :: nil) :: nil) :: nil)
  :: (((Some "region" :: nil) :: (Some "North" :: nil) :: nil)
      :: ((Some "region" :: nil) :: (Some "South" :: nil) :: (None :: nil) :: nil)
      :: nil)
  :: nil.

(** An environment with pdfplumber, reading [sample_pages] from every PDF;
    a table becomes a frame with one row per data row. *)
Definition pdf_environment : DataLoader.Environment :=
  {| DataLoader.path_exists := fun _ => true;
     DataLoader.read_csv := fun _ => DataLoader.Done two_columns;
     DataLoader.read_excel := fun _ _ => DataLoader.Done two_columns;
     DataLoader.read_excel_all := fun _ => DataLoader.Done nil;
     DataLoader.pdfplumber :=
       Some (fun _ => DataLoader.Done (map DataLoader.Done sample_pages));
     DataLoader.make_frame :=
       fun _ rows => DataLoader.Done {| nrows := List.length rows; columns := nil |};
     DataLoader.concat :=
       fun frames =>
         DataLoader.Done {| nrows := list_sum_nat (map nrows frames); columns := nil |};
     DataLoader.sample_data := nil |}.

(** * The language model: [config.py] and [llm_providers.py] *)

Module Gemini.

(** What [model.generate_content(prompt, ...)] comes to: the [text] of the
    response, or the exception raised on the way, as [str(e)]. *)
Inductive response : Type :=
| Text (text : string)
| Failure (message : string).

Definition Model : Type := string -> response.

(** What the provider finds around it. *)
Record Library : Type := mkLibrary {
  (** [GEMINI_AVAILABLE]: [google.generativeai] could be imported *)
  GEMINI_AVAILABLE : bool;
  (** [GEMINI_API_KEY] of [api_key.py], absent when the import fails *)
  GEMINI_API_KEY : option string;
  (** [genai.configure(api_key=key)] followed by
      [genai.GenerativeModel("gemini-2.0-flash")], or the exception raised,
      as [str(e)] *)
  initialize : string -> Model + string;
  (** [str.strip] *)
  strip : string -> string
}.

(** [Config.get_gemini_api_key] *)
Definition get_gemini_api_key (lib : Library) : option string :=
  match GEMINI_API_KEY lib with
  | Some key => if String.eqb key "" then None else Some key
  | None => None
  end.

(** The attributes of a [GeminiProvider]. *)
Record Provider : Type := mkProvider {
  name : string;
  available : bool;
  api_key : option string;
  model : option Model
}.

(** [GeminiProvider.__init__]: the lines printed and the provider. *)
Definition GeminiProvider (lib : Library) : list string * Provider :=
  let name := "Google Gemini Flash 2.5" in
  let api_key := get_gemini_api_key lib in
  if negb (GEMINI_AVAILABLE lib)
  then (cons "   ❌ google-generativeai not installed. Run: pip install google-generativeai" nil,
        {| name := name; available := false; api_key := api_key; model := None |})
  else
    match api_key with
    | None =>
        (cons "   ❌ Gemini API key not set. Add your key in api_key.py" nil,
         {| name := name; available := false; api_key := api_key; model := None |})
    | Some key =>
        if String.eqb key ""
        then (cons "   ❌ Gemini API key not set. Add your key in api_key.py" nil,
              {| name := name; available := false; api_key := api_key; model := None |})
        else
          match initialize lib key with
          | inl m =>
              (cons "   ✅ Gemini Flash 2.5 initialized successfully" nil,
               {| name := name; available := true; api_key := api_key; model := Some m |})
          | inr e =>
              (cons ("   ❌ Gemini initialization error: " ++ e) nil,
               {| name := name; available := false; api_key := api_key; model := None |})
          end
    end.

(** [GeminiProvider.generate]: the lines printed and the text returned. *)
Definition generate (lib : Library) (self : Provider) (prompt : string)
  : list string * option string :=
  match model self with
  | None => (nil, None)
  | Some m =>
      if negb (available self) then (nil, None)
      else
        match m prompt with
        | Text text =>
            (nil, if String.eqb text "" then None else Some (strip lib text))
        | Failure e => (cons ("⚠️  Gemini API error: " ++ e) nil, None)
        end
  end.

Inductive provided : Type :=
| Returned (provider : Provider)
| RuntimeError (message : string).

(** [get_llm_provider] *)
Definition get_llm_provider (lib : Library) : list string * provided :=
  let (out, provider) := GeminiProvider lib in
  if available provider
  then (List.app out (cons ("✅ Using " ++ name provider) nil), Returned provider)
  else (out, RuntimeError "
❌ GEMINI NOT AVAILABLE!

To fix this:
  1. Install the package:  pip install google-generativeai
  2. Open api_key.py and paste your Gemini API key

That's it. Then run main.py again.
").

End Gemini.

(** * The insights: [report_generator.py] and [analyzer.py] *)

Module Report.

(** Python's arithmetic and formatting of floats. *)
Record Runtime : Type := mkRuntime {
  (** [format(x, ".2f")], [format(x, ".1f")] *)
  format_float : nat -> pyfloat -> string;
  (** [abs(a - b)] *)
  float_abs_sub : pyfloat -> pyfloat -> pyfloat
}.

(** [str] of a group label. *)
Definition str_value (v : pyval) : string :=
  match v with
  | VNaN => "nan"
  | VNaT => "NaT"
  | VNum q => str_num q
  | VStr s => s
  | VTime t => str_time t
  end.

(** [{a/b*100:.1f}] *)
Definition percent (rt : Runtime) (a b : nat) : result string :=
  q <- true_divide a b ;;
  Ok (format_float rt 1 (Fin (q * 100))).

(** An f-string: its pieces are evaluated from left to right. *)
Fixpoint fstring (pieces : list (result string)) : result string :=
  match pieces with
  | nil => Ok ""
  | cons piece rest =>
      s <- piece ;;
      t <- fstring rest ;;
      Ok (s ++ t)
  end.

(** The prompt of [summary]. *)
Definition summary_prompt (rt : Runtime) (stats : Stats) : result string :=
  fstring (
    Ok "You are an expert data analyst. Analyze this survey data and provide a comprehensive executive summary.

SURVEY DATA:
- Total Responses: "
    :: Ok (decimal (Z.of_nat (total_responses stats)))
    :: Ok "
- Average Satisfaction: "
    :: Ok (format_float rt 2 (avg_satisfaction stats))
    :: Ok "/5.0
- Product Quality: "
    :: Ok (format_float rt 2 (avg_product_quality stats))
    :: Ok "/5.0
- Customer Service: "
    :: Ok (format_float rt 2 (avg_customer_service stats))
    :: Ok "/5.0
- Value for Money: "
    :: Ok (format_float rt 2 (avg_value stats))
    :: Ok "/5.0
- Net Promoter Score (NPS): "
    :: Ok (format_float rt 2 (nps_score stats))
    :: Ok "
- Best Performing Region: "
    :: Ok (str_value (best_region stats))
    :: Ok " (Score: "
    :: Ok (format_float rt 2 (best_region_score stats))
    :: Ok "/5.0)
- Promoters: "
    :: Ok (decimal (Z.of_nat (promoters stats)))
    :: Ok " ("
    :: percent rt (promoters stats) (total_responses stats)
    :: Ok "%)
- Detractors: "
    :: Ok (decimal (Z.of_nat (detractors stats)))
    :: Ok " ("
    :: percent rt (detractors stats) (total_responses stats)
    :: Ok "%)

Provide a professional executive summary (4-5 sentences) that:
1. Highlights the overall performance level
2. Identifies the strongest metric
3. Points out the biggest opportunity for improvement
4. Gives a clear assessment of customer loyalty (NPS)
5. Mentions any notable regional or demographic patterns

Write in a business-professional tone suitable for executive stakeholders."
    :: nil).

(** The prompt of [trends]. *)
Definition trends_prompt (rt : Runtime) (stats : Stats) : result string :=
  fstring (
    Ok "You are a data analyst expert. Analyze these survey metrics and identify critical trends.

DETAILED METRICS:
- Overall Satisfaction: "
    :: Ok (format_float rt 2 (avg_satisfaction stats))
    :: Ok "/5.0 (Std Dev: "
    :: Ok (format_float rt 2 (std_satisfaction stats))
    :: Ok ")
- Product Quality: "
    :: Ok (format_float rt 2 (avg_product_quality stats))
    :: Ok "/5.0 (Std Dev: "
    :: Ok (format_float rt 2 (std_product_quality stats))
    :: Ok ")
- Customer Service: "
    :: Ok (format_float rt 2 (avg_customer_service stats))
    :: Ok "/5.0 (Std Dev: "
    :: Ok (format_float rt 2 (std_customer_service stats))
    :: Ok ")
- Value for Money: "
    :: Ok (format_float rt 2 (avg_value stats))
    :: Ok "/5.0
- Net Promoter Score: "
    :: Ok (format_float rt 2 (nps_score stats))
    :: Ok "
- Average Recommendation Score: "
    :: Ok (format_float rt 2 (avg_nps stats))
    :: Ok "/10.0

SEGMENT PERFORMANCE:
- Top Age Group: "
    :: Ok (str_value (top_age_group stats))
    :: Ok " (Satisfaction: "
    :: Ok (format_float rt 2 (top_age_score stats))
    :: Ok "/5.0)
- Top Region: "
    :: Ok (str_value (best_region stats))
    :: Ok " (Satisfaction: "
    :: Ok (format_float rt 2 (best_region_score stats))
    :: Ok "/5.0)

SATISFACTION DISTRIBUTION:
- 25th Percentile: "
    :: Ok (format_float rt 1 (satisfaction_p25 stats))
    :: Ok "
- Median: "
    :: Ok (format_float rt 1 (satisfaction_median stats))
    :: Ok "
- 75th Percentile: "
    :: Ok (format_float rt 1 (satisfaction_p75 stats))
    :: Ok "

Identify and explain 5-6 critical trends or patterns. For each trend:
1. Describe what the data shows
2. Explain why this trend matters
3. Note any correlations or relationships between metrics

Format as a numbered list with clear explanations."
    :: nil).

(** The prompt of [recommendations]. *)
Definition recommendations_prompt (rt : Runtime) (stats : Stats) : result string :=
  fstring (
    Ok "You are a strategic business consultant. Based on this survey analysis, provide actionable recommendations.

CURRENT PERFORMANCE STATE:
- Overall Satisfaction: "
    :: Ok (format_float rt 2 (avg_satisfaction stats))
    :: Ok "/5.0
- Net Promoter Score: "
    :: Ok (format_float rt 2 (nps_score stats))
    :: Ok "
- Promoters: "
    :: Ok (decimal (Z.of_nat (promoters stats)))
    :: Ok " ("
    :: percent rt (promoters stats) (total_responses stats)
    :: Ok "%)
- Passives: "
    :: Ok (decimal (Z.of_nat (passives stats)))
    :: Ok " ("
    :: percent rt (passives stats) (total_responses stats)
    :: Ok "%)
- Detractors: "
    :: Ok (decimal (Z.of_nat (detractors stats)))
    :: Ok " ("
    :: percent rt (detractors stats) (total_responses stats)
    :: Ok "%)

METRIC GAPS:
- Service Gap: "
    :: Ok (format_float rt 2 (float_abs_sub rt (avg_product_quality stats) (avg_customer_service stats)))
    :: Ok " points (Quality vs Service)
- Value Perception: "
    :: Ok (format_float rt 2 (avg_value stats))
    :: Ok "/5.0
- Best Region: "
    :: Ok (str_value (best_region stats))
    :: Ok " ("
    :: Ok (format_float rt 2 (best_region_score stats))
    :: Ok "/5.0)

Provide 6-8 specific, actionable strategic recommendations organized by:
1. IMMEDIATE ACTIONS (0-30 days) - Quick wins
2. SHORT-TERM INITIATIVES (30-90 days) - Medium impact
3. LONG-TERM STRATEGY (90+ days) - Transformational

For each recommendation, include:
- What action to take
- Why it matters (based on the data)
- Expected impact/outcome
- Priority level

Write in a professional, executive-ready format."
    :: nil).

(** The lines printed, then the value returned or the exception raised. *)
Definition io (A : Type) : Type := (list string * result A)%type.

(** [ReportGenerator.get_llm_insights]; the three prompts are built before
    one is chosen. *)
Definition get_llm_insights (lib : Gemini.Library) (rt : Runtime)
  (llm_provider : Gemini.Provider) (stats : Stats) (insight_type : string) : io string :=
  if negb (Gemini.available llm_provider)
  then (nil, Ok "[Gemini not available - check api_key.py]")
  else
    match summary_prompt rt stats with
    | Raise e => (nil, Raise e)
    | Ok summary =>
        match trends_prompt rt stats with
        | Raise e => (nil, Raise e)
        | Ok trends =>
            match recommendations_prompt rt stats with
            | Raise e => (nil, Raise e)
            | Ok recommendations =>
                let prompt :=
                  if String.eqb insight_type "summary" then summary
                  else if String.eqb insight_type "trends" then trends
                  else if String.eqb insight_type "recommendations" then recommendations
                  else summary in
                let (out, response) := Gemini.generate lib llm_provider prompt in
                (out,
                 Ok match response with
                    | Some text =>
                        if String.eqb text ""
                        then "[Error generating " ++ insight_type ++ " insights]"
                        else text
                    | None => "[Error generating " ++ insight_type ++ " insights]"
                    end)
            end
        end
    end.

End Report.

Module Analyzer.

(** The attributes of a [SurveyAnalyzer] that the insights use. *)
Record SurveyAnalyzer : Type := mkSurveyAnalyzer {
  df : DataFrame;
  llm_provider : Gemini.Provider;
  stats : option Stats
}.

(** [SurveyAnalyzer.calculate_statistics]: the analyzer afterwards, and the
    statistics returned. *)
Definition calculate_statistics (self : SurveyAnalyzer) : SurveyAnalyzer * result Stats :=
  match calculate_comprehensive_stats (df self) with
  | Ok s => ({| df := df self; llm_provider := llm_provider self; stats := Some s |}, Ok s)
  | Raise e => (self, Raise e)
  end.

(** [SurveyAnalyzer.get_llm_insights]: the analyzer afterwards, the lines
    printed, and the text returned. *)
Definition get_llm_insights (lib : Gemini.Library) (rt : Report.Runtime)
  (self : SurveyAnalyzer) (insight_type : string) : SurveyAnalyzer * Report.io string :=
  let (self', computed) :=
    match stats self with
    | None => calculate_statistics self
    | Some s => (self, Ok s)
    end in
  match computed with
  | Raise e => (self', (nil, Raise e))
  | Ok s => (self', Report.get_llm_insights lib rt (llm_provider self') s insight_type)
  end.

End Analyzer.

(** ** Reference notions on the insights *)

(** The prompt sent for a kind of insight: an unknown kind gets the summary. *)
Definition prompt_of (rt : Report.Runtime) (stats : Stats) (insight_type : string)
  : result string :=
  if String.eqb insight_type "trends" then Report.trends_prompt rt stats
  else if String.eqb insight_type "recommendations" then Report.recommendations_prompt rt stats
  else Report.summary_prompt rt stats.

(** A library with a key and a model that always gives the same answer. *)
Definition sample_library : Gemini.Library :=
  {| Gemini.GEMINI_AVAILABLE := true;
     Gemini.GEMINI_API_KEY := Some "secret";
     Gemini.initialize := fun _ => inl (fun _ => Gemini.Text "Customers are satisfied.");
     Gemini.strip := fun s => s |}.

(** A provider of [sample_library]. *)
Definition sample_provider : Gemini.Provider :=
  {| Gemini.name := "Google Gemini Flash 2.5";
     Gemini.available := true;
     Gemini.api_key := Some "secret";
     Gemini.model := Some (fun _ => Gemini.Text "Customers are satisfied.") |}.

(** A runtime that prints numbers that are not fractions as [nan], and the
    others to the digits asked for, rounding half to even. *)
Definition sample_runtime : Report.Runtime :=
  {| Report.format_float :=
       fun digits x =>
         match x with
         | Fin q =>
             let scale := (10 ^ Z.of_nat digits)%Z in
             let z := round_half_even (q * inject_Z scale) in
             (if (z <? 0)%Z then "-" else "") ++ decimal (Z.abs z / scale) ++ "."
             ++ zero_pad digits (Z.abs z mod scale)
         | _ => "nan"
         end;
     Report.float_abs_sub :=
       fun a b =>
         match a, b with
         | Fin x, Fin y => Fin (if Qle_bool x y then y - x else x - y)
         | _, _ => NaN
         end |}.

(** * Properties *)

(** ** The error monad *)

Lemma bind_Ok {A B : Type} (m : result A) (k : A -> result B) (b : B) :
  bind m k = Ok b -> exists a, m = Ok a /\ k a = Ok b.
Proof.
  destruct m as [a|e]; simpl; intros H; [eauto | discriminate].
Qed.

Lemma bind_Raise_l {A B : Type} (k : A -> result B) (e : exn) :
  bind (Raise e) k = Raise e.
Proof. reflexivity. Qed.

(** ** Substrings *)

Lemma prefix_app (w t : string) :
  prefix w t = true <-> exists b, t = w ++ b.
Proof.
  revert t; induction w as [|c w IH]; intros [|d t]; simpl.
  - split; eauto.
  - split; eauto.
  - split; [discriminate | intros [b Hb]; discriminate].
  - destruct (ascii_dec c d) as [->|Hne].
    + rewrite IH. split; intros [b Hb]; exists b.
      * now rewrite Hb.
      * now inversion Hb.
    + split; [discriminate | intros [b Hb]; inversion Hb; congruence].
Qed.

Lemma append_assoc (a b c : string) : (a ++ b) ++ c = a ++ b ++ c.
Proof.
  induction a as [|x a IH]; simpl; [reflexivity | now rewrite IH].
Qed.

Lemma py_in_app (w t : string) :
  py_in w t = true <-> exists a b, t = a ++ w ++ b.
Proof.
  induction t as [|d t IH].
  - cbn [py_in]. rewrite orb_false_r, prefix_app. split.
    + intros [b Hb]. exists "", b. exact Hb.
    + intros [a [b Hb]]. destruct a; simpl in Hb; [eauto | discriminate].
  - cbn [py_in]. rewrite orb_true_iff, prefix_app, IH. split.
    + intros [[b Hb] | [a [b Hb]]].
      * exists "", b. exact Hb.
      * exists (String d a), b. simpl. now rewrite Hb.
    + intros [a [b Hb]]. destruct a as [|x a]; simpl in Hb.
      * left. eauto.
      * right. inversion Hb. eauto.
Qed.

(** A text containing a phrase contains every part of the phrase. *)
Lemma py_in_trans (u w t : string) :
  py_in u w = true -> py_in w t = true -> py_in u t = true.
Proof.
  rewrite !py_in_app. intros [a [b ->]] [c [d ->]].
  exists (c ++ a), (b ++ d). now rewrite !append_assoc.
Qed.

(** ** Sentiment classification *)

Lemma classify_sentiment_cases (v : scalar) :
  let text_lower := lower (py_str v) in
  let pos_count := word_count positive_words text_lower in
  let neg_count := word_count negative_words text_lower in
  ((neg_count < pos_count)%nat -> classify_sentiment (Some v) = "positive")
  /\ ((pos_count < neg_count)%nat -> classify_sentiment (Some v) = "negative")
  /\ (pos_count = neg_count -> classify_sentiment (Some v) = "neutral").
Proof.
  cbv zeta. unfold classify_sentiment.
  set (p := word_count positive_words _). set (n := word_count negative_words _).
  repeat split; intros H.
  - apply Nat.ltb_lt in H. now rewrite H.
  - destruct (Nat.ltb n p) eqn:E; [apply Nat.ltb_lt in E; lia|].
    apply Nat.ltb_lt in H. now rewrite H.
  - rewrite H, Nat.ltb_irrefl. reflexivity.
Qed.

(** C9: a missing feedback value is neutral; otherwise the label follows the
    comparison of the number of positive-list words and of negative-list words
    occurring in the lower-cased text (positive when there are more positive
    ones, negative when there are more negative ones, neutral when the numbers
    are equal), and the two sample texts are positive and neutral. *)
Theorem classify_sentiment_spec :
  classify_sentiment None = "neutral"
  /\ (forall v : scalar,
        let text_lower := lower (py_str v) in
        let pos_count := List.length (filter (fun w => py_in w text_lower) positive_words) in
        let neg_count := List.length (filter (fun w => py_in w text_lower) negative_words) in
        ((pos_count > neg_count)%nat -> classify_sentiment (Some v) = "positive")
        /\ ((neg_count > pos_count)%nat -> classify_sentiment (Some v) = "negative")
        /\ (pos_count = neg_count -> classify_sentiment (Some v) = "neutral"))
  /\ classify_sentiment (Some (SStr "Excellent product quality!")) = "positive"
  /\ word_count positive_words (lower "Excellent product quality!") = 1%nat
  /\ word_count negative_words (lower "Excellent product quality!") = 0%nat
  /\ classify_sentiment (Some (SStr "Could be better")) = "neutral"
  /\ word_count positive_words (lower "Could be better") = 0%nat
  /\ word_count negative_words (lower "Could be better") = 0%nat.
Proof.
  assert (Hcount : forall words t,
             word_count words t = List.length (filter (fun w => py_in w t) words)).
  { intros words t. unfold word_count.
    induction words as [|w ws IH]; simpl; [reflexivity|].
    rewrite IH. destruct (py_in w t); reflexivity. }
  split; [reflexivity|]. split.
  - intros v. cbv zeta. rewrite <- !Hcount. unfold gt.
    exact (classify_sentiment_cases v).
  - repeat split; vm_compute; reflexivity.
Qed.

Lemma classify_sentiment_spec_witness :
  classify_sentiment (Some (SStr "Highly recommend!")) = "positive".
Proof.
  destruct classify_sentiment_spec as [_ [H _]].
  apply (H (SStr "Highly recommend!")). vm_compute. lia.
Defined.

Ltac absent_word H :=
  rewrite H; [| simpl; tauto | discriminate].

(** C10: a text whose lower-cased form contains "not satisfied" also contains
    the positive word "satisfied"; when no other listed word occurs, both
    counts are one and the label is neutral, not negative. *)
Theorem not_satisfied_is_neutral (text : string) :
  py_in "not satisfied" (lower text) = true ->
  py_in "satisfied" (lower text) = true
  /\ ((forall w, In w positive_words -> w <> "satisfied" -> py_in w (lower text) = false) ->
      (forall w, In w negative_words -> w <> "not satisfied" -> py_in w (lower text) = false) ->
      word_count positive_words (lower text) = 1%nat
      /\ word_count negative_words (lower text) = 1%nat
      /\ classify_sentiment (Some (SStr text)) = "neutral"
      /\ classify_sentiment (Some (SStr text)) <> "negative").
Proof.
  intros Hneg.
  assert (Hpos : py_in "satisfied" (lower text) = true).
  { apply (py_in_trans _ "not satisfied"); [reflexivity | exact Hneg]. }
  split; [exact Hpos|]. intros Hp Hn.
  assert (P : word_count positive_words (lower text) = 1%nat).
  { unfold word_count, positive_words. cbn [map list_sum_nat fold_right].
    rewrite Hpos. repeat absent_word Hp. reflexivity. }
  assert (N : word_count negative_words (lower text) = 1%nat).
  { unfold word_count, negative_words. cbn [map list_sum_nat fold_right].
    rewrite Hneg. repeat absent_word Hn. reflexivity. }
  assert (C : classify_sentiment (Some (SStr text)) = "neutral").
  { apply classify_sentiment_cases. simpl py_str. now rewrite P, N. }
  repeat split; try assumption. rewrite C. discriminate.
Qed.

Lemma not_satisfied_is_neutral_witness :
  py_in "not satisfied" (lower "Not satisfied") = true
  /\ classify_sentiment (Some (SStr "Not satisfied")) = "neutral".
Proof.
  split; [reflexivity|].
  apply (not_satisfied_is_neutral "Not satisfied"); [reflexivity | |];
    intros w Hin Hne; simpl in Hin;
    repeat (destruct Hin as [<-|Hin]; [first [reflexivity | now elim Hne]|]);
    contradiction.
Defined.

(** ** Counting *)

Lemma count_true_le (bs : list bool) : (count_true bs <= List.length bs)%nat.
Proof. unfold count_true. apply filter_length_le. Qed.

Lemma count_true_cons (b : bool) (bs : list bool) :
  count_true (b :: bs) = ((if b then 1 else 0) + count_true bs)%nat.
Proof. unfold count_true. simpl. destruct b; reflexivity. Qed.

Lemma isnull_length (s : Series) : List.length (isnull s) = series_len s.
Proof. destruct s; simpl; apply length_map. Qed.

Lemma cells_length (s : Series) : List.length (cells s) = series_len s.
Proof. destruct s; simpl; apply length_map. Qed.

Lemma lookup_In (col : string) (cols : list (string * Series)) (s : Series) :
  lookup col cols = Some s -> In (col, s) cols.
Proof.
  induction cols as [|[name s'] rest IH]; simpl; [discriminate|].
  destruct (String.eqb col name) eqn:E.
  - apply String.eqb_eq in E. intros H. inversion H. subst. now left.
  - intros H. right. auto.
Qed.

Lemma well_formed_len (df : DataFrame) (col : string) (s : Series) :
  well_formed df = true -> lookup col (columns df) = Some s ->
  series_len s = nrows df.
Proof.
  unfold well_formed. rewrite andb_true_iff. intros [H _] L.
  rewrite forallb_forall in H. apply lookup_In in L.
  apply H in L. now apply Nat.eqb_eq in L.
Qed.

Lemma missing_le_total (df : DataFrame) :
  well_formed df = true -> (missing_cell_count df <= total_cell_count df)%nat.
Proof.
  unfold well_formed, missing_cell_count, total_cell_count, len.
  rewrite andb_true_iff. intros [H _]. rewrite forallb_forall in H.
  induction (columns df) as [|c cols IH]; simpl.
  - lia.
  - assert (Hc : series_len (snd c) = nrows df).
    { apply Nat.eqb_eq, H. now left. }
    assert (IH' := IH (fun x Hx => H x (or_intror Hx))).
    pose proof (count_true_le (isnull (snd c))) as Hle.
    rewrite isnull_length, Hc in Hle. lia.
Qed.

(** ** Percentages *)

Lemma Qnat_nonneg (n : nat) : (0 <= Qnat n)%Q.
Proof.
  unfold Qnat. change 0%Q with (inject_Z 0). rewrite <- Zle_Qle. lia.
Qed.

Lemma Qnat_pos (n : nat) : (0 < n)%nat -> (0 < Qnat n)%Q.
Proof.
  intros H. unfold Qnat. change 0%Q with (inject_Z 0). rewrite <- Zlt_Qlt. lia.
Qed.

Lemma Qnat_le (m n : nat) : (m <= n)%nat -> (Qnat m <= Qnat n)%Q.
Proof. intros H. unfold Qnat. rewrite <- Zle_Qle. lia. Qed.

Lemma ratio_bounds (m t : nat) :
  (m <= t)%nat -> (0 < t)%nat -> (0 <= Qnat m / Qnat t <= 1)%Q.
Proof.
  intros Hle Hpos. pose proof (Qnat_pos t Hpos) as Ht.
  pose proof (Qnat_nonneg m) as Hm. pose proof (Qnat_le m t Hle) as Hmt. split.
  - apply Qle_shift_div_l; [exact Ht | lra].
  - apply Qle_shift_div_r; [exact Ht | lra].
Qed.

(** ** Completion rate *)

(** C1 (amended): the completion rate always lies in [0, 100]; on a dataset
    with at least one row and one column it is 100 minus the percentage of
    missing cells; it is 0.0 on a dataset without rows and 100.0 on a dataset
    with rows but without columns; this is the [completion_rate] entry of any
    record [calculate_comprehensive_stats] returns. *)
Theorem completion_rate_spec (df : DataFrame) :
  well_formed df = true ->
  (exists q, _calculate_completion_rate df = Fin q /\ (0 <= q <= 100)%Q)
  /\ ((0 < total_cell_count df)%nat ->
      _calculate_completion_rate df
      = Fin (100 - (Qnat (missing_cell_count df) / Qnat (total_cell_count df) * 100)))
  /\ (len df = 0%nat -> _calculate_completion_rate df = Fin 0)
  /\ (len df <> 0%nat -> columns df = [] -> _calculate_completion_rate df = Fin 100)
  /\ (forall st, calculate_comprehensive_stats df = Ok st ->
                 completion_rate st = _calculate_completion_rate df).
Proof.
  intros WF. pose proof (missing_le_total df WF) as Hle.
  unfold _calculate_completion_rate.
  repeat split.
  - destruct (Nat.eqb (len df) 0); [exists 0%Q; split; [reflexivity | lra]|].
    destruct (Nat.ltb 0 (total_cell_count df)) eqn:E.
    + apply Nat.ltb_lt in E. eexists; split; [reflexivity|].
      pose proof (ratio_bounds _ _ Hle E). lra.
    + exists 100%Q; split; [reflexivity | lra].
  - intros Hpos. assert (Hlen : len df <> 0%nat).
    { unfold total_cell_count in Hpos. lia. }
    apply Nat.eqb_neq in Hlen. rewrite Hlen.
    apply Nat.ltb_lt in Hpos. now rewrite Hpos.
  - intros H0. now rewrite H0.
  - intros Hlen Hcols. apply Nat.eqb_neq in Hlen. rewrite Hlen.
    unfold total_cell_count. rewrite Hcols. simpl. now rewrite Nat.mul_0_r.
  - intros st H. unfold calculate_comprehensive_stats in H.
    repeat (apply bind_Ok in H; destruct H as [? [_ H]]).
    inversion H. reflexivity.
Qed.

Lemma completion_rate_spec_witness :
  exists q, _calculate_completion_rate two_columns = Fin q /\ (0 <= q <= 100)%Q.
Proof.
  apply (completion_rate_spec two_columns). reflexivity.
Defined.

(** C1 as stated fails on the dataset without rows: the completion rate
    reported there is 0.0, not 100.0. *)
Lemma completion_rate_empty_counterexample :
  len no_rows = 0%nat
  /\ exists st, calculate_comprehensive_stats no_rows = Ok st
                /\ completion_rate st = Fin 0
                /\ ~ (0 == 100)%Q.
Proof.
  split; [reflexivity|]. eexists. split; [vm_compute; reflexivity|].
  split; [reflexivity|]. intros H. discriminate H.
Qed.

(** ** Net Promoter Score *)

Lemma count_true_test (test : Q -> bool) (xs : list (option Q)) :
  count_true (map (fun x => match x with Some q => test q | None => false end) xs)
  = scores_where test xs.
Proof.
  unfold scores_where, count_true.
  induction xs as [|[q|] xs IH]; simpl; [reflexivity | | exact IH].
  destruct (test q); simpl; now rewrite IH.
Qed.

Lemma scores_where_le (test : Q -> bool) (xs : list (option Q)) :
  (scores_where test xs <= List.length xs)%nat.
Proof.
  rewrite <- count_true_test.
  etransitivity; [apply count_true_le | now rewrite length_map].
Qed.

Lemma calculate_nps_no_rows (df : DataFrame) (col : string) :
  len df = 0%nat -> calculate_nps df col = Ok (Fin 0).
Proof. intros H. unfold calculate_nps. now rewrite H. Qed.

Lemma calculate_nps_numeric (df : DataFrame) (col : string) (xs : list (option Q)) :
  lookup col (columns df) = Some (NumS xs) -> len df <> 0%nat ->
  calculate_nps df col
  = Ok (Fin ((Qnat (scores_where (fun q => Qle_bool 9 q) xs)
              - Qnat (scores_where (fun q => Qle_bool q 6) xs)) / Qnat (len df) * 100)).
Proof.
  intros L Hlen. unfold calculate_nps, getitem. rewrite L.
  apply Nat.eqb_neq in Hlen. rewrite Hlen. simpl.
  unfold count_true at 1 2. fold (count_true (map (fun x : option Q =>
     match x with Some q => Qle_bool 9 q | None => false end) xs)).
  fold (count_true (map (fun x : option Q =>
     match x with Some q => Qle_bool q 6 | None => false end) xs)).
  now rewrite !count_true_test.
Qed.




(** Scenario 1: three promoters, three passives, four detractors, NPS -10. *)
Example ten_scores_stats :
  exists st, calculate_comprehensive_stats ten_scores = Ok st
             /\ promoters st = 3%nat /\ passives st = 3%nat /\ detractors st = 4%nat
             /\ exists q, nps_score st = Fin q /\ (q == -10)%Q.
Proof.
  eexists. split; [vm_compute; reflexivity|]. cbn.
  repeat split. eexists. split; [reflexivity | reflexivity].
Qed.

(** ** Sentiment summary *)

Lemma lookup_set_column (col : string) (s : Series) (cols : list (string * Series)) :
  lookup col (set_column col s cols) = Some s.
Proof.
  induction cols as [|[name s'] rest IH]; simpl.
  - now rewrite String.eqb_refl.
  - destruct (String.eqb col name) eqn:E; simpl; now rewrite E.
Qed.

Lemma has_column_lookup (df : DataFrame) (col : string) :
  has_column df col = true <-> exists s, lookup col (columns df) = Some s.
Proof.
  unfold has_column. destruct (lookup col (columns df)) as [s|]; simpl; split.
  - eauto.
  - reflexivity.
  - discriminate.
  - intros [s H]. discriminate.
Qed.

Lemma classify_sentiment_labels (c : cell) :
  classify_sentiment c = "positive" \/ classify_sentiment c = "neutral"
  \/ classify_sentiment c = "negative".
Proof.
  unfold classify_sentiment. destruct c as [v|]; [|tauto].
  cbv zeta.
  repeat match goal with |- context [if ?b then _ else _] => destruct b end; tauto.
Qed.

Lemma label_indicator (c : cell) :
  ((if scalar_eqb (SStr (classify_sentiment c)) (SStr "positive") then 1 else 0)
   + (if scalar_eqb (SStr (classify_sentiment c)) (SStr "neutral") then 1 else 0)
   + (if scalar_eqb (SStr (classify_sentiment c)) (SStr "negative") then 1 else 0)
   = 1)%nat.
Proof.
  destruct (classify_sentiment_labels c) as [-> | [-> | ->]]; reflexivity.
Qed.

Lemma label_counts_sum (cs : list cell) :
  (label_count "positive" cs + label_count "neutral" cs + label_count "negative" cs
   = List.length cs)%nat.
Proof.
  unfold label_count, key_mask. cbn [cells]. rewrite !map_map. cbn [option_map].
  induction cs as [|c cs IH]; [reflexivity|].
  cbn [map List.length]. rewrite !count_true_cons.
  pose proof (label_indicator c). lia.
Qed.

Lemma value_counts_get_0 (s : Series) (key : scalar) :
  value_counts_get s key 0 = count_true (key_mask s key).
Proof.
  unfold value_counts_get. destruct (Nat.eqb _ 0) eqn:E; [|reflexivity].
  apply Nat.eqb_eq in E. now rewrite E.
Qed.

Lemma get_sentiment_analysis_present (df : DataFrame) (feedback : Series) :
  lookup "feedback" (columns df) = Some feedback ->
  get_sentiment_analysis df
  = (ratio <- true_divide (label_count "positive" (cells feedback)) (len df) ;;
     Ok (Some {| positive := label_count "positive" (cells feedback);
                 neutral := label_count "neutral" (cells feedback);
                 negative := label_count "negative" (cells feedback);
                 positive_pct := Fin (ratio * 100) |})).
Proof.
  intros L. unfold get_sentiment_analysis, has_column, getitem, setitem.
  rewrite L. cbn [is_some is_none negb bind columns].
  rewrite lookup_set_column. cbn [bind].
  rewrite !value_counts_get_0. reflexivity.
Qed.

(** On a dataset without rows that has a feedback column the percentage of
    positive feedback divides by zero. *)
Lemma get_sentiment_analysis_no_rows (df : DataFrame) :
  has_column df "feedback" = true -> len df = 0%nat ->
  get_sentiment_analysis df = Raise ZeroDivisionError.
Proof.
  intros H E. apply has_column_lookup in H. destruct H as [s L].
  rewrite (get_sentiment_analysis_present df s L). unfold true_divide.
  now rewrite E.
Qed.

(** C5: the result is [None] exactly when there is no feedback column; with
    a feedback column and at least one record a summary is returned whose
    three counts add up to the number of records. *)
Theorem get_sentiment_analysis_spec (df : DataFrame) :
  well_formed df = true ->
  (get_sentiment_analysis df = Ok None <-> has_column df "feedback" = false)
  /\ (has_column df "feedback" = true -> len df <> 0%nat ->
      exists summary,
        get_sentiment_analysis df = Ok (Some summary)
        /\ (positive summary + neutral summary + negative summary = len df)%nat).
Proof.
  intros WF. split.
  - split.
    + intros H. destruct (has_column df "feedback") eqn:E; [|reflexivity].
      apply has_column_lookup in E. destruct E as [s L].
      rewrite (get_sentiment_analysis_present df s L) in H.
      destruct (true_divide _ _); discriminate.
    + intros H. unfold get_sentiment_analysis. now rewrite H.
  - intros H Hlen. apply has_column_lookup in H. destruct H as [s L].
    rewrite (get_sentiment_analysis_present df s L). unfold true_divide.
    apply Nat.eqb_neq in Hlen. rewrite Hlen. cbn [bind].
    eexists. split; [reflexivity|]. cbn [positive neutral negative].
    rewrite label_counts_sum, cells_length.
    exact (well_formed_len df _ _ WF L).
Qed.

Lemma get_sentiment_analysis_spec_witness :
  exists summary,
    get_sentiment_analysis four_feedbacks = Ok (Some summary)
    /\ (positive summary + neutral summary + negative summary = 4)%nat.
Proof.
  apply (get_sentiment_analysis_spec four_feedbacks);
    [reflexivity | reflexivity | discriminate].
Defined.

Example four_feedbacks_summary :
  exists summary, get_sentiment_analysis four_feedbacks = Ok (Some summary)
    /\ positive summary = 1%nat /\ neutral summary = 2%nat /\ negative summary = 1%nat.
Proof. eexists. split; [vm_compute; reflexivity|]. repeat split. Qed.

(** ** Faults *)

Lemma result_cases {A : Type} (m : result A) : returns m \/ raises m.
Proof. destruct m; [left | right]; eexists; reflexivity. Qed.

Lemma calculate_nps_absent (df : DataFrame) (col : string) :
  has_column df col = false -> len df <> 0%nat ->
  calculate_nps df col = Raise (KeyError col).
Proof.
  intros H Hlen. unfold calculate_nps, getitem.
  apply Nat.eqb_neq in Hlen. rewrite Hlen.
  unfold has_column in H. destruct (lookup col (columns df)); [discriminate | reflexivity].
Qed.

(** Without the recommendation column, no dataset with a row gets a
    statistics record. *)
Lemma comprehensive_stats_needs_recommendation (df : DataFrame) :
  has_column df likelihood_to_recommend = false -> len df <> 0%nat ->
  raises (calculate_comprehensive_stats df).
Proof.
  intros H Hlen. destruct (result_cases (calculate_comprehensive_stats df)) as [[st R]|R];
    [|exact R].
  exfalso. unfold calculate_comprehensive_stats in R.
  do 9 (apply bind_Ok in R; destruct R as [? [_ R]]).
  apply bind_Ok in R. destruct R as [nps [R _]].
  rewrite (calculate_nps_absent df _ H Hlen) in R. discriminate.
Qed.

(** C2, at the dataset of scenario 3 (a satisfaction column only): the
    recommendation column is absent and [calculate_comprehensive_stats]
    raises [KeyError] instead of reporting an NPS of 0.0. *)
Theorem comprehensive_stats_satisfaction_only :
  has_column satisfaction_only likelihood_to_recommend = false
  /\ calculate_comprehensive_stats satisfaction_only
     = Raise (KeyError "likelihood_to_recommend").
Proof. split; vm_compute; reflexivity. Qed.

(** On a dataset without rows the absent column is harmless: the NPS is 0.0
    and the three counts are 0. *)
Lemma comprehensive_stats_no_rows_nps (df : DataFrame) (st : Stats) :
  has_column df likelihood_to_recommend = false -> len df = 0%nat ->
  calculate_comprehensive_stats df = Ok st ->
  nps_score st = Fin 0 /\ promoters st = 0%nat /\ passives st = 0%nat
  /\ detractors st = 0%nat.
Proof.
  intros H E R. unfold calculate_comprehensive_stats in R.
  rewrite (calculate_nps_no_rows df _ E) in R.
  unfold if_column in R. unfold likelihood_to_recommend in H. rewrite H in R.
  repeat (apply bind_Ok in R; destruct R as [? [? R]]).
  repeat match goal with H : Ok _ = Ok _ |- _ => inversion H; clear H end.
  repeat split.
Qed.

(** C3, at two datasets without rows: with a feedback column
    [get_sentiment_analysis] divides by zero, and with region and satisfaction
    columns [calculate_comprehensive_stats] asks an empty series for its
    arg-max. *)
Theorem no_rows_faults :
  len no_feedback_rows = 0%nat
  /\ get_sentiment_analysis no_feedback_rows = Raise ZeroDivisionError
  /\ len no_region_rows = 0%nat
  /\ calculate_comprehensive_stats no_region_rows = Raise ValueError.
Proof. repeat split; vm_compute; reflexivity. Qed.

(** What does work without rows: the NPS, the segment table, and the
    statistics of a dataset without columns. *)
Example no_rows_results :
  calculate_nps no_region_rows likelihood_to_recommend = Ok (Fin 0)
  /\ analyze_by_segment no_region_rows "region"
     = Ok {| table_columns := ["satisfaction"]; table_rows := [] |}
  /\ get_sentiment_analysis no_rows = Ok None
  /\ exists st, calculate_comprehensive_stats no_rows = Ok st
                /\ total_responses st = 0%nat /\ nps_score st = Fin 0
                /\ best_region st = VStr "N/A".
Proof.
  repeat split. eexists. split; [vm_compute; reflexivity|]. repeat split.
Qed.

(** ** The order of the columns *)

Lemma distinct_names_NoDup (names : list string) :
  distinct_names names = true -> NoDup names.
Proof.
  induction names as [|n rest IH]; simpl; [constructor|].
  rewrite andb_true_iff, negb_true_iff. intros [Hn Hrest].
  constructor; [|auto].
  intros Hin. assert (E : existsb (String.eqb n) rest = true).
  { apply existsb_exists. exists n. split; [exact Hin | apply String.eqb_refl]. }
  congruence.
Qed.

Lemma lookup_not_In (col : string) (cols : list (string * Series)) :
  ~ In col (map fst cols) -> lookup col cols = None.
Proof.
  induction cols as [|[name s] rest IH]; simpl; [reflexivity|].
  intros H. destruct (String.eqb col name) eqn:E.
  - apply String.eqb_eq in E. subst. tauto.
  - apply IH. tauto.
Qed.

Lemma lookup_Permutation (col : string) (cols cols' : list (string * Series)) :
  NoDup (map fst cols) -> Permutation cols cols' ->
  lookup col cols = lookup col cols'.
Proof.
  intros ND P. induction P as [| [n s] l l' P IH | [n s] [n' s'] l | l l' l'' P IH P' IH'].
  - reflexivity.
  - simpl in *. inversion ND; subst. now rewrite IH.
  - simpl in *. inversion ND as [|? ? Hn ND']; subst.
    destruct (String.eqb col n') eqn:E1, (String.eqb col n) eqn:E2; try reflexivity.
    apply String.eqb_eq in E1, E2. subst. exfalso. apply Hn. now left.
  - rewrite IH by assumption. apply IH'.
    apply (Permutation_NoDup (Permutation_map fst P)). assumption.
Qed.

Lemma list_sum_nat_Permutation (l l' : list nat) :
  Permutation l l' -> list_sum_nat l = list_sum_nat l'.
Proof.
  induction 1; simpl; lia.
Qed.

(** The statistics read a dataset only through its number of rows, its
    columns by name, its number of columns and its number of missing cells. *)
Lemma comprehensive_stats_ext (a b : DataFrame) :
  nrows a = nrows b ->
  (forall col, lookup col (columns a) = lookup col (columns b)) ->
  List.length (columns a) = List.length (columns b) ->
  missing_cell_count a = missing_cell_count b ->
  calculate_comprehensive_stats a = calculate_comprehensive_stats b.
Proof.
  intros Hn Hl Hc Hm.
  unfold calculate_comprehensive_stats, date_range_of, if_column, best_segment,
    groupby_mean, calculate_nps, count_ge, count_le, count_between,
    _calculate_completion_rate, total_cell_count, has_column, getitem, len, select_rows.
  cbn [nrows]. rewrite Hn, Hc, Hm. rewrite !Hl. reflexivity.
Qed.

(** The order of the columns does not matter: two datasets with the same rows
    and the same named columns get the same outcome, the same record or the
    same exception. *)
Lemma comprehensive_stats_column_order (a b : DataFrame) :
  well_formed a = true -> same_content a b ->
  calculate_comprehensive_stats a = calculate_comprehensive_stats b.
Proof.
  intros WF [Hn P]. apply comprehensive_stats_ext.
  - exact Hn.
  - intros col. apply lookup_Permutation; [|exact P].
    apply distinct_names_NoDup. unfold well_formed in WF.
    apply andb_true_iff in WF. tauto.
  - now apply Permutation_length.
  - unfold missing_cell_count. apply list_sum_nat_Permutation.
    now apply Permutation_map.
Qed.

(** ** The order of the group keys *)

Lemma ascii_compare_refl (a : ascii) : Ascii.compare a a = Eq.
Proof. unfold Ascii.compare. apply N.compare_refl. Qed.

Lemma ascii_compare_lt_trans (a b c : ascii) :
  Ascii.compare a b = Lt -> Ascii.compare b c = Lt -> Ascii.compare a c = Lt.
Proof.
  unfold Ascii.compare. rewrite !N.compare_lt_iff. apply N.lt_trans.
Qed.

Lemma string_compare_refl (s : string) : String.compare s s = Eq.
Proof.
  induction s as [|c s IH]; simpl; [reflexivity|].
  now rewrite ascii_compare_refl.
Qed.

Lemma string_compare_lt_trans (a b c : string) :
  String.compare a b = Lt -> String.compare b c = Lt -> String.compare a c = Lt.
Proof.
  revert b c. induction a as [|x a IH]; intros [|y b] [|z c]; simpl;
    try discriminate; try reflexivity.
  destruct (Ascii.compare x y) eqn:Exy; try discriminate;
    destruct (Ascii.compare y z) eqn:Eyz; try discriminate; intros H1 H2.
  - apply Ascii.compare_eq_iff in Exy, Eyz. subst.
    rewrite ascii_compare_refl. eauto.
  - apply Ascii.compare_eq_iff in Exy. subst. now rewrite Eyz.
  - apply Ascii.compare_eq_iff in Eyz. subst. now rewrite Exy.
  - now rewrite (ascii_compare_lt_trans _ _ _ Exy Eyz).
Qed.

Lemma scalar_compare_refl (a : scalar) : scalar_compare a a = Eq.
Proof.
  destruct a; simpl.
  - apply Qeq_alt. reflexivity.
  - apply string_compare_refl.
  - apply Z.compare_refl.
Qed.

Lemma scalar_compare_antisym (a b : scalar) :
  scalar_compare a b = CompOpp (scalar_compare b a).
Proof.
  destruct a, b; simpl; try reflexivity.
  - symmetry. apply Qcompare_antisym.
  - apply String.compare_antisym.
  - apply Z.compare_antisym.
Qed.

Lemma scalar_compare_eq (a b : scalar) :
  canonical a -> canonical b -> scalar_compare a b = Eq -> a = b.
Proof.
  destruct a, b; simpl; try discriminate; intros Ha Hb H.
  - apply Qeq_alt, Qred_complete in H. congruence.
  - apply String.compare_eq_iff in H. congruence.
  - apply Z.compare_eq in H. congruence.
Qed.

Lemma scalar_lt_trans (a b c : scalar) :
  scalar_lt a b -> scalar_lt b c -> scalar_lt a c.
Proof.
  unfold scalar_lt. destruct a, b, c; simpl; try discriminate; try reflexivity.
  - rewrite <- !Qlt_alt. apply Qlt_trans.
  - apply string_compare_lt_trans.
  - rewrite !Z.compare_lt_iff. apply Z.lt_trans.
Qed.

Lemma scalar_lt_irrefl (a : scalar) : ~ scalar_lt a a.
Proof. unfold scalar_lt. rewrite scalar_compare_refl. discriminate. Qed.

Lemma scalar_eqb_eq (a b : scalar) :
  canonical a -> canonical b -> (scalar_eqb a b = true <-> a = b).
Proof.
  intros Ha Hb. unfold scalar_eqb. split.
  - destruct (scalar_compare a b) eqn:E; try discriminate.
    intros _. now apply scalar_compare_eq.
  - intros ->. now rewrite scalar_compare_refl.
Qed.

(** ** The group keys *)

Lemma cells_canonical (s : Series) (v : scalar) :
  In (Some v) (cells s) -> canonical v.
Proof.
  destruct s as [xs|xs|xs]; simpl; rewrite in_map_iff; intros [[x|] [E _]];
    simpl in E; inversion E; simpl; auto.
  apply Qred_complete, Qred_correct.
Qed.

Lemma In_dropna {A : Type} (x : A) (xs : list (option A)) :
  In x (dropna xs) <-> In (Some x) xs.
Proof.
  unfold dropna. rewrite in_flat_map. split.
  - intros [[y|] [Hin H]]; simpl in H; [|contradiction].
    destruct H as [->|[]]. exact Hin.
  - intros H. exists (Some x). split; [exact H | now left].
Qed.

Lemma insert_key_In (k x : scalar) (ks : list scalar) :
  canonical k -> Forall canonical ks ->
  (In x (insert_key k ks) <-> x = k \/ In x ks).
Proof.
  intros Hk Hks. induction Hks as [|k' rest Hk' Hrest IH]; simpl.
  - intuition.
  - destruct (scalar_compare k k') eqn:E; simpl.
    + apply (scalar_compare_eq _ _ Hk Hk') in E. subst. intuition.
    + intuition.
    + rewrite IH. intuition.
Qed.

Lemma insert_key_sorted (k : scalar) (ks : list scalar) :
  StronglySorted scalar_lt ks -> StronglySorted scalar_lt (insert_key k ks).
Proof.
  induction 1 as [|k' rest Hs IH Hall]; simpl.
  - constructor; constructor.
  - destruct (scalar_compare k k') eqn:E.
    + now constructor.
    + constructor; [now constructor|].
      constructor; [exact E|].
      eapply Forall_impl; [|exact Hall].
      intros x Hx. now apply (scalar_lt_trans k k' x).
    + constructor; [exact IH|].
      assert (Hlt : scalar_lt k' k).
      { unfold scalar_lt. rewrite scalar_compare_antisym, E. reflexivity. }
      clear IH Hs. induction Hall as [|y rest Hy Hall IH]; simpl.
      * now repeat constructor.
      * destruct (scalar_compare k y); repeat (constructor; auto).
Qed.

Lemma insert_key_canonical (k : scalar) (ks : list scalar) :
  canonical k -> Forall canonical ks -> Forall canonical (insert_key k ks).
Proof.
  intros Hk Hks. apply Forall_forall. intros x Hx.
  apply (insert_key_In k x ks Hk Hks) in Hx. destruct Hx as [->|Hx]; [exact Hk|].
  rewrite Forall_forall in Hks. auto.
Qed.

Lemma sorted_NoDup (ks : list scalar) :
  StronglySorted scalar_lt ks -> NoDup ks.
Proof.
  induction 1 as [|k rest Hs IH Hall]; constructor; [|exact IH].
  intros Hin. rewrite Forall_forall in Hall.
  exact (scalar_lt_irrefl k (Hall k Hin)).
Qed.

(** The keys of a grouping are sorted, in lowest terms, and are exactly the
    non-missing values of the column. *)
Lemma group_keys_spec (s : Series) :
  StronglySorted scalar_lt (group_keys s)
  /\ Forall canonical (group_keys s)
  /\ (forall k, In k (group_keys s) <-> In (Some k) (cells s)).
Proof.
  unfold group_keys.
  assert (Hc : Forall canonical (dropna (cells s))).
  { apply Forall_forall. intros v Hv. apply In_dropna in Hv.
    now apply (cells_canonical s). }
  assert (H : forall vs, Forall canonical vs ->
            StronglySorted scalar_lt (fold_right insert_key [] vs)
            /\ Forall canonical (fold_right insert_key [] vs)
            /\ (forall k, In k (fold_right insert_key [] vs) <-> In k vs)).
  { induction 1 as [|v vs Hv Hvs [IH1 [IH2 IH3]]]; simpl.
    - repeat split; try constructor; tauto.
    - split; [now apply insert_key_sorted|].
      split; [now apply insert_key_canonical|].
      intros k. rewrite (insert_key_In v k _ Hv IH2), IH3. intuition. }
  destruct (H _ Hc) as [H1 [H2 H3]]. repeat split; try assumption.
  - intros Hk. apply In_dropna. now apply H3.
  - intros Hk. apply H3. now apply In_dropna.
Qed.

(** ** Segment tables *)

Lemma mapM_Forall2 {A B : Type} (f : A -> result B) (P : A -> B -> Prop) (xs : list A) :
  (forall x, In x xs -> exists y, f x = Ok y /\ P x y) ->
  exists ys, mapM f xs = Ok ys /\ Forall2 P xs ys.
Proof.
  induction xs as [|x xs IH]; intros H; simpl.
  - exists []. split; [reflexivity | constructor].
  - destruct (H x (or_introl eq_refl)) as [y [Hy Py]].
    destruct IH as [ys [Hys Pys]]; [intros z Hz; apply H; now right|].
    exists (y :: ys). rewrite Hy, Hys. split; [reflexivity | now constructor].
Qed.

Lemma mask_list_map {A B : Type} (f : A -> B) (mask : list bool) (xs : list A) :
  mask_list mask (map f xs) = map f (mask_list mask xs).
Proof.
  revert xs. induction mask as [|b mask IH]; intros [|x xs]; simpl; try reflexivity.
  destruct b; simpl; now rewrite IH.
Qed.

Lemma count_mask_series (mask : list bool) (values : Series) :
  count (mask_series mask values)
  = count_true (mask_list mask (map negb (isnull values))).
Proof.
  unfold count. destruct values; simpl; now rewrite !mask_list_map.
Qed.

Lemma list_sum_nat_zero {A : Type} (ks : list A) :
  list_sum_nat (map (fun _ => 0%nat) ks) = 0%nat.
Proof. induction ks; simpl; auto. Qed.

Lemma list_sum_nat_add {A : Type} (f g : A -> nat) (ks : list A) :
  list_sum_nat (map (fun k => (f k + g k)%nat) ks)
  = (list_sum_nat (map f ks) + list_sum_nat (map g ks))%nat.
Proof. induction ks; simpl; lia. Qed.

Section Partition.

(** A list of distinct keys in lowest terms. *)
Variable ks : list scalar.
Hypothesis ks_canonical : Forall canonical ks.
Hypothesis ks_distinct : NoDup ks.

(** Among the keys exactly one equals a given member. *)
Lemma one_key_matches (v : scalar) :
  canonical v -> In v ks ->
  list_sum_nat (map (fun k => Nat.b2n (scalar_eqb v k)) ks) = 1%nat.
Proof.
  intros Hv. revert ks_canonical.
  induction ks_distinct as [|k l Hk ND IH]; simpl; [contradiction|].
  intros Hc. inversion Hc as [|? ? Hck Hcl]; subst. intros [->|Hin].
  - unfold scalar_eqb at 1. rewrite scalar_compare_refl. simpl.
    f_equal. rewrite <- (list_sum_nat_zero l). f_equal.
    apply map_ext_in. intros k Hin.
    destruct (scalar_eqb v k) eqn:E; [|reflexivity].
    apply scalar_eqb_eq in E; [subst; contradiction | exact Hv |].
    rewrite Forall_forall in Hcl. auto.
  - rewrite (IH ND Hcl Hin).
    destruct (scalar_eqb v k) eqn:E; [|reflexivity].
    apply scalar_eqb_eq in E; [subst; contradiction | exact Hv | exact Hck].
Qed.

(** The groups partition the records whose key is present. *)
Lemma group_counts_partition (cs : list cell) (ps : list bool) :
  (forall v, In (Some v) cs -> canonical v /\ In v ks) ->
  list_sum_nat
    (map (fun k =>
            count_true
              (mask_list
                 (map (fun c => match c with Some v => scalar_eqb v k | None => false end) cs)
                 ps))
         ks)
  = count_true (and_mask (map is_some cs) ps).
Proof.
  revert ps. induction cs as [|c cs IH]; intros ps Hcs.
  - simpl. apply list_sum_nat_zero.
  - destruct ps as [|p ps].
    + simpl. apply list_sum_nat_zero.
    + assert (Hcs' : forall v, In (Some v) cs -> canonical v /\ In v ks).
      { intros v Hv. apply Hcs. now right. }
      specialize (IH ps Hcs').
      unfold and_mask. cbn [map combine fst snd]. fold (and_mask (map is_some cs) ps).
      rewrite count_true_cons, <- IH.
      destruct c as [v|].
      * destruct (Hcs v (or_introl eq_refl)) as [Hv Hin].
        cbn [mask_list]. simpl is_some.
        transitivity
          (list_sum_nat
             (map (fun k =>
                     ((if p then Nat.b2n (scalar_eqb v k) else 0)
                      + count_true
                          (mask_list
                             (map (fun c => match c with
                                            | Some v0 => scalar_eqb v0 k
                                            | None => false
                                            end) cs) ps))%nat) ks)).
        { f_equal. apply map_ext. intros k.
          destruct (scalar_eqb v k), p; simpl; try rewrite count_true_cons; reflexivity. }
        rewrite list_sum_nat_add. f_equal. destruct p; simpl.
        -- now apply one_key_matches.
        -- apply list_sum_nat_zero.
      * cbn [mask_list]. reflexivity.
Qed.

End Partition.

Lemma group_counts_sum (keys values : Series) :
  list_sum_nat
    (map (fun k => count (mask_series (key_mask keys k) values)) (group_keys keys))
  = both_present keys values.
Proof.
  destruct (group_keys_spec keys) as [Hs [Hc Hin]].
  unfold both_present.
  rewrite <- (group_counts_partition (group_keys keys) Hc (sorted_NoDup _ Hs)
                (cells keys) (map negb (isnull values))).
  - f_equal. apply map_ext. intros k. apply count_mask_series.
  - intros v Hv. split; [now apply (cells_canonical keys) | now apply Hin].
Qed.

Lemma and_mask_all_true (cs : list cell) (ps : list bool) :
  forallb is_some cs = true -> List.length cs = List.length ps ->
  and_mask (map is_some cs) ps = ps.
Proof.
  revert ps. induction cs as [|c cs IH]; intros [|p ps]; simpl; try discriminate;
    try reflexivity.
  rewrite andb_true_iff. intros [Hc Hcs] Hlen. unfold and_mask in *. simpl.
  rewrite Hc. simpl. f_equal. apply IH; [exact Hcs | now inversion Hlen].
Qed.

Lemma count_no_missing (values : Series) :
  forallb negb (isnull values) = true -> count values = series_len values.
Proof.
  unfold count, count_true. rewrite <- isnull_length.
  induction (isnull values) as [|b bs IH]; simpl; [reflexivity|].
  rewrite andb_true_iff. intros [Hb Hbs]. rewrite Hb. simpl. now rewrite IH.
Qed.

Lemma nth_error_Forall2 {A B : Type} (P : A -> B -> Prop) (xs : list A) (ys : list B)
  (i : nat) (x : A) :
  Forall2 P xs ys -> nth_error xs i = Some x ->
  exists y, nth_error ys i = Some y /\ P x y.
Proof.
  intros H. revert i. induction H as [|a b xs ys Hab H IH]; intros [|i]; simpl;
    try discriminate.
  - intros E. inversion E. subst. eauto.
  - apply IH.
Qed.

Lemma analyze_by_segment_metrics (df : DataFrame) (segment_column : string) :
  filter (has_column df) numeric_cols <> [] ->
  analyze_by_segment df segment_column
  = (keys <- getitem df segment_column ;;
     rows <- mapM (fun k =>
                     aggs <- mapM (fun col =>
                                     values <- getitem df col ;;
                                     aggregate (mask_series (key_mask keys k) values))
                                  (filter (has_column df) numeric_cols) ;;
                     Ok (k, aggs))
                  (group_keys keys) ;;
     Ok {| table_columns := filter (has_column df) numeric_cols; table_rows := rows |}).
Proof.
  intros H. unfold analyze_by_segment.
  destruct (filter (has_column df) numeric_cols); [contradiction | reflexivity].
Qed.

Lemma analyze_by_segment_rows (df : DataFrame) (segment_column : string) (keys : Series) :
  lookup segment_column (columns df) = Some keys ->
  (forall col values, In col numeric_cols -> lookup col (columns df) = Some values ->
                      exists xs, values = NumS xs) ->
  filter (has_column df) numeric_cols <> [] ->
  exists rows,
    analyze_by_segment df segment_column
    = Ok {| table_columns := filter (has_column df) numeric_cols; table_rows := rows |}
    /\ Forall2 (row_of df keys) (group_keys keys) rows.
Proof.
  intros L Hnum Hne. rewrite (analyze_by_segment_metrics df _ Hne).
  unfold getitem at 1. rewrite L. cbn [bind].
  destruct (mapM_Forall2
              (fun k =>
                 aggs <- mapM (fun col =>
                                 values <- getitem df col ;;
                                 aggregate (mask_series (key_mask keys k) values))
                              (filter (has_column df) numeric_cols) ;;
                 Ok (k, aggs))
              (row_of df keys) (group_keys keys)) as [rows [Hr Pr]].
  - intros k _.
    destruct (mapM_Forall2
                (fun col =>
                   values <- getitem df col ;;
                   aggregate (mask_series (key_mask keys k) values))
                (fun col a =>
                   forall values, lookup col (columns df) = Some values ->
                                  agg_count a = count (mask_series (key_mask keys k) values))
                (filter (has_column df) numeric_cols)) as [aggs [Ha Pa]].
    + intros col Hcol. apply filter_In in Hcol. destruct Hcol as [Hin Hhas].
      apply has_column_lookup in Hhas. destruct Hhas as [values Lv].
      destruct (Hnum col values Hin Lv) as [xs ->].
      eexists. split.
      * unfold getitem. rewrite Lv. reflexivity.
      * intros values' L'. rewrite Lv in L'. inversion L'. reflexivity.
    + exists (k, aggs). rewrite Ha. split; [reflexivity|]. split; [reflexivity | exact Pa].
  - exists rows. rewrite Hr. split; [reflexivity | exact Pr].
Qed.

Lemma rows_keys (df : DataFrame) (keys : Series) (ks : list scalar)
  (rows : list (scalar * list Aggregate)) :
  Forall2 (row_of df keys) ks rows -> map fst rows = ks.
Proof.
  induction 1 as [|k row ks rows [Hk _] _ IH]; simpl; [reflexivity|].
  now rewrite Hk, IH.
Qed.

Lemma rows_counts (df : DataFrame) (keys values : Series) (ks : list scalar)
  (rows : list (scalar * list Aggregate)) (i : nat) (col : string) :
  nth_error (filter (has_column df) numeric_cols) i = Some col ->
  lookup col (columns df) = Some values ->
  Forall2 (row_of df keys) ks rows ->
  list_sum_nat
    (map (fun row => match nth_error (snd row) i with
                     | Some a => agg_count a
                     | None => 0%nat
                     end) rows)
  = list_sum_nat (map (fun k => count (mask_series (key_mask keys k) values)) ks).
Proof.
  intros Hi L. induction 1 as [|k row ks rows [_ Hrow] _ IH]; simpl; [reflexivity|].
  destruct (nth_error_Forall2 _ _ _ i col Hrow Hi) as [a [Ha Pa]].
  now rewrite Ha, (Pa values L), IH.
Qed.

(** C7 (amended): without any of the five metric columns the table is empty.
    Otherwise, when the metric columns present are numeric, the table has one
    row per distinct
    non-missing value of the segment column, and the [count] entries of a
    metric add up to the number of records in which both the segment value and
    that metric are present: the number of values of the metric when the
    segment column has no missing value, and the number of records when the
    metric has none either. *)
Theorem analyze_by_segment_spec (df : DataFrame) (segment_column : string) :
  (filter (has_column df) numeric_cols = [] ->
   analyze_by_segment df segment_column = Ok empty_table)
  /\ (forall keys,
        well_formed df = true ->
        lookup segment_column (columns df) = Some keys ->
        (forall col values, In col numeric_cols -> lookup col (columns df) = Some values ->
                            exists xs, values = NumS xs) ->
        filter (has_column df) numeric_cols <> [] ->
        exists t,
          analyze_by_segment df segment_column = Ok t
          /\ table_columns t = filter (has_column df) numeric_cols
          /\ NoDup (map fst (table_rows t))
          /\ (forall k, In k (map fst (table_rows t)) <-> In (Some k) (cells keys))
          /\ (forall i col values,
                nth_error (table_columns t) i = Some col ->
                lookup col (columns df) = Some values ->
                count_total i t = both_present keys values
                /\ (forallb is_some (cells keys) = true ->
                    count_total i t = count values)
                /\ (forallb is_some (cells keys) = true ->
                    forallb negb (isnull values) = true ->
                    count_total i t = len df))).
Proof.
  split.
  - intros H. unfold analyze_by_segment. now rewrite H.
  - intros keys WF L Hnum Hne.
    destruct (analyze_by_segment_rows df _ keys L Hnum Hne) as [rows [Hr Pr]].
    destruct (group_keys_spec keys) as [Hs [_ Hin]].
    eexists. split; [exact Hr|]. cbn [table_columns table_rows].
    rewrite (rows_keys _ _ _ _ Pr).
    split; [reflexivity|]. split; [now apply sorted_NoDup|]. split; [exact Hin|].
    intros i col values Hi Lv.
    assert (Hsum : count_total i
                     {| table_columns := filter (has_column df) numeric_cols;
                        table_rows := rows |}
                   = both_present keys values).
    { unfold count_total. cbn [table_rows].
      rewrite (rows_counts df keys values _ _ i col Hi Lv Pr).
      apply group_counts_sum. }
    assert (Hfull : forallb is_some (cells keys) = true ->
                    both_present keys values = count values).
    { intros Hk. unfold both_present, count.
      rewrite and_mask_all_true; [reflexivity | exact Hk |].
      rewrite cells_length, length_map, isnull_length.
      rewrite (well_formed_len df _ _ WF L). symmetry.
      exact (well_formed_len df _ _ WF Lv). }
    split; [exact Hsum|]. split.
    + intros Hk. now rewrite Hsum, Hfull.
    + intros Hk Hv. rewrite Hsum, (Hfull Hk), (count_no_missing _ Hv).
      exact (well_formed_len df _ _ WF Lv).
Qed.

Lemma analyze_by_segment_spec_witness :
  exists t,
    analyze_by_segment two_columns "region" = Ok t
    /\ count_total 0 t = both_present (StrS [Some "North"; Some "South"])
                                      (NumS [Some 5%Q; None]).
Proof.
  destruct (proj2 (analyze_by_segment_spec two_columns "region")
              (StrS [Some "North"; Some "South"])) as [t [Ht [Hc [_ [_ Hcount]]]]].
  - reflexivity.
  - reflexivity.
  - intros col values Hin Hl. simpl in Hin.
    repeat (destruct Hin as [<-|Hin]; [vm_compute in Hl; inversion Hl; eauto|]);
      try discriminate. contradiction.
  - vm_compute. discriminate.
  - exists t. split; [exact Ht|].
    apply (Hcount 0%nat "satisfaction"); [rewrite Hc|]; reflexivity.
Defined.

(** C7 as stated fails when a metric has a missing value: the segment column
    of [two_columns] has no missing value and a metric column is present, yet
    the counts of the two rows add up to 1 while there are 2 records.  It
    fails as well when a metric column that is present holds text: on
    [text_metric], whose segment column has no missing value either, the mean
    of the text raises [TypeError] and there is no table. *)
Lemma analyze_by_segment_counts_counterexample :
  (forallb is_some (cells (StrS [Some "North"; Some "South"])) = true
   /\ lookup "region" (columns two_columns) = Some (StrS [Some "North"; Some "South"])
   /\ has_column two_columns "satisfaction" = true
   /\ exists t,
        analyze_by_segment two_columns "region" = Ok t
        /\ List.length (table_rows t) = 2%nat
        /\ count_total 0 t = 1%nat
        /\ len two_columns = 2%nat
        /\ count_total 0 t <> len two_columns)
  /\ (lookup "region" (columns text_metric) = Some (StrS [Some "North"; Some "South"])
      /\ has_column text_metric "satisfaction" = true
      /\ has_column text_metric "product_quality" = true
      /\ analyze_by_segment text_metric "region" = Raise TypeError).
Proof.
  split.
  - repeat split. eexists. split; [vm_compute; reflexivity|].
    repeat split. vm_compute. discriminate.
  - repeat split.
Qed.

(** ** The best segment *)

Open Scope list_scope.










Lemma dropna_length (xs : list (option Q)) : List.length (dropna xs) = count (NumS xs).
Proof.
  unfold count, count_true. simpl. rewrite map_map.
  induction xs as [|[x|] xs IH]; simpl; [reflexivity | now rewrite IH | exact IH].
Qed.








(** West and East tie at a mean of 4; East comes first in sorted order. *)
Example tied_regions_best :
  exists st, calculate_comprehensive_stats tied_regions = Ok st
             /\ best_region st = VStr "East" /\ best_region_score st = Fin 4.
Proof. eexists. split; [vm_compute; reflexivity|]. split; reflexivity. Qed.


(** * Further properties of the statistics *)

(** What each entry of a returned record was computed by. *)
Lemma comprehensive_stats_inv (df : DataFrame) (st : Stats) :
  calculate_comprehensive_stats df = Ok st ->
  total_responses st = len df
  /\ date_range_of df = Ok (date_range st)
  /\ completion_rate st = _calculate_completion_rate df
  /\ if_column df "satisfaction" mean (Fin 0) = Ok (avg_satisfaction st)
  /\ if_column df "product_quality" mean (Fin 0) = Ok (avg_product_quality st)
  /\ if_column df "customer_service" mean (Fin 0) = Ok (avg_customer_service st)
  /\ if_column df "value_for_money" mean (Fin 0) = Ok (avg_value st)
  /\ if_column df "likelihood_to_recommend" mean (Fin 0) = Ok (avg_nps st)
  /\ if_column df "satisfaction" std (Fin 0) = Ok (std_satisfaction st)
  /\ if_column df "product_quality" std (Fin 0) = Ok (std_product_quality st)
  /\ if_column df "customer_service" std (Fin 0) = Ok (std_customer_service st)
  /\ calculate_nps df likelihood_to_recommend = Ok (nps_score st)
  /\ if_column df "likelihood_to_recommend" (count_ge df 9) 0%nat = Ok (promoters st)
  /\ if_column df "likelihood_to_recommend"
       (count_between df "likelihood_to_recommend" 7 8) 0%nat = Ok (passives st)
  /\ if_column df "likelihood_to_recommend" (count_le df 6) 0%nat = Ok (detractors st)
  /\ if_column df "satisfaction" (fun s => quantile s (1 # 4)) (Fin 0)
     = Ok (satisfaction_p25 st)
  /\ if_column df "satisfaction" median (Fin 0) = Ok (satisfaction_median st)
  /\ if_column df "satisfaction" (fun s => quantile s (3 # 4)) (Fin 0)
     = Ok (satisfaction_p75 st).
Proof.
  intros R. unfold calculate_comprehensive_stats in R.
  repeat (apply bind_Ok in R; destruct R as [? [? R]]).
  inversion R. subst. cbn. repeat split; assumption.
Qed.

Lemma if_column_present {A : Type} (df : DataFrame) (col : string) (s : Series)
  (f : Series -> result A) (default : A) :
  lookup col (columns df) = Some s -> if_column df col f default = f s.
Proof.
  intros L. unfold if_column, has_column, getitem. now rewrite L.
Qed.

(** ** Completion rate *)

Lemma list_sum_nat_eq_0 (ns : list nat) :
  list_sum_nat ns = 0%nat <-> Forall (fun n => n = 0%nat) ns.
Proof.
  induction ns as [|n ns IH]; simpl.
  - split; [constructor | reflexivity].
  - split.
    + intros H. constructor; [lia | apply IH; lia].
    + intros H. inversion H; subst. apply IH in H3. lia.
Qed.

Lemma count_true_eq_0 (bs : list bool) :
  count_true bs = 0%nat <-> forallb negb bs = true.
Proof.
  induction bs as [|b bs IH]; [simpl; tauto|].
  rewrite count_true_cons. simpl. destruct b; simpl; [split; [lia | discriminate] | exact IH].
Qed.

Lemma completion_rate_value (df : DataFrame) :
  (0 < total_cell_count df)%nat ->
  _calculate_completion_rate df
  = Fin (100 - (Qnat (missing_cell_count df) / Qnat (total_cell_count df) * 100)).
Proof.
  intros Hpos. unfold _calculate_completion_rate.
  assert (Hlen : len df <> 0%nat) by (unfold total_cell_count in Hpos; lia).
  apply Nat.eqb_neq in Hlen. rewrite Hlen.
  apply Nat.ltb_lt in Hpos. now rewrite Hpos.
Qed.

(** X1: on a dataset with at least one row and one column the completion
    rate is 100 exactly when no cell of any column is missing. *)
Theorem completion_rate_full_iff (df : DataFrame) :
  well_formed df = true -> (0 < total_cell_count df)%nat ->
  exists q,
    _calculate_completion_rate df = Fin q
    /\ (q == 100 <-> missing_cell_count df = 0%nat)
    /\ (missing_cell_count df = 0%nat
        <-> forall col s, In (col, s) (columns df) -> forallb negb (isnull s) = true).
Proof.
  intros WF Hpos. pose proof (missing_le_total df WF) as Hle.
  eexists. split; [exact (completion_rate_value df Hpos)|]. split.
  - pose proof (Qnat_pos _ Hpos) as Ht.
    pose proof (Qnat_nonneg (missing_cell_count df)) as Hm. split.
    + intros H.
      assert (Hz : Qnat (missing_cell_count df) / Qnat (total_cell_count df) == 0) by lra.
      assert (Hz' : Qnat (missing_cell_count df) == 0).
      { rewrite <- (Qmult_div_r (Qnat (missing_cell_count df)) (Qnat (total_cell_count df)));
          [|lra]. rewrite Hz. ring. }
      unfold Qnat, Qeq in Hz'. simpl in Hz'. lia.
    + intros H. rewrite H. unfold Qnat at 1. simpl. field. lra.
  - unfold missing_cell_count. rewrite list_sum_nat_eq_0, Forall_forall. split.
    + intros H col s Hin. apply count_true_eq_0.
      apply (H (count_true (isnull s))). apply in_map_iff. exists (col, s). auto.
    + intros H n Hn. apply in_map_iff in Hn. destruct Hn as [[col s] [<- Hin]].
      apply count_true_eq_0. now apply (H col s).
Qed.

Lemma completion_rate_full_iff_witness :
  exists q, _calculate_completion_rate two_columns = Fin q
            /\ (q == 100 <-> missing_cell_count two_columns = 0%nat).
Proof.
  destruct (completion_rate_full_iff two_columns) as [q [H1 [H2 _]]];
    [reflexivity | vm_compute; lia |].
  exists q. split; assumption.
Defined.

(** ** The NPS breakdown *)

Lemma and_mask_map {A : Type} (f g : A -> bool) (xs : list A) :
  and_mask (map f xs) (map g xs) = map (fun x => f x && g x) xs.
Proof.
  unfold and_mask. induction xs as [|x xs IH]; simpl; [reflexivity | now rewrite IH].
Qed.

Lemma count_ge_numeric (df : DataFrame) (lo : Q) (xs : list (option Q)) :
  count_ge df lo (NumS xs) = Ok (scores_where (fun score => Qle_bool lo score) xs).
Proof.
  unfold count_ge. simpl. f_equal. apply count_true_test.
Qed.

Lemma count_le_numeric (df : DataFrame) (hi : Q) (xs : list (option Q)) :
  count_le df hi (NumS xs) = Ok (scores_where (fun score => Qle_bool score hi) xs).
Proof.
  unfold count_le. simpl. f_equal. apply count_true_test.
Qed.

Lemma count_between_numeric (df : DataFrame) (col : string) (lo hi : Q)
  (xs : list (option Q)) :
  lookup col (columns df) = Some (NumS xs) ->
  count_between df col lo hi (NumS xs)
  = Ok (scores_where (fun score => Qle_bool lo score && Qle_bool score hi) xs).
Proof.
  intros L. unfold count_between, getitem. rewrite L. simpl. f_equal.
  rewrite and_mask_map. rewrite <- count_true_test. f_equal.
  apply map_ext. intros [q|]; reflexivity.
Qed.

Lemma scores_where_cons (test : Q -> bool) (x : option Q) (xs : list (option Q)) :
  scores_where test (x :: xs)
  = ((match x with Some q => Nat.b2n (test q) | None => 0 end) + scores_where test xs)%nat.
Proof.
  unfold scores_where. destruct x as [q|]; simpl; [|reflexivity].
  destruct (test q); reflexivity.
Qed.

Lemma Qle_bool_false (a b : Q) : Qle_bool a b = false -> b < a.
Proof.
  intros H. apply Qnot_le_lt. intros Hle. apply Qle_bool_iff in Hle. congruence.
Qed.

(** The three classes exclude one another. *)
Lemma classes_disjoint (q : Q) :
  (Nat.b2n (Qle_bool 9 q) + Nat.b2n (Qle_bool 7 q && Qle_bool q 8) + Nat.b2n (Qle_bool q 6)
   = Nat.b2n (classed q))%nat.
Proof.
  unfold classed.
  destruct (Qle_bool 9 q) eqn:E9, (Qle_bool 7 q) eqn:E7, (Qle_bool q 8) eqn:E8,
    (Qle_bool q 6) eqn:E6; simpl; try reflexivity; exfalso;
    repeat match goal with
           | H : Qle_bool _ _ = true |- _ => apply Qle_bool_iff in H
           | H : Qle_bool _ _ = false |- _ => apply Qle_bool_false in H
           end; lra.
Qed.

Lemma classes_sum (xs : list (option Q)) :
  (scores_where (fun s => Qle_bool 9 s) xs
   + scores_where (fun s => Qle_bool 7 s && Qle_bool s 8) xs
   + scores_where (fun s => Qle_bool s 6) xs
   = scores_where classed xs)%nat.
Proof.
  induction xs as [|[q|] xs IH]; [reflexivity | |];
    rewrite !scores_where_cons; [pose proof (classes_disjoint q) |]; lia.
Qed.

(** X2: in a returned record the three NPS counts are the numbers of scores
    of at least 9, from 7 to 8 and of at most 6, [total_responses] is the
    number of records, and [nps_score] is the percentage of promoters minus
    that of detractors computed from these very entries. *)
Theorem nps_breakdown_consistent (df : DataFrame) (st : Stats) (xs : list (option Q)) :
  calculate_comprehensive_stats df = Ok st ->
  lookup likelihood_to_recommend (columns df) = Some (NumS xs) ->
  total_responses st = len df
  /\ promoters st = scores_where (fun score => Qle_bool 9 score) xs
  /\ passives st = scores_where (fun score => Qle_bool 7 score && Qle_bool score 8) xs
  /\ detractors st = scores_where (fun score => Qle_bool score 6) xs
  /\ (len df <> 0%nat ->
      nps_score st
      = Fin ((Qnat (promoters st) - Qnat (detractors st)) / Qnat (total_responses st) * 100)).
Proof.
  intros R L. destruct (comprehensive_stats_inv df st R)
    as [Ht [_ [_ [_ [_ [_ [_ [_ [_ [_ [_ [Hn [Hp [Hpa [Hd _]]]]]]]]]]]]]]].
  pose proof L as L'. unfold likelihood_to_recommend in L'.
  rewrite (if_column_present df _ _ _ _ L') in Hp.
  rewrite (if_column_present df _ _ _ _ L') in Hpa.
  rewrite (if_column_present df _ _ _ _ L') in Hd.
  rewrite count_ge_numeric in Hp. rewrite count_le_numeric in Hd.
  rewrite (count_between_numeric df _ _ _ xs L') in Hpa.
  inversion Hp as [Hp']. inversion Hd as [Hd']. inversion Hpa as [Hpa'].
  repeat split; try reflexivity; try assumption.
  intros Hlen. rewrite (calculate_nps_numeric df _ xs L Hlen) in Hn.
  inversion Hn. now rewrite Ht.
Qed.

Lemma nps_breakdown_consistent_witness :
  exists st, calculate_comprehensive_stats half_points = Ok st
             /\ promoters st = 1%nat /\ passives st = 1%nat /\ detractors st = 1%nat
             /\ total_responses st = 5%nat.
Proof.
  destruct (calculate_comprehensive_stats half_points) as [st|e] eqn:R;
    [|vm_compute in R; discriminate R].
  exists st. split; [reflexivity|].
  destruct (nps_breakdown_consistent half_points st
              [Some 10; Some (13 # 2); Some 7; None; Some 3]%Q R)
    as [Ht [Hp [Hpa [Hd _]]]]; [reflexivity|].
  rewrite Hp, Hpa, Hd, Ht. repeat split.
Defined.

(** X3: the three NPS counts add up to the number of scores that are at most
    6, from 7 to 8 or at least 9: a missing score, or a score strictly between
    6 and 7 or between 8 and 9, is in no class.  So the counts never exceed
    [total_responses], and they add up to it when every record has a
    whole-number score. *)
Theorem nps_classes_partition (df : DataFrame) (st : Stats) (xs : list (option Q)) :
  well_formed df = true ->
  calculate_comprehensive_stats df = Ok st ->
  lookup likelihood_to_recommend (columns df) = Some (NumS xs) ->
  (promoters st + passives st + detractors st = scores_where classed xs)%nat
  /\ (promoters st + passives st + detractors st <= total_responses st)%nat
  /\ ((forall x, In x xs -> exists q, x = Some q /\ whole q) ->
      (promoters st + passives st + detractors st = total_responses st)%nat).
Proof.
  intros WF R L.
  destruct (comprehensive_stats_inv df st R)
    as [Ht [_ [_ [_ [_ [_ [_ [_ [_ [_ [_ [_ [Hp [Hpa [Hd _]]]]]]]]]]]]]]].
  pose proof L as L'. unfold likelihood_to_recommend in L'.
  rewrite (if_column_present df _ _ _ _ L') in Hp.
  rewrite (if_column_present df _ _ _ _ L') in Hpa.
  rewrite (if_column_present df _ _ _ _ L') in Hd.
  rewrite count_ge_numeric in Hp. rewrite count_le_numeric in Hd.
  rewrite (count_between_numeric df _ _ _ xs L') in Hpa.
  inversion Hp as [Hp']. inversion Hd as [Hd']. inversion Hpa as [Hpa'].
  pose proof (well_formed_len df _ _ WF L) as Hlen. simpl in Hlen.
  rewrite classes_sum, Ht. unfold len. rewrite <- Hlen.
  split; [reflexivity|]. split; [apply scores_where_le|].
  intros Hwhole. clear - Hwhole.
  induction xs as [|x xs IH]; [reflexivity|].
  rewrite scores_where_cons. simpl List.length.
  destruct (Hwhole x (or_introl eq_refl)) as [q [-> [z Hz]]].
  rewrite IH by (intros y Hy; apply Hwhole; now right).
  replace (classed q) with true; [reflexivity|].
  symmetry. unfold classed.
  destruct (Z_le_gt_dec z 6) as [H6|H6].
  - replace (Qle_bool q 6) with true; [reflexivity|].
    symmetry. apply Qle_bool_iff. rewrite Hz.
    change 6 with (inject_Z 6). now rewrite <- Zle_Qle.
  - destruct (Z_le_gt_dec 9 z) as [H9|H9].
    + replace (Qle_bool 9 q) with true; [now rewrite orb_true_r|].
      symmetry. apply Qle_bool_iff. rewrite Hz.
      change 9 with (inject_Z 9). now rewrite <- Zle_Qle.
    + replace (Qle_bool 7 q) with true.
      * replace (Qle_bool q 8) with true; [now rewrite orb_true_r|].
        symmetry. apply Qle_bool_iff. rewrite Hz.
        change 8 with (inject_Z 8). rewrite <- Zle_Qle. lia.
      * symmetry. apply Qle_bool_iff. rewrite Hz.
        change 7 with (inject_Z 7). rewrite <- Zle_Qle. lia.
Qed.

Lemma nps_classes_partition_witness :
  exists st, calculate_comprehensive_stats half_points = Ok st
             /\ (promoters st + passives st + detractors st = 3)%nat
             /\ total_responses st = 5%nat.
Proof.
  destruct (calculate_comprehensive_stats half_points) as [st|e] eqn:R;
    [|vm_compute in R; discriminate R].
  exists st. split; [reflexivity|].
  destruct (nps_classes_partition half_points st
              [Some 10; Some (13 # 2); Some 7; None; Some 3]%Q)
    as [Hsum _]; [reflexivity | exact R | reflexivity |].
  rewrite Hsum. split; [reflexivity|].
  vm_compute in R. inversion R. reflexivity.
Defined.

(** X4: without the score column, [calculate_nps] returns 0.0 on a dataset
    without rows and raises [KeyError] for that column on any other dataset;
    so its result is 0.0 exactly when the dataset has no rows. *)
Theorem calculate_nps_missing_column (df : DataFrame) (nps_column : string) :
  has_column df nps_column = false ->
  (len df = 0%nat -> calculate_nps df nps_column = Ok (Fin 0))
  /\ (len df <> 0%nat -> calculate_nps df nps_column = Raise (KeyError nps_column))
  /\ (returns (calculate_nps df nps_column) <-> len df = 0%nat).
Proof.
  intros H. split; [apply calculate_nps_no_rows|].
  split; [now apply calculate_nps_absent|]. split.
  - intros [v Hv]. destruct (Nat.eq_dec (len df) 0) as [E|E]; [exact E|].
    rewrite (calculate_nps_absent df _ H E) in Hv. discriminate.
  - intros E. exists (Fin 0). now apply calculate_nps_no_rows.
Qed.

Lemma calculate_nps_missing_column_witness :
  calculate_nps satisfaction_only "likelihood_to_recommend"
  = Raise (KeyError "likelihood_to_recommend").
Proof.
  apply (calculate_nps_missing_column satisfaction_only "likelihood_to_recommend");
    [reflexivity | discriminate].
Defined.

(** ** Sentiment *)

Lemma label_count_le (label : string) (cs : list cell) :
  (label_count label cs <= List.length cs)%nat.
Proof.
  unfold label_count, key_mask.
  etransitivity; [apply count_true_le|]. simpl cells. now rewrite !length_map.
Qed.

(** X5: a returned sentiment summary belongs to a dataset with at least one
    row; its [positive_pct] is the positive count divided by the number of
    records, times 100, and lies in [0, 100]; each count is at most the number
    of records. *)
Theorem sentiment_summary_percentage (df : DataFrame) (summary : SentimentSummary) :
  well_formed df = true ->
  get_sentiment_analysis df = Ok (Some summary) ->
  len df <> 0%nat
  /\ positive_pct summary = Fin (Qnat (positive summary) / Qnat (len df) * 100)
  /\ (0 <= Qnat (positive summary) / Qnat (len df) * 100 <= 100)
  /\ (positive summary <= len df)%nat
  /\ (neutral summary <= len df)%nat
  /\ (negative summary <= len df)%nat.
Proof.
  intros WF R.
  destruct (has_column df "feedback") eqn:Hf.
  - apply has_column_lookup in Hf. destruct Hf as [s L].
    rewrite (get_sentiment_analysis_present df s L) in R.
    unfold true_divide in R. destruct (Nat.eqb (len df) 0) eqn:E; [discriminate|].
    apply Nat.eqb_neq in E. cbn [bind] in R. inversion R. subst. clear R.
    cbn [positive neutral negative positive_pct].
    pose proof (well_formed_len df _ _ WF L) as Hlen. rewrite <- cells_length in Hlen.
    assert (Hb : forall label, (label_count label (cells s) <= len df)%nat).
    { intros label. unfold len. rewrite <- Hlen. apply label_count_le. }
    split; [exact E|]. split; [reflexivity|]. split; [|repeat split; apply Hb].
    assert (Hpos : (0 < len df)%nat) by lia.
    pose proof (ratio_bounds _ _ (Hb "positive") Hpos). lra.
  - unfold get_sentiment_analysis in R. rewrite Hf in R. discriminate.
Qed.

Lemma sentiment_summary_percentage_witness :
  exists summary,
    get_sentiment_analysis four_feedbacks = Ok (Some summary)
    /\ positive_pct summary = Fin (Qnat (positive summary) / Qnat 4 * 100).
Proof.
  destruct (get_sentiment_analysis four_feedbacks) as [[summary|]|e] eqn:R;
    try (vm_compute in R; discriminate R).
  exists summary. split; [reflexivity|].
  apply (sentiment_summary_percentage four_feedbacks summary); [reflexivity | exact R].
Defined.

Lemma word_count_pos (words : list string) (text : string) :
  (0 < word_count words text)%nat -> exists w, In w words /\ py_in w text = true.
Proof.
  unfold word_count. induction words as [|w ws IH]; simpl; [lia|].
  destruct (py_in w text) eqn:E.
  - intros _. exists w. auto.
  - simpl. intros H. destruct (IH H) as [w' [Hin Hw]]. exists w'. auto.
Qed.

(** X6: a label needs evidence.  A cell is labelled positive only if it is
    present and its lower-cased text contains a word of the positive list, and
    negative only if it contains a word of the negative list; a text without
    any listed word is neutral. *)
Theorem classify_sentiment_evidence (c : cell) :
  (classify_sentiment c = "positive" ->
   exists v w, c = Some v /\ In w positive_words /\ py_in w (lower (py_str v)) = true)
  /\ (classify_sentiment c = "negative" ->
      exists v w, c = Some v /\ In w negative_words /\ py_in w (lower (py_str v)) = true)
  /\ (forall v, c = Some v ->
      (forall w, In w (positive_words ++ negative_words) ->
                 py_in w (lower (py_str v)) = false) ->
      classify_sentiment c = "neutral").
Proof.
  destruct c as [v|]; unfold classify_sentiment.
  - cbv zeta. set (t := lower (py_str v)).
    set (p := word_count positive_words t). set (n := word_count negative_words t).
    repeat split.
    + destruct (Nat.ltb n p) eqn:E.
      * intros _. apply Nat.ltb_lt in E.
        destruct (word_count_pos positive_words t) as [w [Hin Hw]]; [fold p; lia|].
        exists v, w. auto.
      * destruct (Nat.ltb p n); discriminate.
    + destruct (Nat.ltb n p) eqn:E; [discriminate|].
      destruct (Nat.ltb p n) eqn:E'; [|discriminate].
      intros _. apply Nat.ltb_lt in E'.
      destruct (word_count_pos negative_words t) as [w [Hin Hw]]; [fold n; lia|].
      exists v, w. auto.
    + intros v0 Hv Hnone. inversion Hv. subst v0.
      assert (P : p = 0%nat).
      { destruct (Nat.eq_dec p 0) as [E|E]; [exact E|].
        destruct (word_count_pos positive_words t) as [w [Hin Hw]]; [fold p; lia|].
        unfold t in Hw. rewrite (Hnone w) in Hw; [discriminate | apply in_or_app; now left]. }
      assert (N : n = 0%nat).
      { destruct (Nat.eq_dec n 0) as [E|E]; [exact E|].
        destruct (word_count_pos negative_words t) as [w [Hin Hw]]; [fold n; lia|].
        unfold t in Hw. rewrite (Hnone w) in Hw; [discriminate | apply in_or_app; now right]. }
      now rewrite P, N.
  - repeat split; discriminate.
Qed.

(** ** Sorted values and quantiles *)

Lemma insert_sorted_In (x y : Q) (l : list Q) :
  In y (insert_sorted x l) <-> y = x \/ In y l.
Proof.
  induction l as [|z l IH]; simpl; [intuition (subst; auto)|].
  destruct (Qle_bool x z); simpl; [intuition (subst; auto)|].
  rewrite IH. tauto.
Qed.

Lemma insert_sorted_length (x : Q) (l : list Q) :
  List.length (insert_sorted x l) = S (List.length l).
Proof.
  induction l as [|z l IH]; simpl; [reflexivity|].
  destruct (Qle_bool x z); simpl; [reflexivity | now rewrite IH].
Qed.

Lemma insert_sorted_sorted (x : Q) (l : list Q) :
  StronglySorted Qle l -> StronglySorted Qle (insert_sorted x l).
Proof.
  induction 1 as [|z l Hs IH Hall]; simpl.
  - repeat constructor.
  - destruct (Qle_bool x z) eqn:E.
    + apply Qle_bool_iff in E. constructor; [now constructor|].
      constructor; [exact E|].
      eapply Forall_impl; [|exact Hall]. intros y Hy. eapply Qle_trans; eassumption.
    + apply Qle_bool_false in E. constructor; [exact IH|].
      apply Forall_forall. intros y Hy. apply insert_sorted_In in Hy.
      destruct Hy as [->|Hy]; [now apply Qlt_le_weak|].
      rewrite Forall_forall in Hall. auto.
Qed.

Lemma sort_values_spec (xs : list Q) :
  StronglySorted Qle (sort_values xs)
  /\ List.length (sort_values xs) = List.length xs
  /\ (forall y, In y (sort_values xs) <-> In y xs).
Proof.
  unfold sort_values. induction xs as [|x xs [IH1 [IH2 IH3]]]; simpl.
  - repeat split; try constructor; tauto.
  - split; [now apply insert_sorted_sorted|].
    split; [now rewrite insert_sorted_length, IH2|].
    intros y. rewrite insert_sorted_In, IH3. intuition (subst; auto).
Qed.

Lemma sorted_nth_le (l : list Q) (d d' : Q) (i j : nat) :
  StronglySorted Qle l -> (i <= j)%nat -> (j < List.length l)%nat ->
  nth i l d <= nth j l d'.
Proof.
  intros Hs. revert i j. induction Hs as [|x l Hs IH Hall]; intros i j Hij Hj;
    simpl in Hj; [lia|].
  destruct i as [|i], j as [|j]; simpl; try lia.
  - apply Qle_refl.
  - rewrite Forall_forall in Hall. apply Hall. apply nth_In. lia.
  - apply IH; lia.
Qed.

Lemma floor_nat (pos : Q) :
  0 <= pos ->
  Qnat (Z.to_nat (Qfloor pos)) <= pos /\ pos < Qnat (Z.to_nat (Qfloor pos)) + 1.
Proof.
  intros H. assert (Hf : (0 <= Qfloor pos)%Z).
  { rewrite <- (Qfloor_Z 0). now apply Qfloor_resp_le. }
  unfold Qnat. rewrite Z2Nat.id by exact Hf. split; [apply Qfloor_le|].
  pose proof (Qlt_floor pos) as Hlt. rewrite inject_Z_plus in Hlt. exact Hlt.
Qed.

Lemma Qnat_lt_inv (m n : nat) : Qnat m < Qnat n -> (m < n)%nat.
Proof. unfold Qnat. rewrite <- Zlt_Qlt. lia. Qed.

Lemma Qnat_S (n : nat) : Qnat (S n) == Qnat n + 1.
Proof. unfold Qnat. rewrite Nat2Z.inj_succ, <- Z.add_1_r, inject_Z_plus. reflexivity. Qed.

Section Interpolation.

(** Sorted values and a rank within them. *)
Variable vs : list Q.
Variable v0 : Q.
Hypothesis vs_sorted : StronglySorted Qle vs.

Lemma interpolate_between (pos : Q) :
  0 <= pos -> pos <= Qnat (List.length vs - 1) -> (0 < List.length vs)%nat ->
  let lo := Z.to_nat (Qfloor pos) in
  (lo < List.length vs)%nat
  /\ nth lo vs v0 <= interpolate vs v0 pos
  /\ interpolate vs v0 pos <= nth (S lo) vs (nth lo vs v0).
Proof.
  intros H0 Hn Hlen lo. destruct (floor_nat pos H0) as [Hlo Hhi]. fold lo in Hlo, Hhi.
  assert (Hlt : (lo < List.length vs)%nat).
  { assert (Qnat lo < Qnat (List.length vs - 1) + 1) by lra.
    rewrite <- Qnat_S in H. apply Qnat_lt_inv in H. lia. }
  split; [exact Hlt|]. unfold interpolate. fold lo.
  set (a := nth lo vs v0). set (b := nth (S lo) vs a).
  assert (Hab : a <= b).
  { unfold b. destruct (Nat.lt_ge_cases (S lo) (List.length vs)) as [Hin|Hout].
    - unfold a. apply sorted_nth_le; [exact vs_sorted | lia | exact Hin].
    - rewrite (nth_overflow vs a Hout). apply Qle_refl. }
  assert (Hf0 : 0 <= pos - Qnat lo) by lra.
  assert (Hf1 : pos - Qnat lo <= 1) by lra.
  split; nra.
Qed.

Lemma interpolate_monotone (pos pos' : Q) :
  0 <= pos -> pos <= pos' -> pos' <= Qnat (List.length vs - 1) ->
  (0 < List.length vs)%nat ->
  interpolate vs v0 pos <= interpolate vs v0 pos'.
Proof.
  intros H0 Hle Hn Hlen.
  assert (H0' : 0 <= pos') by lra. assert (Hn' : pos <= Qnat (List.length vs - 1)) by lra.
  destruct (interpolate_between pos H0 Hn' Hlen) as [Hlt [Hlow Hup]].
  destruct (interpolate_between pos' H0' Hn Hlen) as [Hlt' [Hlow' Hup']].
  destruct (floor_nat pos H0) as [Hlo Hhi]. destruct (floor_nat pos' H0') as [Hlo' Hhi'].
  set (lo := Z.to_nat (Qfloor pos)) in *. set (lo' := Z.to_nat (Qfloor pos')) in *.
  assert (Hll : (lo <= lo')%nat).
  { unfold lo, lo'. apply Z2Nat.inj_le.
    - rewrite <- (Qfloor_Z 0). now apply Qfloor_resp_le.
    - rewrite <- (Qfloor_Z 0). now apply Qfloor_resp_le.
    - now apply Qfloor_resp_le. }
  destruct (Nat.eq_dec lo lo') as [E|E].
  - unfold interpolate. fold lo lo'. rewrite <- E.
    set (a := nth lo vs v0). set (b := nth (S lo) vs a).
    assert (Hab : a <= b).
    { unfold b. destruct (Nat.lt_ge_cases (S lo) (List.length vs)) as [Hin|Hout].
      - unfold a. apply sorted_nth_le; [exact vs_sorted | lia | exact Hin].
      - rewrite (nth_overflow vs a Hout). apply Qle_refl. }
    nra.
  - eapply Qle_trans; [exact Hup|]. eapply Qle_trans; [|exact Hlow'].
    apply sorted_nth_le; [exact vs_sorted | lia | exact Hlt'].
Qed.

End Interpolation.

Lemma Qfloor_unique (x : Q) (z : Z) :
  inject_Z z <= x -> x < inject_Z (z + 1) -> Qfloor x = z.
Proof.
  intros Hlo Hhi. apply Z.le_antisymm.
  - assert (H : inject_Z (Qfloor x) < inject_Z (z + 1)).
    { eapply Qle_lt_trans; [apply Qfloor_le | exact Hhi]. }
    rewrite <- Zlt_Qlt in H. lia.
  - rewrite <- (Qfloor_Z z). now apply Qfloor_resp_le.
Qed.

Lemma quantile_of_interpolate (p : Q) (xs : list Q) :
  quantile_of p xs
  = match sort_values xs with
    | [] => None
    | (v0 :: _) as vs =>
        Some (Qred (interpolate vs v0 (p * Qnat (List.length vs - 1))))
    end.
Proof.
  unfold quantile_of, interpolate. destruct (sort_values xs); reflexivity.
Qed.

(** The median is the value at the middle rank. *)
Lemma median_interpolate (vs : list Q) (v0 : Q) :
  (0 < List.length vs)%nat ->
  (if Nat.even (List.length vs)
   then (nth (List.length vs / 2 - 1) vs v0 + nth (List.length vs / 2) vs v0) / 2
   else nth (List.length vs / 2) vs v0)
  == interpolate vs v0 ((1 # 2) * Qnat (List.length vs - 1)).
Proof.
  intros Hlen. set (n := List.length vs) in *.
  destruct (Nat.even n) eqn:E.
  - apply Nat.even_spec in E. destruct E as [k Hk].
    assert (Hk1 : (1 <= k)%nat) by lia.
    assert (Hq : Qnat (n - 1) == 2 * Qnat (k - 1) + 1).
    { unfold Qnat. rewrite Hk.
      replace (Z.of_nat (2 * k - 1)) with (2 * Z.of_nat (k - 1) + 1)%Z by lia.
      rewrite inject_Z_plus, inject_Z_mult. reflexivity. }
    assert (Hfloor : Qfloor ((1 # 2) * Qnat (n - 1)) = Z.of_nat (k - 1)).
    { apply Qfloor_unique.
      - rewrite Hq. fold (Qnat (k - 1)). lra.
      - rewrite Hq, inject_Z_plus. fold (Qnat (k - 1)). change (inject_Z 1) with 1. lra. }
    unfold interpolate. rewrite Hfloor, Nat2Z.id.
    replace (n / 2)%nat with k by (rewrite Hk, Nat.mul_comm, Nat.div_mul; lia).
    replace (S (k - 1)) with k by lia.
    rewrite (nth_indep vs (nth (k - 1) vs v0) v0) by (fold n; lia).
    rewrite Hq. field.
  - assert (Hodd : Nat.odd n = true) by (unfold Nat.odd; now rewrite E).
    apply Nat.odd_spec in Hodd. destruct Hodd as [k Hk].
    assert (Hq : Qnat (n - 1) == 2 * Qnat k).
    { unfold Qnat. rewrite Hk.
      replace (Z.of_nat (2 * k + 1 - 1)) with (2 * Z.of_nat k)%Z by lia.
      rewrite inject_Z_mult. reflexivity. }
    assert (Hfloor : Qfloor ((1 # 2) * Qnat (n - 1)) = Z.of_nat k).
    { apply Qfloor_unique.
      - rewrite Hq. fold (Qnat k). lra.
      - rewrite Hq, inject_Z_plus. fold (Qnat k). change (inject_Z 1) with 1. lra. }
    unfold interpolate. rewrite Hfloor, Nat2Z.id.
    replace (n / 2)%nat with k.
    2:{ rewrite Hk. apply (Nat.div_unique (2 * k + 1) 2 k 1); lia. }
    rewrite Hq. ring.
Qed.

(** The quartiles of a non-empty list of numbers are ordered and lie within
    any bounds of the numbers. *)
Lemma quartiles_ordered (xs : list Q) :
  xs <> [] ->
  exists a m b,
    quantile_of (1 # 4) xs = Some a
    /\ median_of xs = Some m
    /\ quantile_of (3 # 4) xs = Some b
    /\ a <= m /\ m <= b
    /\ forall lo hi, (forall x, In x xs -> lo <= x <= hi) -> lo <= a /\ b <= hi.
Proof.
  intros Hne. destruct (sort_values_spec xs) as [Hs [Hlen Hin]].
  rewrite !quantile_of_interpolate. unfold median_of.
  destruct (sort_values xs) as [|v0 rest] eqn:Hsort.
  { destruct xs; [now elim Hne | discriminate Hlen]. }
  set (vs := v0 :: rest) in *.
  assert (Hpos : (0 < List.length vs)%nat) by (simpl; lia).
  pose proof (Qnat_nonneg (List.length vs - 1)) as Hm.
  set (m := Qnat (List.length vs - 1)) in *.
  pose proof (median_interpolate vs v0 Hpos) as Hmed. fold m in Hmed.
  exists (Qred (interpolate vs v0 ((1 # 4) * m))),
    (if Nat.even (List.length vs)
     then Qred ((nth (List.length vs / 2 - 1) vs v0 + nth (List.length vs / 2) vs v0) / 2)
     else Qred (nth (List.length vs / 2) vs v0)),
    (Qred (interpolate vs v0 ((3 # 4) * m))).
  split; [reflexivity|]. split.
  { destruct (Nat.even (List.length vs)); reflexivity. }
  split; [reflexivity|].
  assert (Hmedian :
            (if Nat.even (List.length vs)
             then Qred ((nth (List.length vs / 2 - 1) vs v0
                         + nth (List.length vs / 2) vs v0) / 2)
             else Qred (nth (List.length vs / 2) vs v0))
            == interpolate vs v0 ((1 # 2) * m)).
  { rewrite <- Hmed. destruct (Nat.even (List.length vs)); apply Qred_correct. }
  assert (H1 : interpolate vs v0 ((1 # 4) * m) <= interpolate vs v0 ((1 # 2) * m)).
  { apply interpolate_monotone; try assumption; fold m; lra. }
  assert (H2 : interpolate vs v0 ((1 # 2) * m) <= interpolate vs v0 ((3 # 4) * m)).
  { apply interpolate_monotone; try assumption; fold m; lra. }
  split; [rewrite Hmedian, Qred_correct; exact H1|].
  split; [rewrite Hmedian, Qred_correct; exact H2|].
  intros lo hi Hb. rewrite !Qred_correct.
  assert (Hnth : forall i d, (forall x, In x vs -> lo <= x <= hi) ->
                             lo <= d <= hi -> lo <= nth i vs d <= hi).
  { intros i d Hall Hd. destruct (nth_in_or_default i vs d) as [Hi| ->]; auto. }
  assert (Hvs : forall x, In x vs -> lo <= x <= hi).
  { intros x Hx. apply Hb, Hin. exact Hx. }
  assert (Hv0 : lo <= v0 <= hi) by (apply Hvs; now left).
  destruct (interpolate_between vs v0 Hs ((1 # 4) * m)) as [_ [L1 _]];
    [lra | fold m; lra | exact Hpos |].
  destruct (interpolate_between vs v0 Hs ((3 # 4) * m)) as [_ [_ U3]];
    [lra | fold m; lra | exact Hpos |].
  split.
  - eapply Qle_trans; [|exact L1]. apply Hnth; assumption.
  - eapply Qle_trans; [exact U3|]. apply Hnth; [assumption|]. apply Hnth; assumption.
Qed.

(** X7: on a numeric satisfaction column with at least one value, the three
    percentiles of a returned record are numbers in the order
    p25 <= median <= p75, and they lie within any bounds of the values. *)
Theorem satisfaction_quartiles (df : DataFrame) (st : Stats) (xs : list (option Q)) :
  calculate_comprehensive_stats df = Ok st ->
  lookup "satisfaction" (columns df) = Some (NumS xs) ->
  (exists q, In (Some q) xs) ->
  exists a m b,
    satisfaction_p25 st = Fin a
    /\ satisfaction_median st = Fin m
    /\ satisfaction_p75 st = Fin b
    /\ a <= m /\ m <= b
    /\ forall lo hi, (forall q, In (Some q) xs -> lo <= q <= hi) -> lo <= a /\ b <= hi.
Proof.
  intros R L [q Hq].
  destruct (comprehensive_stats_inv df st R)
    as [_ [_ [_ [_ [_ [_ [_ [_ [_ [_ [_ [_ [_ [_ [_ [H25 [Hmed H75]]]]]]]]]]]]]]]]].
  rewrite (if_column_present df _ _ _ _ L) in H25.
  rewrite (if_column_present df _ _ _ _ L) in Hmed.
  rewrite (if_column_present df _ _ _ _ L) in H75.
  unfold quantile, median in *. simpl in H25, Hmed, H75.
  destruct (quartiles_ordered (dropna xs)) as [a [m [b [Ha [Hm [Hb [H1 [H2 H3]]]]]]]].
  { intros E. apply In_dropna in Hq. rewrite E in Hq. contradiction. }
  rewrite Ha in H25. rewrite Hm in Hmed. rewrite Hb in H75.
  inversion H25. inversion Hmed. inversion H75.
  exists a, m, b. repeat split; try assumption; apply (H3 lo hi);
    intros x Hx; apply H; now apply In_dropna.
Qed.

Lemma satisfaction_quartiles_witness :
  exists st a m b,
    calculate_comprehensive_stats likert = Ok st
    /\ satisfaction_p25 st = Fin a /\ satisfaction_median st = Fin m
    /\ satisfaction_p75 st = Fin b /\ a <= m /\ m <= b.
Proof.
  destruct (calculate_comprehensive_stats likert) as [st|e] eqn:R;
    [|vm_compute in R; discriminate R].
  destruct (satisfaction_quartiles likert st likert_scores R)
    as [a [m [b [Ha [Hm [Hb [H1 [H2 _]]]]]]]].
  - reflexivity.
  - exists 4. now left.
  - exists st, a, m, b. repeat split; assumption.
Defined.

(** ** Averages *)

Lemma Qsum_bounds (lo hi : Q) (l : list Q) :
  (forall x, In x l -> lo <= x <= hi) ->
  Qnat (List.length l) * lo <= Qsum l /\ Qsum l <= Qnat (List.length l) * hi.
Proof.
  induction l as [|x l IH]; intros H.
  - simpl. change (Qnat 0) with 0. lra.
  - destruct IH as [IH1 IH2]; [intros y Hy; apply H; now right|].
    destruct (H x (or_introl eq_refl)) as [Hx1 Hx2].
    cbn [List.length Qsum fold_right]. fold (Qsum l). rewrite Qnat_S. lra.
Qed.

Lemma mean_of_bounds (lo hi : Q) (l : list Q) :
  l <> [] -> (forall x, In x l -> lo <= x <= hi) ->
  exists m, mean_of l = Some m /\ lo <= m <= hi.
Proof.
  intros Hne H. destruct (Qsum_bounds lo hi l H) as [H1 H2].
  destruct l as [|x l]; [now elim Hne|].
  eexists. split; [reflexivity|]. rewrite Qred_correct.
  set (n := Qnat (List.length (x :: l))) in *.
  assert (Hn : 0 < n) by (apply Qnat_pos; simpl; lia).
  split.
  - apply Qle_shift_div_l; [exact Hn | lra].
  - apply Qle_shift_div_r; [exact Hn | lra].
Qed.

Lemma mean_within (lo hi : Q) (xs : list (option Q)) (x : pyfloat) :
  values_within lo hi xs -> mean (NumS xs) = Ok x -> within lo hi x.
Proof.
  intros [[q Hq] Hb] H. unfold mean in H. simpl in H.
  destruct (mean_of_bounds lo hi (dropna xs)) as [m [Hm Hr]].
  - intros E. apply In_dropna in Hq. rewrite E in Hq. contradiction.
  - intros y Hy. apply Hb. now apply In_dropna.
  - rewrite Hm in H. inversion H. exists m. auto.
Qed.

Lemma likert_survey_scores : survey_scores likert_scores.
Proof.
  intros q Hq. exists (Qnum q). unfold likert_scores in Hq. simpl in Hq.
  repeat (destruct Hq as [Hq|Hq];
          [first [discriminate Hq | inversion Hq; subst; split; [reflexivity | simpl; lia]]|]).
  contradiction.
Qed.

(** X8: each average of a returned record lies within any bounds of the
    values of its column, for a column of whole-number scores on the scale of
    the survey holding at least one of them: on the 1-5 scale the averages are
    between 1 and 5, on the 0-10 scale [avg_nps] is between 0 and 10.  (The
    sum of such scores is exact in double precision and the quotient is
    rounded once, which keeps it between the least and the greatest score.) *)
Theorem averages_within_range (df : DataFrame) (st : Stats) (lo hi : Q) :
  calculate_comprehensive_stats df = Ok st ->
  (forall xs, lookup "satisfaction" (columns df) = Some (NumS xs) ->
              survey_scores xs ->
              values_within lo hi xs -> within lo hi (avg_satisfaction st))
  /\ (forall xs, lookup "product_quality" (columns df) = Some (NumS xs) ->
                 survey_scores xs ->
                 values_within lo hi xs -> within lo hi (avg_product_quality st))
  /\ (forall xs, lookup "customer_service" (columns df) = Some (NumS xs) ->
                 survey_scores xs ->
                 values_within lo hi xs -> within lo hi (avg_customer_service st))
  /\ (forall xs, lookup "value_for_money" (columns df) = Some (NumS xs) ->
                 survey_scores xs ->
                 values_within lo hi xs -> within lo hi (avg_value st))
  /\ (forall xs, lookup "likelihood_to_recommend" (columns df) = Some (NumS xs) ->
                 survey_scores xs ->
                 values_within lo hi xs -> within lo hi (avg_nps st)).
Proof.
  intros R.
  destruct (comprehensive_stats_inv df st R)
    as [_ [_ [_ [H1 [H2 [H3 [H4 [H5 _]]]]]]]].
  repeat split; intros xs L _ Hv.
  - rewrite (if_column_present df _ _ _ _ L) in H1. exact (mean_within lo hi xs _ Hv H1).
  - rewrite (if_column_present df _ _ _ _ L) in H2. exact (mean_within lo hi xs _ Hv H2).
  - rewrite (if_column_present df _ _ _ _ L) in H3. exact (mean_within lo hi xs _ Hv H3).
  - rewrite (if_column_present df _ _ _ _ L) in H4. exact (mean_within lo hi xs _ Hv H4).
  - rewrite (if_column_present df _ _ _ _ L) in H5. exact (mean_within lo hi xs _ Hv H5).
Qed.

Lemma averages_within_range_witness :
  exists st, calculate_comprehensive_stats likert = Ok st
             /\ within 1 5 (avg_satisfaction st).
Proof.
  destruct (calculate_comprehensive_stats likert) as [st|e] eqn:R;
    [|vm_compute in R; discriminate R].
  exists st. split; [reflexivity|].
  destruct (averages_within_range likert st 1 5 R) as [H _].
  apply (H likert_scores); [reflexivity | exact likert_survey_scores |]. split.
  - exists 4. now left.
  - intros q Hq. simpl in Hq.
    repeat (destruct Hq as [Hq|Hq]; [inversion Hq; subst; split; discriminate|]);
      try discriminate. contradiction.
Defined.

(** ** Standard deviations *)

Lemma Qsquare_nonneg (d : Q) : 0 <= d * d.
Proof.
  destruct (Qlt_le_dec d 0) as [H|H].
  - setoid_replace (d * d) with ((- d) * (- d)) by ring.
    apply Qmult_le_0_compat; lra.
  - now apply Qmult_le_0_compat.
Qed.

Lemma Qsquare_zero (d : Q) : d * d == 0 -> d == 0.
Proof.
  intros H. destruct (Qmult_integral _ _ H); assumption.
Qed.

Lemma sum_squares (m : Q) (l : list Q) :
  0 <= Qsum (map (fun x => (x - m) * (x - m)) l)
  /\ (Qsum (map (fun x => (x - m) * (x - m)) l) == 0 <-> forall x, In x l -> x == m).
Proof.
  induction l as [|x l [IH1 IH2]]; cbn [map Qsum fold_right].
  - split; [lra|]. split; [intros _ y []| reflexivity].
  - fold (Qsum (map (fun x => (x - m) * (x - m)) l)).
    set (s := Qsum (map (fun x => (x - m) * (x - m)) l)) in *.
    assert (Hsq : 0 <= (x - m) * (x - m)) by apply Qsquare_nonneg.
    split; [lra|]. split.
    + intros H. assert (Hs : s == 0) by lra.
      assert (Hx : (x - m) * (x - m) == 0) by lra.
      intros y [<-|Hy]; [|now apply IH2].
      assert (x - m == 0) by now apply Qsquare_zero. lra.
    + intros H. assert (Hx : x == m) by (apply H; now left).
      assert (Hs : s == 0) by (apply IH2; intros y Hy; apply H; now right).
      rewrite Hs, Hx. ring.
Qed.

Lemma mean_of_all_equal (l : list Q) (c : Q) :
  l <> [] -> (forall x, In x l -> x == c) ->
  exists m, mean_of l = Some m /\ m == c.
Proof.
  intros Hne H. destruct (mean_of_bounds c c l Hne) as [m [Hm Hb]].
  - intros x Hx. rewrite (H x Hx). lra.
  - exists m. split; [exact Hm | lra].
Qed.

Lemma var_of_spec (l : list Q) :
  ((List.length l < 2)%nat /\ var_of l = None)
  \/ ((2 <= List.length l)%nat
      /\ exists v, var_of l = Some v /\ 0 <= v
                   /\ (v == 0 <-> forall a b, In a l -> In b l -> a == b)).
Proof.
  unfold var_of. destruct (mean_of l) as [m|] eqn:Hm.
  - destruct (Nat.ltb (List.length l) 2) eqn:E.
    + left. apply Nat.ltb_lt in E. auto.
    + right. apply Nat.ltb_ge in E. split; [exact E|].
      eexists. split; [reflexivity|]. rewrite Qred_correct.
      destruct (sum_squares m l) as [S0 Siff].
      assert (Hn : 0 < Qnat (List.length l - 1)) by (apply Qnat_pos; lia).
      set (s := Qsum (map (fun x => (x - m) * (x - m)) l)) in *.
      set (n := Qnat (List.length l - 1)) in *.
      split; [apply Qle_shift_div_l; [exact Hn | lra]|].
      assert (Hdiv : s / n == 0 <-> s == 0).
      { split; intros H.
        - assert (s == s / n * n) by (field; lra). rewrite H in H0. lra.
        - rewrite H. field. lra. }
      rewrite Hdiv, Siff. split.
      * intros H a b Ha Hb. rewrite (H a Ha), (H b Hb). reflexivity.
      * intros H x Hx.
        assert (Hne : l <> []) by (intros ->; contradiction).
        destruct (mean_of_all_equal l x Hne) as [m' [Hm' Heq]].
        -- intros y Hy. now apply H.
        -- rewrite Hm in Hm'. inversion Hm'. subst. symmetry. exact Heq.
  - left. destruct l; [simpl; split; [lia | reflexivity] | discriminate Hm].
Qed.

Lemma std_numeric (xs : list (option Q)) (x : pyfloat) :
  std (NumS xs) = Ok x -> std_of xs x.
Proof.
  unfold std. simpl. intros H. inversion H. clear H. unfold std_of.
  rewrite <- !dropna_length.
  destruct (var_of_spec (dropna xs)) as [[Hlt ->] | [Hge [v [-> [Hv Hz]]]]].
  - left. auto.
  - right. split; [exact Hge|]. exists v. split; [reflexivity|]. split; [exact Hv|].
    rewrite Hz. split; intros H a b Ha Hb; apply H; now apply In_dropna.
Qed.

(** X9: for a column of whole-number scores on the scale of the survey, each
    standard deviation of a returned record is NaN when the column holds fewer
    than two scores, and otherwise the square root of a non-negative number
    that is zero exactly when all scores of the column are equal.  (The mean
    of equal whole-number scores is exact in double precision, so that their
    deviations vanish there as well.) *)
Theorem standard_deviations (df : DataFrame) (st : Stats) :
  calculate_comprehensive_stats df = Ok st ->
  (forall xs, lookup "satisfaction" (columns df) = Some (NumS xs) ->
              survey_scores xs -> std_of xs (std_satisfaction st))
  /\ (forall xs, lookup "product_quality" (columns df) = Some (NumS xs) ->
                 survey_scores xs -> std_of xs (std_product_quality st))
  /\ (forall xs, lookup "customer_service" (columns df) = Some (NumS xs) ->
                 survey_scores xs -> std_of xs (std_customer_service st)).
Proof.
  intros R.
  destruct (comprehensive_stats_inv df st R)
    as [_ [_ [_ [_ [_ [_ [_ [_ [H1 [H2 [H3 _]]]]]]]]]]].
  repeat split; intros xs L _.
  - rewrite (if_column_present df _ _ _ _ L) in H1. now apply std_numeric.
  - rewrite (if_column_present df _ _ _ _ L) in H2. now apply std_numeric.
  - rewrite (if_column_present df _ _ _ _ L) in H3. now apply std_numeric.
Qed.

Lemma standard_deviations_witness :
  exists st, calculate_comprehensive_stats likert = Ok st
             /\ std_of likert_scores (std_satisfaction st).
Proof.
  destruct (calculate_comprehensive_stats likert) as [st|e] eqn:R;
    [|vm_compute in R; discriminate R].
  exists st. split; [reflexivity|].
  destruct (standard_deviations likert st R) as [H _].
  apply H; [reflexivity | exact likert_survey_scores].
Defined.

(** ** The survey period *)

Lemma fold_least (rest : list Z) (init : Z) :
  let r := fold_left (fun m y => if Z.ltb y m then y else m) rest init in
  In r (init :: rest) /\ (forall y, In y (init :: rest) -> r <= y)%Z.
Proof.
  revert init. induction rest as [|x rest IH]; intros init; simpl.
  - split; [now left|]. intros y [<-|[]]. lia.
  - destruct (IH (if Z.ltb x init then x else init)) as [Hin Hle].
    cbv zeta in Hin, Hle. split.
    + destruct Hin as [Hin|Hin]; [|now right; right].
      rewrite <- Hin. destruct (Z.ltb x init); [right; now left | now left].
    + intros y Hy.
      assert (H0 := Hle _ (or_introl eq_refl)).
      destruct (Z.ltb x init) eqn:E;
        [apply Z.ltb_lt in E | apply Z.ltb_ge in E];
        destruct Hy as [<-|[<-|Hy]]; try lia; apply Hle; now right.
Qed.

Lemma fold_greatest (rest : list Z) (init : Z) :
  let r := fold_left (fun m y => if Z.ltb m y then y else m) rest init in
  In r (init :: rest) /\ (forall y, In y (init :: rest) -> y <= r)%Z.
Proof.
  revert init. induction rest as [|x rest IH]; intros init; simpl.
  - split; [now left|]. intros y [<-|[]]. lia.
  - destruct (IH (if Z.ltb init x then x else init)) as [Hin Hle].
    cbv zeta in Hin, Hle. split.
    + destruct Hin as [Hin|Hin]; [|now right; right].
      rewrite <- Hin. destruct (Z.ltb init x); [right; now left | now left].
    + intros y Hy.
      assert (H0 := Hle _ (or_introl eq_refl)).
      destruct (Z.ltb init x) eqn:E;
        [apply Z.ltb_lt in E | apply Z.ltb_ge in E];
        destruct Hy as [<-|[<-|Hy]]; try lia; apply Hle; now right.
Qed.

(** X10: the survey period of a returned record.  Without a timestamp column
    it is "N/A".  With a datetime column holding at least one timestamp it is
    the date of the earliest followed by the date of the latest timestamp,
    missing timestamps being skipped; when every timestamp is missing it reads
    "NaT to NaT". *)
Theorem date_range_spec (df : DataFrame) (st : Stats) :
  calculate_comprehensive_stats df = Ok st ->
  (has_column df "timestamp" = false -> date_range st = "N/A")
  /\ (forall xs, lookup "timestamp" (columns df) = Some (TimeS xs) ->
        (exists t, In (Some t) xs) ->
        exists first last,
          In (Some first) xs /\ In (Some last) xs
          /\ (forall t, In (Some t) xs -> first <= t <= last)%Z
          /\ date_range st
             = (isoformat (first / 86400) ++ " to " ++ isoformat (last / 86400))%string)
  /\ (forall xs, lookup "timestamp" (columns df) = Some (TimeS xs) ->
        (forall t, ~ In (Some t) xs) -> date_range st = "NaT to NaT").
Proof.
  intros R. destruct (comprehensive_stats_inv df st R) as [_ [Hd _]].
  unfold date_range_of in Hd. repeat split.
  - intros H. rewrite H in Hd. now inversion Hd.
  - intros xs L [t Ht].
    assert (Hc : has_column df "timestamp" = true) by (apply has_column_lookup; eauto).
    rewrite Hc in Hd. unfold getitem in Hd. rewrite L in Hd. cbn [bind] in Hd.
    unfold series_min, series_max, least in Hd. cbn [bind] in Hd.
    destruct (dropna xs) as [|x rest] eqn:E.
    { apply In_dropna in Ht. rewrite E in Ht. contradiction. }
    destruct (fold_least rest x) as [Hin1 Hle1].
    destruct (fold_greatest rest x) as [Hin2 Hle2].
    cbv zeta in *. cbn [date_str bind] in Hd. inversion Hd.
    rewrite <- E in Hin1, Hin2, Hle1, Hle2.
    eexists. eexists. split; [apply In_dropna; exact Hin1|].
    split; [apply In_dropna; exact Hin2|]. split; [|reflexivity].
    intros y Hy. apply In_dropna in Hy. split; [now apply Hle1 | now apply Hle2].
  - intros xs L Hnone.
    assert (Hc : has_column df "timestamp" = true) by (apply has_column_lookup; eauto).
    rewrite Hc in Hd. unfold getitem in Hd. rewrite L in Hd. cbn [bind] in Hd.
    unfold series_min, series_max, least in Hd. cbn [bind] in Hd.
    destruct (dropna xs) as [|x rest] eqn:E.
    + cbn in Hd. now inversion Hd.
    + exfalso. apply (Hnone x). apply In_dropna. rewrite E. now left.
Qed.

Lemma date_range_spec_witness :
  exists st, calculate_comprehensive_stats two_days = Ok st
             /\ date_range st = "2024-01-01 to 2024-02-01".
Proof.
  destruct (calculate_comprehensive_stats two_days) as [st|e] eqn:R;
    [|vm_compute in R; discriminate R].
  exists st. split; [reflexivity|].
  destruct (date_range_spec two_days st R) as [_ [H _]].
  destruct (H [Some 1706745600; None; Some 1704067200]%Z)
    as [first [last [H1 [H2 [Hb Hd]]]]]; [reflexivity | eexists; now left |].
  rewrite Hd.
  assert (first = 1704067200%Z).
  { pose proof (Hb 1704067200%Z) as B. simpl in H1, B.
    destruct H1 as [H1|[H1|[H1|[]]]]; inversion H1; subst; try reflexivity.
    destruct B as [B _]; [tauto | lia]. }
  assert (last = 1706745600%Z).
  { pose proof (Hb 1706745600%Z) as B. simpl in H2, B.
    destruct H2 as [H2|[H2|[H2|[]]]]; inversion H2; subst; try reflexivity.
    destruct B as [_ B]; [tauto | lia]. }
  subst. reflexivity.
Defined.

(** X11: a timestamp column that is not of datetime type (text, as read
    from a CSV file, or numbers) makes [calculate_comprehensive_stats] raise,
    whatever the other columns hold. *)
Theorem text_timestamp_raises (df : DataFrame) (s : Series) :
  lookup "timestamp" (columns df) = Some s ->
  (forall xs, s <> TimeS xs) ->
  raises (calculate_comprehensive_stats df).
Proof.
  intros L Hs.
  assert (Hd : raises (date_range_of df)).
  { unfold date_range_of, has_column, getitem. rewrite L. cbn [is_some is_none negb bind].
    destruct s as [xs|xs|xs]; [| |now elim (Hs xs)]; unfold series_min.
    - destruct (least _ _); eexists; reflexivity.
    - destruct (least _ _); [|eexists; reflexivity].
      destruct (forallb is_some xs); eexists; reflexivity. }
  destruct Hd as [e Hd]. exists e. unfold calculate_comprehensive_stats. now rewrite Hd.
Qed.

Lemma text_timestamp_raises_witness :
  raises (calculate_comprehensive_stats two_days_csv).
Proof.
  apply (text_timestamp_raises two_days_csv
           (StrS [Some "2024-02-01"; None; Some "2024-01-01"]));
    [reflexivity | discriminate].
Defined.

(** ** The shape and the failures of a segment table *)

Lemma mapM_Ok_inv {A B : Type} (f : A -> result B) (xs : list A) (ys : list B) :
  mapM f xs = Ok ys -> Forall2 (fun x y => f x = Ok y) xs ys.
Proof.
  revert ys. induction xs as [|x xs IH]; simpl; intros ys H.
  - inversion H. constructor.
  - apply bind_Ok in H. destruct H as [y [Hy H]].
    apply bind_Ok in H. destruct H as [ys' [Hys H]].
    inversion H. subst. constructor; auto.
Qed.

Lemma mapM_Raise_inv {A B : Type} (f : A -> result B) (xs : list A) (e : exn) :
  mapM f xs = Raise e -> exists x, In x xs /\ f x = Raise e.
Proof.
  induction xs as [|x xs IH]; simpl; [discriminate|].
  destruct (f x) as [y|e'] eqn:E; simpl.
  - destruct (mapM f xs) as [ys|e'']; simpl; [discriminate|].
    intros H. inversion H. subst. destruct IH as [x' [Hin Hx]]; [reflexivity|].
    exists x'. auto.
  - intros H. inversion H. subst. exists x. auto.
Qed.

Lemma aggregate_raises (s : Series) (e : exn) :
  aggregate s = Raise e -> e = TypeError.
Proof.
  unfold aggregate, mean, std.
  destruct s as [xs|xs|xs]; simpl; try discriminate.
  - destruct (forallb is_none xs); simpl; [discriminate | congruence].
  - congruence.
Qed.

(** X12: a returned segment table has the metric columns that are present,
    in the order of [numeric_cols]; its rows are in strictly increasing order
    of their key, and every row holds one aggregate per metric column. *)
Theorem analyze_by_segment_shape (df : DataFrame) (segment_column : string)
  (t : SegmentTable) :
  analyze_by_segment df segment_column = Ok t ->
  table_columns t = filter (has_column df) numeric_cols
  /\ (table_columns t = [] -> table_rows t = [])
  /\ (table_columns t <> [] ->
      exists keys, lookup segment_column (columns df) = Some keys
                   /\ map fst (table_rows t) = group_keys keys)
  /\ StronglySorted scalar_lt (map fst (table_rows t))
  /\ Forall (fun row => List.length (snd row) = List.length (table_columns t))
            (table_rows t).
Proof.
  intros R. destruct (filter (has_column df) numeric_cols) as [|c cs] eqn:E.
  - unfold analyze_by_segment in R. rewrite E in R. inversion R. simpl.
    repeat split; try constructor. intros H. now elim H.
  - assert (Hne : filter (has_column df) numeric_cols <> []) by (rewrite E; discriminate).
    rewrite (analyze_by_segment_metrics df _ Hne) in R.
    apply bind_Ok in R. destruct R as [keys [Hk R]].
    apply bind_Ok in R. destruct R as [rows [Hr R]].
    assert (Ht : t = {| table_columns := filter (has_column df) numeric_cols;
                        table_rows := rows |}) by congruence.
    subst t. clear R. cbn [table_columns table_rows].
    unfold getitem in Hk.
    destruct (lookup segment_column (columns df)) as [s|] eqn:L; [|discriminate].
    inversion Hk. subst s. apply mapM_Ok_inv in Hr.
    assert (Hkeys : map fst rows = group_keys keys).
    { clear - Hr. induction Hr as [|k row ks rows' H _ IH]; [reflexivity|].
      apply bind_Ok in H. destruct H as [aggs [_ H]]. inversion H. simpl. now rewrite IH. }
    rewrite <- E. split; [reflexivity|]. split; [rewrite E; discriminate|].
    split; [intros _; exists keys; auto|].
    split; [rewrite Hkeys; apply group_keys_spec|].
    clear Hkeys. induction Hr as [|k row ks rows' H _ IH]; constructor; [|exact IH].
    apply bind_Ok in H. destruct H as [aggs [Ha H]]. inversion H. simpl.
    apply mapM_Ok_inv in Ha. symmetry. eapply Forall2_length. exact Ha.
Qed.

Lemma analyze_by_segment_shape_witness :
  exists t, analyze_by_segment tied_regions "region" = Ok t
            /\ StronglySorted scalar_lt (map fst (table_rows t)).
Proof.
  destruct (analyze_by_segment tied_regions "region") as [t|e] eqn:R;
    [|vm_compute in R; discriminate R].
  exists t. split; [reflexivity|].
  apply (analyze_by_segment_shape tied_regions "region" t R).
Defined.

(** X13: [analyze_by_segment] raises [KeyError] exactly when a metric column
    is present and the segment column is not, and then for the segment column;
    the only other exception is [TypeError] (a metric that is not numeric). *)
Theorem analyze_by_segment_exceptions (df : DataFrame) (segment_column : string) :
  (forall key,
      analyze_by_segment df segment_column = Raise (KeyError key)
      <-> key = segment_column /\ has_column df segment_column = false
          /\ filter (has_column df) numeric_cols <> [])
  /\ (forall e, analyze_by_segment df segment_column = Raise e ->
                e = KeyError segment_column \/ e = TypeError).
Proof.
  assert (Hall : forall e, analyze_by_segment df segment_column = Raise e ->
            filter (has_column df) numeric_cols <> []
            /\ ((e = KeyError segment_column /\ has_column df segment_column = false)
                \/ e = TypeError)).
  { intros e R. destruct (filter (has_column df) numeric_cols) as [|c cs] eqn:E.
    { unfold analyze_by_segment in R. rewrite E in R. discriminate. }
    assert (Hne : filter (has_column df) numeric_cols <> []) by (rewrite E; discriminate).
    split; [discriminate|].
    rewrite (analyze_by_segment_metrics df _ Hne) in R. unfold getitem at 1 in R.
    unfold has_column.
    destruct (lookup segment_column (columns df)) as [keys|] eqn:L; cbn [bind] in R.
    - right. destruct (mapM _ (group_keys keys)) as [rows|e'] eqn:M; [discriminate|].
      cbn [bind] in R. inversion R. subst e'. clear R.
      apply mapM_Raise_inv in M. destruct M as [k [_ M]].
      destruct (mapM _ (filter (has_column df) numeric_cols)) as [aggs|e'] eqn:M';
        [discriminate|].
      cbn [bind] in M. inversion M. subst e'. clear M.
      apply mapM_Raise_inv in M'. destruct M' as [col [Hcol M']].
      apply filter_In in Hcol. destruct Hcol as [_ Hcol].
      apply has_column_lookup in Hcol. destruct Hcol as [values Lv].
      unfold getitem in M'. rewrite Lv in M'. cbn [bind] in M'.
      now apply aggregate_raises in M'.
    - left. inversion R. auto. }
  split.
  - intros key. split.
    + intros R. destruct (Hall _ R) as [Hne [[H1 H2]|H]]; [|discriminate].
      inversion H1. auto.
    + intros [-> [Hc Hne]]. rewrite (analyze_by_segment_metrics df _ Hne).
      unfold getitem, has_column in *.
      destruct (lookup segment_column (columns df)); [discriminate | reflexivity].
  - intros e R. destruct (Hall _ R) as [_ [[H _]|H]]; auto.
Qed.

(** ** Rounding in the segment table *)







(** * Properties of the loaders *)

(** ** Strings *)

Lemma string_app_assoc (a b c : string) : ((a ++ b) ++ c = a ++ b ++ c)%string.
Proof. induction a as [|x a IH]; simpl; [reflexivity | now rewrite IH]. Qed.

Lemma string_app_length (a b : string) :
  String.length (a ++ b)%string = (String.length a + String.length b)%nat.
Proof. induction a as [|x a IH]; simpl; [reflexivity | now rewrite IH]. Qed.

Lemma string_app_nil_r (a : string) : (a ++ "")%string = a.
Proof. induction a as [|x a IH]; simpl; [reflexivity | now rewrite IH]. Qed.

Lemma occurs_app (c : ascii) (a b : string) :
  occurs c (a ++ b)%string = occurs c a || occurs c b.
Proof.
  induction a as [|x a IH]; simpl; [reflexivity|]. now rewrite IH, orb_assoc.
Qed.

Lemma substring_prefix (a b : string) :
  substring 0 (String.length a) (a ++ b)%string = a.
Proof.
  induction a as [|x a IH]; simpl.
  - destruct b; reflexivity.
  - now rewrite IH.
Qed.

Lemma substring_suffix (a b : string) :
  substring (String.length a) (String.length b) (a ++ b)%string = b.
Proof.
  induction a as [|x a IH]; simpl; [|exact IH].
  induction b as [|y b IHb]; simpl; [reflexivity | now rewrite IHb].
Qed.

Lemma get_app (a : string) (x : ascii) (b : string) :
  String.get (String.length a) (a ++ String x b)%string = Some x.
Proof. induction a as [|y a IH]; simpl; [reflexivity | exact IH]. Qed.

(** ** The last occurrence of a character *)

Lemma last_index_None (c : ascii) (s : string) :
  last_index c s = None <-> occurs c s = false.
Proof.
  induction s as [|a s IH]; simpl; [tauto|].
  destruct (last_index c s) as [k|].
  - split; [discriminate|]. intros H. apply orb_false_iff in H.
    destruct H as [_ H]. apply IH in H. discriminate.
  - destruct (Ascii.eqb a c); simpl; [split; discriminate|].
    split; [intros _; now apply IH | reflexivity].
Qed.

Lemma last_index_Some (c : ascii) (s : string) (k : nat) :
  last_index c s = Some k ->
  exists pre post, s = (pre ++ String c post)%string
                   /\ String.length pre = k /\ occurs c post = false.
Proof.
  revert k. induction s as [|a s IH]; simpl; intros k; [discriminate|].
  destruct (last_index c s) as [j|] eqn:E.
  - intros H. inversion H. subst k. destruct (IH j eq_refl) as [pre [post [-> [Hl Ho]]]].
    exists (String a pre), post. simpl. auto.
  - destruct (Ascii.eqb a c) eqn:Ea; [|discriminate].
    intros H. inversion H. subst k. apply Ascii.eqb_eq in Ea. subst a.
    exists ""%string, s. simpl. split; [reflexivity|]. split; [reflexivity|].
    now apply last_index_None.
Qed.

Lemma last_index_app (c : ascii) (pre post : string) :
  occurs c post = false ->
  last_index c (pre ++ String c post)%string = Some (String.length pre).
Proof.
  intros H. induction pre as [|a pre IH]; simpl.
  - apply last_index_None in H. rewrite H. now rewrite Ascii.eqb_refl.
  - now rewrite IH.
Qed.

Lemma rfind_from_last_index (c : ascii) (s : string) (i last : Z) :
  DataLoader.rfind_from c s i last
  = match last_index c s with
    | Some k => (i + Z.of_nat k)%Z
    | None => last
    end.
Proof.
  revert i last. induction s as [|a s IH]; intros i last; simpl; [reflexivity|].
  rewrite IH. destruct (last_index c s) as [k|].
  - lia.
  - destruct (Ascii.eqb a c); [lia | reflexivity].
Qed.

Lemma rfind_last_index (c : ascii) (s : string) :
  DataLoader.rfind c s
  = match last_index c s with
    | Some k => Z.of_nat k
    | None => (-1)%Z
    end.
Proof.
  unfold DataLoader.rfind. rewrite rfind_from_last_index.
  destruct (last_index c s); reflexivity.
Qed.

(** Every path is a directory prefix followed by a name without slash. *)
Lemma path_split (p : string) :
  exists dir name,
    p = (dir ++ name)%string /\ directory dir /\ occurs "/" name = false
    /\ DataLoader.rfind "/" p = (Z.of_nat (String.length dir) - 1)%Z.
Proof.
  rewrite rfind_last_index. destruct (last_index "/" p) as [k|] eqn:E.
  - destruct (last_index_Some _ _ _ E) as [pre [post [-> [Hl Ho]]]].
    exists (pre ++ "/")%string, post. rewrite string_app_assoc. simpl.
    split; [reflexivity|]. split; [right; eauto|]. split; [exact Ho|].
    rewrite string_app_length. simpl. lia.
  - exists ""%string, p. simpl. split; [reflexivity|]. split; [now left|].
    split; [now apply last_index_None | reflexivity].
Qed.

Lemma rfind_slash (dir name : string) :
  directory dir -> occurs "/" name = false ->
  DataLoader.rfind "/" (dir ++ name)%string = (Z.of_nat (String.length dir) - 1)%Z.
Proof.
  intros [->|[d ->]] Hn; rewrite rfind_last_index.
  - simpl. apply last_index_None in Hn. rewrite Hn. reflexivity.
  - rewrite string_app_assoc. simpl. rewrite (last_index_app "/" d name Hn).
    rewrite string_app_length. simpl. lia.
Qed.

Lemma name_before_dot_scan (a n r : string) :
  DataLoader.name_before_dot (a ++ n ++ String "." r)%string
    (Z.of_nat (String.length a)) (String.length n)
  = negb (all_dots n).
Proof.
  revert a. induction n as [|x n IH]; intros a; simpl; [reflexivity|].
  rewrite Nat2Z.id.
  change (a ++ String x (n ++ String "." r))%string
    with (a ++ String x (n ++ String "." r))%string.
  rewrite get_app.
  destruct (Ascii.eqb x ".") eqn:E; simpl; [|reflexivity].
  specialize (IH (a ++ String x "")%string).
  rewrite string_app_assoc in IH. simpl in IH.
  rewrite string_app_length in IH. simpl in IH.
  replace (Z.of_nat (String.length a) + 1)%Z with (Z.of_nat (String.length a + 1)) by lia.
  exact IH.
Qed.

(** [splitext] on a path with a dotted last component. *)
Lemma splitext_dotted (dir stem e : string) :
  directory dir -> occurs "/" stem = false ->
  occurs "/" e = false -> occurs "." e = false ->
  DataLoader.splitext (dir ++ stem ++ String "." e)%string
  = if all_dots stem
    then ((dir ++ stem ++ String "." e)%string, ""%string)
    else ((dir ++ stem)%string, String "." e).
Proof.
  intros Hd Hs He1 He2. unfold DataLoader.splitext.
  assert (Hname : occurs "/" (stem ++ String "." e)%string = false).
  { rewrite occurs_app. simpl. now rewrite Hs, He1. }
  rewrite (rfind_slash dir _ Hd Hname).
  assert (Hdot : DataLoader.rfind "." (dir ++ stem ++ String "." e)%string
                 = Z.of_nat (String.length (dir ++ stem)%string)).
  { rewrite rfind_last_index, <- string_app_assoc.
    now rewrite (last_index_app "." (dir ++ stem)%string e He2). }
  rewrite Hdot. rewrite string_app_length.
  replace (Z.of_nat (String.length dir) - 1 + 1)%Z with (Z.of_nat (String.length dir)) by lia.
  replace (Z.to_nat (Z.of_nat (String.length dir + String.length stem)
                     - Z.of_nat (String.length dir)))
    with (String.length stem) by lia.
  rewrite name_before_dot_scan.
  replace (Z.of_nat (String.length dir) - 1 <? Z.of_nat (String.length dir + String.length stem))%Z
    with true by (symmetry; apply Z.ltb_lt; lia).
  simpl andb. destruct (all_dots stem); simpl; [reflexivity|].
  unfold DataLoader.slice. f_equal.
  - rewrite Z.sub_0_r, Nat2Z.id. simpl Z.to_nat.
    rewrite <- string_app_length, <- string_app_assoc. apply substring_prefix.
  - rewrite Nat2Z.id.
    replace (Z.to_nat (Z.of_nat (String.length (dir ++ stem ++ String "." e)%string)
                       - Z.of_nat (String.length dir + String.length stem)))
      with (String.length (String "." e)).
    + rewrite <- string_app_length, <- string_app_assoc. apply substring_suffix.
    + rewrite <- string_app_assoc, !string_app_length. simpl. lia.
Qed.

(** [splitext] on a path whose last component has no dot. *)
Lemma splitext_plain (dir name : string) :
  directory dir -> occurs "/" name = false -> occurs "." name = false ->
  DataLoader.splitext (dir ++ name)%string = ((dir ++ name)%string, ""%string).
Proof.
  intros Hd Hs Hn. unfold DataLoader.splitext.
  rewrite (rfind_slash dir _ Hd Hs).
  assert (Hle : (DataLoader.rfind "." (dir ++ name)%string
                 <= Z.of_nat (String.length dir) - 1)%Z).
  { rewrite rfind_last_index. destruct (last_index "." (dir ++ name)%string) as [k|] eqn:E;
      [|lia].
    destruct (last_index_Some _ _ _ E) as [pre [post [Hp [Hl Ho]]]].
    destruct (Nat.lt_ge_cases k (String.length dir)) as [Hlt|Hge]; [lia|].
    exfalso.
    assert (Hocc : occurs "." name = true).
    { clear - Hp Hl Hge. subst k. revert pre Hp Hge.
      induction dir as [|x dir IH]; intros pre Hp Hge; simpl in *.
      - subst name. rewrite occurs_app. simpl. now rewrite orb_true_r.
      - destruct pre as [|y pre]; simpl in *; [lia|].
        inversion Hp. apply (IH pre); [assumption | lia]. }
    congruence. }
  replace (Z.of_nat (String.length dir) - 1 <? DataLoader.rfind "." (dir ++ name)%string)%Z
    with false by (symmetry; apply Z.ltb_ge; exact Hle).
  reflexivity.
Qed.

(** ** Dispatch by extension *)

Lemma all_dots_no_slash (s : string) : all_dots s = true -> occurs "/" s = false.
Proof.
  induction s as [|a s IH]; simpl; [reflexivity|].
  rewrite andb_true_iff. intros [Ha Hs]. apply Ascii.eqb_eq in Ha. subst a.
  simpl. now apply IH.
Qed.



(** X16: what [load_from_file] rejects without reading anything.  A path
    that does not exist raises [FileNotFoundError] naming it, whatever its
    extension.  An existing file whose last component has no dot, or no
    character other than a dot before its last dot (".csv", "..pdf"), has no
    extension and raises [ValueError].  Nothing is printed in either case. *)
Theorem load_from_file_rejects (env : DataLoader.Environment) :
  (forall file_path,
      DataLoader.path_exists env file_path = false ->
      DataLoader.load_from_file env file_path
      = (nil, DataLoader.Fail
                (DataLoader.FileNotFoundError ("File not found: " ++ file_path)%string)))
  /\ (forall dir name,
        DataLoader.path_exists env (dir ++ name)%string = true ->
        directory dir -> occurs "/" name = false ->
        (occurs "." name = false
         \/ exists dots e, name = (dots ++ String "." e)%string
                           /\ all_dots dots = true
                           /\ occurs "." e = false /\ occurs "/" e = false) ->
        DataLoader.load_from_file env (dir ++ name)%string
        = (nil, DataLoader.Fail
                  (DataLoader.ValueError
                     "Unsupported file type: . Supported: .csv, .xlsx, .xls, .pdf"))).
Proof.
  split.
  - intros file_path H. unfold DataLoader.load_from_file. now rewrite H.
  - intros dir name Hex Hd Hs Hname. unfold DataLoader.load_from_file.
    rewrite Hex. cbn [negb].
    assert (Hsplit : DataLoader.splitext (dir ++ name)%string
                     = ((dir ++ name)%string, ""%string)).
    { destruct Hname as [Hn | [dots [e [-> [Hdots [He1 He2]]]]]].
      - now apply splitext_plain.
      - rewrite (splitext_dotted dir dots e Hd (all_dots_no_slash _ Hdots) He2 He1).
        now rewrite Hdots. }
    rewrite Hsplit. reflexivity.
Qed.

Lemma load_from_file_rejects_witness :
  DataLoader.load_from_file sample_environment "exports/.csv"
  = (nil, DataLoader.Fail
            (DataLoader.ValueError
               "Unsupported file type: . Supported: .csv, .xlsx, .xls, .pdf")).
Proof.
  apply (proj2 (load_from_file_rejects sample_environment) "exports/" ".csv").
  - reflexivity.
  - right. exists "exports"%string. reflexivity.
  - reflexivity.
  - right. exists ""%string, "csv"%string. repeat split.
Defined.

(** ** Excel and PDF *)

(** X17: [load_from_excel] with [sheet_name=None] never returns a dataset:
    pandas then yields a dict of all sheets, and the report on the number of
    columns raises [AttributeError] (unless reading the file already failed);
    only the opening line is printed. *)
Theorem load_from_excel_all_sheets (env : DataLoader.Environment) (file_path : string) :
  exists e,
    DataLoader.load_from_excel env file_path None
    = (("📂 Loading Excel: " ++ file_path)%string :: nil, DataLoader.Fail e)
    /\ (forall sheets, DataLoader.read_excel_all env file_path = DataLoader.Done sheets ->
                       e = DataLoader.AttributeError
                             "'dict' object has no attribute 'columns'")
    /\ (forall e', DataLoader.read_excel_all env file_path = DataLoader.Fail e' -> e = e').
Proof.
  unfold DataLoader.load_from_excel, DataLoader.bind, DataLoader.print, DataLoader.lift,
    DataLoader.raise.
  destruct (DataLoader.read_excel_all env file_path) as [sheets|e'].
  - eexists. split; [reflexivity|]. split; [reflexivity|]. discriminate.
  - exists e'. split; [reflexivity|]. split; [discriminate|]. congruence.
Qed.

Lemma snd_bind {A B : Type} (m : DataLoader.io A) (k : A -> DataLoader.io B) :
  snd (DataLoader.bind m k)
  = match snd m with
    | DataLoader.Done a => snd (k a)
    | DataLoader.Fail e => DataLoader.Fail e
    end.
Proof.
  destruct m as [out [a|e]]; simpl; [|reflexivity]. destruct (k a). reflexivity.
Qed.

Section PdfTables.

(** An environment whose frame constructor succeeds on the tables with text
    in their first row. *)
Variable env : DataLoader.Environment.
Variable frame : DataLoader.table -> DataFrame.
Hypothesis make_frame_ok :
  forall header rows,
    text_header (header :: rows) = true ->
    DataLoader.make_frame env header rows = DataLoader.Done (frame (header :: rows)).

Lemma tables_of_page_frames (page_number : nat) (tables : list DataLoader.table) :
  forallb text_header (filter (fun t => Nat.ltb 1 (List.length t)) tables) = true ->
  snd (DataLoader.tables_of_page env page_number tables)
  = DataLoader.Done (map frame (filter (fun t => Nat.ltb 1 (List.length t)) tables)).
Proof.
  induction tables as [|t rest IH]; [reflexivity|].
  destruct t as [|header [|r rs]];
    cbn [DataLoader.tables_of_page filter List.length Nat.ltb Nat.leb forallb];
    try exact IH.
  rewrite andb_true_iff. intros [Ht Hrest].
  rewrite snd_bind. unfold DataLoader.lift at 1. cbn [snd]. rewrite (make_frame_ok _ _ Ht).
  rewrite snd_bind. cbn [snd DataLoader.print]. rewrite snd_bind, (IH Hrest). reflexivity.
Qed.

Lemma tables_of_pages_frames (i : nat) (pages : list (list DataLoader.table)) :
  forallb text_header (qualifying pages) = true ->
  snd (DataLoader.tables_of_pages env i (map DataLoader.Done pages))
  = DataLoader.Done (map frame (qualifying pages)).
Proof.
  revert i. induction pages as [|page rest IH]; intros i; [reflexivity|].
  unfold qualifying. cbn [flat_map]. rewrite forallb_app, andb_true_iff. intros [Hp Hr].
  cbn [DataLoader.tables_of_pages map]. rewrite snd_bind. cbn [snd DataLoader.lift].
  rewrite snd_bind, (tables_of_page_frames _ _ Hp).
  rewrite snd_bind, (IH (S i) Hr). cbn [snd DataLoader.ret]. unfold qualifying.
  now rewrite map_app.
Qed.

End PdfTables.

Lemma snd_report_loaded (df : DataFrame) :
  snd (DataLoader.report_loaded df) = DataLoader.Done df.
Proof. reflexivity. Qed.

(** X18: [load_from_pdf] raises [ImportError] before printing anything when
    pdfplumber is missing.  Otherwise, when every page is extracted and the
    tables with text in their first row make a frame, the tables with at most
    one row are ignored and the others are taken in page order: none raises
    [ValueError], exactly one is returned as it is, several are concatenated
    by pandas. *)
Theorem load_from_pdf_tables (env : DataLoader.Environment) (file_path : string) :
  (DataLoader.pdfplumber env = None ->
   DataLoader.load_from_pdf env file_path
   = (nil, DataLoader.Fail
             (DataLoader.ImportError "pdfplumber is required for PDF loading.
Install it: pip install pdfplumber")))
  /\ (forall open_pdf pages (frame : DataLoader.table -> DataFrame),
        DataLoader.pdfplumber env = Some open_pdf ->
        open_pdf file_path = DataLoader.Done (map DataLoader.Done pages) ->
        forallb text_header (qualifying pages) = true ->
        (forall header rows,
            text_header (header :: rows) = true ->
            DataLoader.make_frame env header rows
            = DataLoader.Done (frame (header :: rows))) ->
        snd (DataLoader.load_from_pdf env file_path)
        = match map frame (qualifying pages) with
          | nil => DataLoader.Fail
                     (DataLoader.ValueError ("No tables found in PDF: " ++ file_path)%string)
          | df :: nil => DataLoader.Done df
          | frames => DataLoader.concat env frames
          end).
Proof.
  split.
  - intros H. unfold DataLoader.load_from_pdf. now rewrite H.
  - intros open_pdf pages frame Hp Ho Ht Hf. unfold DataLoader.load_from_pdf. rewrite Hp.
    rewrite snd_bind. cbn [snd DataLoader.print]. rewrite snd_bind.
    unfold DataLoader.lift at 1. cbn [snd]. rewrite Ho.
    rewrite snd_bind, (tables_of_pages_frames env frame Hf _ _ Ht).
    destruct (map frame (qualifying pages)) as [|df [|df' frames]].
    + reflexivity.
    + apply snd_report_loaded.
    + rewrite snd_bind. unfold DataLoader.lift. cbn [snd].
      destruct (DataLoader.concat env (df :: df' :: frames)); reflexivity.
Qed.

Lemma load_from_pdf_tables_witness :
  snd (DataLoader.load_from_pdf pdf_environment "survey.pdf")
  = DataLoader.Done {| nrows := 3; columns := nil |}.
Proof.
  rewrite (proj2 (load_from_pdf_tables pdf_environment "survey.pdf") _ sample_pages
             (fun t => {| nrows := List.length t - 1; columns := nil |})
             eq_refl eq_refl eq_refl).
  - reflexivity.
  - intros header rows _. simpl. now rewrite Nat.sub_0_r.
Defined.

(** ** The Gemini provider *)

(** X19: [get_llm_provider] returns a provider exactly when the client library
    is installed, [api_key.py] holds a non-empty key and the model could be
    initialised with it; otherwise it raises [RuntimeError].  The provider
    returned is available and answers a prompt with the stripped text of the
    model's response, or with [None] when the text is empty or the call
    fails, in which case the failure is printed. *)
Theorem get_llm_provider_spec (lib : Gemini.Library) :
  ((exists p, snd (Gemini.get_llm_provider lib) = Gemini.Returned p)
   <-> Gemini.GEMINI_AVAILABLE lib = true
       /\ exists key, Gemini.GEMINI_API_KEY lib = Some key /\ key <> ""
                      /\ exists m, Gemini.initialize lib key = inl m)
  /\ ((exists p, snd (Gemini.get_llm_provider lib) = Gemini.Returned p)
      \/ exists message, snd (Gemini.get_llm_provider lib) = Gemini.RuntimeError message)
  /\ forall p,
       snd (Gemini.get_llm_provider lib) = Gemini.Returned p ->
       Gemini.available p = true
       /\ Gemini.name p = "Google Gemini Flash 2.5"
       /\ exists m,
            Gemini.model p = Some m
            /\ forall prompt,
                 Gemini.generate lib p prompt
                 = match m prompt with
                   | Gemini.Text text =>
                       (nil, if String.eqb text "" then None
                             else Some (Gemini.strip lib text))
                   | Gemini.Failure e => (("⚠️  Gemini API error: " ++ e)%string :: nil, None)
                   end.
Proof.
  unfold Gemini.get_llm_provider, Gemini.GeminiProvider, Gemini.get_gemini_api_key.
  destruct (Gemini.GEMINI_AVAILABLE lib); cbn [negb].
  2:{ cbn. split; [split|split].
      - intros [p H]. discriminate.
      - intros [H _]. discriminate.
      - right. eexists. reflexivity.
      - intros p H. discriminate. }
  destruct (Gemini.GEMINI_API_KEY lib) as [key|].
  2:{ cbn. split; [split|split].
      - intros [p H]. discriminate.
      - intros [_ [key [H _]]]. discriminate.
      - right. eexists. reflexivity.
      - intros p H. discriminate. }
  destruct (String.eqb key "") eqn:K.
  { apply String.eqb_eq in K. cbn. split; [split|split].
    - intros [p H]. discriminate.
    - intros [_ [key' [H [N _]]]]. congruence.
    - right. eexists. reflexivity.
    - intros p H. discriminate. }
  rewrite K. apply String.eqb_neq in K.
  destruct (Gemini.initialize lib key) as [m|e] eqn:I.
  - cbn. split; [split|split].
    + intros _. split; [reflexivity|]. exists key. repeat split; [exact K|]. now exists m.
    + intros _. eexists. reflexivity.
    + left. eexists. reflexivity.
    + intros p H. inversion H. subst p. clear H. cbn.
      split; [reflexivity|]. split; [reflexivity|]. exists m. split; [reflexivity|].
      intros prompt. reflexivity.
  - cbn. split; [split|split].
    + intros [p H]. discriminate.
    + intros [_ [key' [H [_ [m Hm]]]]]. inversion H. subst key'. congruence.
    + right. eexists. reflexivity.
    + intros p H. discriminate.
Qed.

(** ** The insights *)

Lemma percent_no_responses (rt : Report.Runtime) (a : nat) :
  Report.percent rt a 0 = Raise ZeroDivisionError.
Proof. reflexivity. Qed.

Lemma percent_returns (rt : Report.Runtime) (a b : nat) :
  b <> 0%nat -> returns (Report.percent rt a b).
Proof.
  intros H. unfold Report.percent, true_divide.
  destruct (Nat.eqb b 0) eqn:E; [apply Nat.eqb_eq in E; contradiction|].
  eexists. reflexivity.
Qed.

Lemma fstring_returns (pieces : list (result string)) :
  Forall returns pieces -> returns (Report.fstring pieces).
Proof.
  induction 1 as [|piece rest [s Hs] _ [t Ht]]; [eexists; reflexivity|].
  cbn [Report.fstring]. rewrite Hs, Ht. eexists. reflexivity.
Qed.

Lemma returns_Ok {A : Type} (a : A) : returns (Ok a).
Proof. now exists a. Qed.

Lemma prompts_need_responses (rt : Report.Runtime) (stats : Stats) :
  total_responses stats = 0%nat ->
  Report.summary_prompt rt stats = Raise ZeroDivisionError.
Proof.
  intros H. unfold Report.summary_prompt. rewrite H. reflexivity.
Qed.

Lemma prompts_return (rt : Report.Runtime) (stats : Stats) :
  total_responses stats <> 0%nat ->
  returns (Report.summary_prompt rt stats)
  /\ returns (Report.trends_prompt rt stats)
  /\ returns (Report.recommendations_prompt rt stats).
Proof.
  intros H.
  repeat split; apply fstring_returns;
    repeat (apply Forall_cons; [first [apply returns_Ok | apply percent_returns; exact H]|]);
    apply Forall_nil.
Qed.

Lemma error_text_not_empty (insight_type : string) :
  ("[Error generating " ++ insight_type ++ " insights]")%string <> "".
Proof. discriminate. Qed.

(** X20: [ReportGenerator.get_llm_insights].  Without an available provider
    the notice is returned and no prompt is built.  With one, statistics of
    no responses raise [ZeroDivisionError] whatever the kind of insight asked
    for; otherwise the prompt of that kind (the summary for an unknown kind)
    is sent, and the text returned is never empty: it is the provider's
    answer, or the error text naming the kind asked for. *)
Theorem get_llm_insights_spec (lib : Gemini.Library) (rt : Report.Runtime)
  (p : Gemini.Provider) (stats : Stats) (insight_type : string) :
  (Gemini.available p = false ->
   Report.get_llm_insights lib rt p stats insight_type
   = (nil, Ok "[Gemini not available - check api_key.py]"))
  /\ (Gemini.available p = true -> total_responses stats = 0%nat ->
      Report.get_llm_insights lib rt p stats insight_type = (nil, Raise ZeroDivisionError))
  /\ (Gemini.available p = true -> total_responses stats <> 0%nat ->
      exists prompt text,
        prompt_of rt stats insight_type = Ok prompt
        /\ Report.get_llm_insights lib rt p stats insight_type
           = (fst (Gemini.generate lib p prompt), Ok text)
        /\ text <> ""
        /\ (snd (Gemini.generate lib p prompt) = Some text
            \/ text = ("[Error generating " ++ insight_type ++ " insights]")%string)).
Proof.
  unfold Report.get_llm_insights. split; [|split].
  - intros A. rewrite A. reflexivity.
  - intros A T. rewrite A. cbn [negb]. now rewrite (prompts_need_responses rt stats T).
  - intros A T. rewrite A. cbn [negb].
    destruct (prompts_return rt stats T) as [[s1 H1] [[s2 H2] [s3 H3]]].
    rewrite H1, H2, H3.
    set (prompt := if String.eqb insight_type "summary" then s1
                   else if String.eqb insight_type "trends" then s2
                   else if String.eqb insight_type "recommendations" then s3 else s1).
    assert (P : prompt_of rt stats insight_type = Ok prompt).
    { unfold prompt_of, prompt.
      destruct (String.eqb insight_type "summary") eqn:E.
      - apply String.eqb_eq in E. subst insight_type. exact H1.
      - destruct (String.eqb insight_type "trends"); [exact H2|].
        destruct (String.eqb insight_type "recommendations"); [exact H3 | exact H1]. }
    exists prompt.
    destruct (Gemini.generate lib p prompt) as [out [reply|]] eqn:G; cbn [fst snd].
    + destruct (String.eqb reply "") eqn:R.
      * eexists. split; [exact P|]. split; [reflexivity|].
        split; [apply error_text_not_empty | now right].
      * exists reply. split; [exact P|]. split; [reflexivity|].
        split; [now apply String.eqb_neq | now left].
    + eexists. split; [exact P|]. split; [reflexivity|].
      split; [apply error_text_not_empty | now right].
Qed.

Lemma get_llm_insights_spec_witness :
  Report.get_llm_insights sample_library sample_runtime sample_provider
    {| total_responses := 0; date_range := "N/A"; completion_rate := Fin 0;
       avg_satisfaction := Fin 0; avg_product_quality := Fin 0;
       avg_customer_service := Fin 0; avg_value := Fin 0; avg_nps := Fin 0;
       std_satisfaction := Fin 0; std_product_quality := Fin 0;
       std_customer_service := Fin 0; nps_score := Fin 0;
       promoters := 0; passives := 0; detractors := 0;
       satisfaction_p25 := Fin 0; satisfaction_median := Fin 0;
       satisfaction_p75 := Fin 0; best_region := VStr "N/A"; best_region_score := Fin 0;
       top_age_group := VStr "N/A"; top_age_score := Fin 0 |} "trends"
  = (nil, Raise ZeroDivisionError).
Proof.
  apply (proj1 (proj2 (get_llm_insights_spec sample_library sample_runtime sample_provider
                         _ "trends"))); reflexivity.
Defined.

(** X21: [SurveyAnalyzer.get_llm_insights] on an analyzer that has not yet
    computed its statistics returns a text exactly when the statistics can be
    computed and the dataset has rows or the provider is not available.  The
    text is never empty and the statistics are then kept.  On a dataset
    without rows and with an available provider it never returns: either the
    statistics fail, or the prompts divide by the number of responses. *)
Theorem analyzer_insights (lib : Gemini.Library) (rt : Report.Runtime)
  (self : Analyzer.SurveyAnalyzer) (insight_type : string) :
  Analyzer.stats self = None ->
  let after := Analyzer.get_llm_insights lib rt self insight_type in
  ((exists text, snd (snd after) = Ok text)
   <-> returns (calculate_comprehensive_stats (Analyzer.df self))
       /\ (Gemini.available (Analyzer.llm_provider self) = false
           \/ len (Analyzer.df self) <> 0%nat))
  /\ (forall text,
         snd (snd after) = Ok text ->
         text <> ""
         /\ exists st, calculate_comprehensive_stats (Analyzer.df self) = Ok st
                       /\ Analyzer.stats (fst after) = Some st)
  /\ (len (Analyzer.df self) = 0%nat ->
      Gemini.available (Analyzer.llm_provider self) = true ->
      fst (snd after) = nil
      /\ match calculate_comprehensive_stats (Analyzer.df self) with
         | Ok st => snd (snd after) = Raise ZeroDivisionError
                    /\ Analyzer.stats (fst after) = Some st
         | Raise e => snd (snd after) = Raise e /\ fst after = self
         end).
Proof.
  intros N.
  assert (E : Analyzer.get_llm_insights lib rt self insight_type
              = match calculate_comprehensive_stats (Analyzer.df self) with
                | Ok st =>
                    ({| Analyzer.df := Analyzer.df self;
                        Analyzer.llm_provider := Analyzer.llm_provider self;
                        Analyzer.stats := Some st |},
                     Report.get_llm_insights lib rt (Analyzer.llm_provider self) st
                       insight_type)
                | Raise e => (self, (nil, Raise e))
                end).
  { unfold Analyzer.get_llm_insights, Analyzer.calculate_statistics. rewrite N.
    destruct (calculate_comprehensive_stats (Analyzer.df self)); reflexivity. }
  cbv zeta. rewrite E. clear E.
  destruct (calculate_comprehensive_stats (Analyzer.df self)) as [st|e] eqn:C.
  2:{ cbn. split; [split|split].
      - intros [text H]. discriminate.
      - intros [[st H] _]. discriminate.
      - intros text H. discriminate.
      - intros _ _. repeat split. }
  pose proof (comprehensive_stats_inv _ _ C) as [T _].
  destruct (get_llm_insights_spec lib rt (Analyzer.llm_provider self) st insight_type)
    as [S1 [S2 S3]].
  cbn [fst snd Analyzer.stats].
  destruct (Gemini.available (Analyzer.llm_provider self)) eqn:A.
  - destruct (Nat.eq_dec (len (Analyzer.df self)) 0) as [Z|Z].
    + rewrite S2; [|reflexivity | congruence]. cbn [fst snd].
      split; [split|split].
      * intros [text H]. discriminate.
      * intros [_ [H|H]]; [discriminate | contradiction].
      * intros text H. discriminate.
      * intros _ _. repeat split.
    + destruct S3 as [prompt [text [_ [R [E _]]]]]; [reflexivity | congruence |].
      rewrite R. cbn [fst snd].
      split; [split|split].
      * intros _. split; [now exists st | now right].
      * intros _. now exists text.
      * intros text' H. inversion H. subst text'.
        split; [exact E|]. exists st. split; reflexivity.
      * intros H. contradiction.
  - rewrite S1; [|reflexivity]. cbn [fst snd].
    split; [split|split].
    + intros _. split; [now exists st | now left].
    + intros _. eexists. reflexivity.
    + intros text H. inversion H.
      split; [discriminate|]. exists st. split; reflexivity.
    + intros _ H. discriminate.
Qed.

Lemma analyzer_insights_witness :
  snd (Analyzer.get_llm_insights sample_library sample_runtime
         {| Analyzer.df := no_rows; Analyzer.llm_provider := sample_provider;
            Analyzer.stats := None |} "summary")
  = (nil, Raise ZeroDivisionError).
Proof.
  pose proof (analyzer_insights sample_library sample_runtime
                {| Analyzer.df := no_rows; Analyzer.llm_provider := sample_provider;
                   Analyzer.stats := None |} "summary" eq_refl) as H.
  cbv zeta in H. destruct H as [_ [_ H]].
  specialize (H eq_refl eq_refl). destruct H as [H1 H2].
  assert (C : exists st, calculate_comprehensive_stats no_rows = Ok st)
    by (eexists; vm_compute; reflexivity).
  destruct C as [st C]. cbn [Analyzer.df] in H2. rewrite C in H2. destruct H2 as [H2 _].
  rewrite <- H1, <- H2. now destruct (snd _).
Defined.
